(** * Volume assembly and isotropic resampling: a shallow embedding

    This development embeds the preprocessing code of the repository
    ([src/preprocessing/dicom_loader.py], [resampling.py],
    [normalization.py], [pipeline.py] and [src/utils/helpers.py]) and
    proves properties of the series assembler, of the isotropic resampler
    and of the caching pipeline built on them.

    Conventions of the embedding:
    - a number held in an array or in the metadata is the rational [Q] it
      denotes; the arithmetic of the normalisation on array elements is
      exact;
    - the spacings and the zoom factors of the resampler are Python floats
      ([Py.float]): a division and a product round to the nearest 64-bit
      float, a tie going to the even significand, and overflow to an
      infinity;
    - a path is a string, looked up as it is written: two spellings of one
      path are two paths, except that a directory is made under its name
      without the slashes that end it;
    - a numpy array is its shape, its element type and its row-major buffer;
    - a raised exception is a value of [exn]; a call returns [Result A];
    - the file system, and the log of observable calls, are threaded through
      the state monad [M];
    - what lives outside the repository and computes on floating-point
      buffers (the interpolation inside scipy's [zoom], the rounding to a
      32-bit float, the standard deviation) is a field of the class
      [Externals]: every theorem holds for each of their implementations. *)

From Stdlib Require Import ZArith QArith Qround Qminmax Qabs Lia Lqa Ascii String.
From Stdlib Require Import Sorting.Sorted.
From stdpp Require Import base gmap strings list.

Set Default Proof Using "Type".

(** ** Python runtime: numbers and strings *)

Module Py.

(** [round(x)] of Python 3 on a number: the nearest integer, a tie going
    to the even neighbour. *)
Definition round (x : Q) : Z :=
  let f := Qfloor x in
  match Qcompare (x - inject_Z f)%Q (1 # 2)%Q with
  | Lt => f
  | Gt => (f + 1)%Z
  | Eq => if Z.even f then f else (f + 1)%Z
  end.

(** [x < y] on numbers, as a boolean. *)
Definition ltb (x y : Q) : bool := negb (Qle_bool y x).

(** A Python [float]: a finite number, an infinity or NaN. The two zeros
    are one value: no code here tells them apart. *)
Inductive float : Type :=
  | Fin (q : Q)
  | Inf (negative : bool)
  | NaN.

Definition pow2 (e : Z) : Q :=
  if (0 <=? e)%Z then inject_Z (2 ^ e) else (1 / inject_Z (2 ^ (- e)))%Q.

(** The 64-bit float nearest to a number: a significand of 53 bits, a tie
    going to the even significand, the last place never below 2^-1074, and
    an infinity from 2^1024 on. *)
Definition binary64 (x : Q) : float :=
  let x := Qred x in
  if Qeq_bool x 0 then Fin 0
  else
    let a := Qabs x in
    let k := (Z.log2 (Qnum a) - Z.log2 (Zpos (Qden a)))%Z in
    let k := if Qle_bool (pow2 k) a then k else (k - 1)%Z in
    let e := Z.max (k - 52) (-1074) in
    let m := round (a / pow2 e) in
    let r := (inject_Z m * pow2 e)%Q in
    if Qle_bool (pow2 1024) r then Inf (negb (Qle_bool 0 x))
    else Fin (Qred (if Qle_bool 0 x then r else - r)).

(** [float(x)]: a float is left as it is; a number written in decimal, or
    an [int], is read as the float nearest to it. *)
Definition to_float (x : float) : float :=
  match x with
  | Fin q => binary64 q
  | _ => x
  end.

Definition is_zero (x : float) : bool :=
  match to_float x with
  | Fin q => Qeq_bool q 0
  | _ => false
  end.

(** [x / y] on two floats, for a divisor that is not zero. *)
Definition quotient (x y : float) : float :=
  match to_float x, to_float y with
  | NaN, _ | _, NaN => NaN
  | Inf _, Inf _ => NaN
  | Inf s, Fin q => Inf (xorb s (negb (Qle_bool 0 q)))
  | Fin _, Inf _ => Fin 0
  | Fin a, Fin b => binary64 (a / b)
  end.

(** A float that is a number: [math.isfinite(x)]. *)
Definition is_finite (x : float) : bool :=
  match to_float x with Fin _ => true | _ => false end.

(** A float that is no negative number and not minus infinity. *)
Definition not_negative (x : float) : Prop :=
  match x with
  | Fin r => (0 <= r)%Q
  | Inf s => s = false
  | NaN => True
  end.

(** [x * y] on two floats. *)
Definition product (x y : float) : float :=
  match to_float x, to_float y with
  | NaN, _ | _, NaN => NaN
  | Inf s, Inf t => Inf (xorb s t)
  | Inf s, Fin q | Fin q, Inf s =>
      if Qeq_bool q 0 then NaN else Inf (xorb s (negb (Qle_bool 0 q)))
  | Fin a, Fin b => binary64 (a * b)
  end.

Definition chars (s : string) : list ascii := list_ascii_of_string s.
Definition str (l : list ascii) : string := string_of_list_ascii l.

Definition is_upper (c : ascii) : bool :=
  (65 <=? nat_of_ascii c)%nat && (nat_of_ascii c <=? 90)%nat.
Definition is_lower (c : ascii) : bool :=
  (97 <=? nat_of_ascii c)%nat && (nat_of_ascii c <=? 122)%nat.
Definition lower_char (c : ascii) : ascii :=
  if is_upper c then ascii_of_nat (nat_of_ascii c + 32) else c.
Definition upper_char (c : ascii) : ascii :=
  if is_lower c then ascii_of_nat (nat_of_ascii c - 32) else c.

(** [s.lower()] and [s.upper()]. *)
Definition lower (s : string) : string := str (map lower_char (chars s)).
Definition upper (s : string) : string := str (map upper_char (chars s)).

(** [str.isspace] on one character: tab to carriage return, the four
    separators 28..31 and the blank. *)
Definition is_space (c : ascii) : bool :=
  let n := nat_of_ascii c in
  ((9 <=? n)%nat && (n <=? 13)%nat) || ((28 <=? n)%nat && (n <=? 32)%nat).

Fixpoint drop_while (p : ascii -> bool) (l : list ascii) : list ascii :=
  match l with
  | [] => []
  | c :: l' => if p c then drop_while p l' else l
  end.

Definition rstrip_chars (p : ascii -> bool) (l : list ascii) : list ascii :=
  rev (drop_while p (rev l)).

(** [s.strip()]. *)
Definition strip (s : string) : string :=
  str (rstrip_chars is_space (drop_while is_space (chars s))).

Definition is_slash (c : ascii) : bool := Ascii.eqb c "/"%char.

(** [s.rstrip("/")]. *)
Definition rstrip_slash (s : string) : string :=
  str (rstrip_chars is_slash (chars s)).

(** [s.endswith(suffix)]. *)
Definition endswith (s suffix : string) : bool :=
  String.prefix (str (rev (chars suffix))) (str (rev (chars s))).

(** [os.path.basename(p)]: what follows the last slash. *)
Fixpoint after_last_slash (acc l : list ascii) : list ascii :=
  match l with
  | [] => acc
  | c :: l' => if is_slash c then after_last_slash l' l'
               else after_last_slash acc l'
  end.

Definition basename (p : string) : string :=
  str (after_last_slash (chars p) (chars p)).

(** [os.path.split(p)] on a POSIX system: what comes before the last
    slash, without the slashes that end it unless it is made of slashes,
    and what follows the last slash. *)
Definition split (p : string) : string * string :=
  let cs := chars p in
  let tail := after_last_slash cs cs in
  let head := firstn (length cs - length tail) cs in
  (str (if forallb is_slash head then head else rstrip_chars is_slash head),
   str tail).

(** [os.path.join(a, b)] on a POSIX system. *)
Definition path_join (a b : string) : string :=
  if String.prefix "/" b then b
  else if (String.eqb a "" || endswith a "/") then (a ++ b)%string
  else (a ++ "/" ++ b)%string.

End Py.

(** ** Exceptions and results *)

(** The exceptions the modelled code can raise, by the place that raises
    them. The Python class is the constructor's prefix. *)
Inductive exn : Type :=
  | FileNotFoundError_series_dir (series_dir : string)
      (* pipeline: "Series directory not found" *)
  | FileNotFoundError_no_dicom (series_dir : string)
      (* loader: "No DICOM files found in" *)
  | FileNotFoundError_path (path : string)
      (* a path that is not there, or whose directory is not there *)
  | NotADirectoryError_listdir (path : string)
      (* os.listdir on a regular file *)
  | NotADirectoryError_path (path : string)
      (* a path to be created under a regular file *)
  | FileExistsError_makedirs (path : string)
      (* os.makedirs(exist_ok=True) on a regular file *)
  | InvalidDicomError (path : string)
      (* pydicom.dcmread on a file it cannot decode *)
  | IsADirectoryError (path : string)
      (* np.load or np.save on a directory *)
  | ValueError_unexpected_shape (shape : list nat)
      (* resampler: "Unexpected volume shape" *)
  | ValueError_unpack (expected got : nat)
      (* a tuple assignment with the wrong number of values *)
  | ValueError_zoom_factors (nfactors ndim : nat)
      (* resampler: "Zoom factors != input dims" *)
  | ValueError_stack_shapes
      (* np.stack: "all input arrays must have the same shape" *)
  | ValueError_stack_empty
      (* np.stack: "need at least one array to stack" *)
  | ZeroDivisionError
      (* float division by zero *)
  | OverflowError
      (* int(round(x)) on an infinity *)
  | ValueError_nan
      (* int(round(x)) on NaN *)
  | KeyError (key : string)
      (* a dict read at a missing key *)
  | TypeError (what : string)
      (* a value of the wrong kind where it is used *)
  | IndexError
      (* a list read out of range *)
  | LibraryError (what : string).
      (* raised inside an external numeric routine *)

Inductive Result (A : Type) : Type :=
  | Ok (a : A)
  | Raise (e : exn).
Arguments Ok {A} a.
Arguments Raise {A} e.

Definition rbind {A B} (r : Result A) (k : A -> Result B) : Result B :=
  match r with
  | Ok a => k a
  | Raise e => Raise e
  end.

Definition is_ok {A} (r : Result A) : bool :=
  match r with Ok _ => true | Raise _ => false end.

(** ** numpy arrays *)

Module Np.

Inductive scalar_type : Type :=
  | int8 | uint8 | int16 | uint16 | int32 | uint32 | int64 | uint64
  | float32 | float64.

#[global] Instance scalar_type_eq_dec : EqDecision scalar_type.
Proof. solve_decision. Defined.

(** An array: [shape], [dtype] and the elements in row-major order. An
    array built by numpy has [length data = product of shape]. *)
Record ndarray : Type := mk_ndarray {
  shape : list nat;
  dtype : scalar_type;
  data : list Q
}.

Definition ndim (a : ndarray) : nat := length (shape a).

Definition size_of (shp : list nat) : nat := fold_right Nat.mul 1%nat shp.

(** The value a 16-bit signed integer holds after a C conversion from a
    wider integer: the low 16 bits, read in two's complement. *)
Definition wrap16 (z : Z) : Z := ((z + 32768) mod 65536 - 32768)%Z.

(** Conversion of a number to an integer drops the fraction. *)
Definition trunc (x : Q) : Z :=
  if Qle_bool 0 x then Qfloor x else Qceiling x.

Definition cast_int16 (x : Q) : Q := inject_Z (wrap16 (trunc x)).

(** [a.astype(np.int16)]. *)
Definition astype_int16 (a : ndarray) : ndarray :=
  {| shape := shape a; dtype := int16; data := map cast_int16 (data a) |}.

(** [a[np.newaxis, :, :]]: one more leading axis, of extent 1. *)
Definition newaxis (a : ndarray) : ndarray :=
  {| shape := 1%nat :: shape a; dtype := dtype a; data := data a |}.

(** [a.squeeze(0)] on an array whose leading extent is 1. *)
Definition squeeze0 (a : ndarray) : ndarray :=
  {| shape := tail (shape a); dtype := dtype a; data := data a |}.

Definition shape_eqb (s1 s2 : list nat) : bool := bool_decide (s1 = s2).

(** Width in bits and kind of an element type, for [np.promote_types]. *)
Definition is_float (t : scalar_type) : bool :=
  match t with float32 | float64 => true | _ => false end.
Definition is_signed (t : scalar_type) : bool :=
  match t with int8 | int16 | int32 | int64 => true | _ => false end.
Definition bits (t : scalar_type) : nat :=
  match t with
  | int8 | uint8 => 8 | int16 | uint16 => 16
  | int32 | uint32 | float32 => 32 | int64 | uint64 | float64 => 64
  end.
Definition signed_of_bits (n : nat) : scalar_type :=
  if (n <=? 8)%nat then int8 else if (n <=? 16)%nat then int16
  else if (n <=? 32)%nat then int32 else int64.

Definition promote_types (t1 t2 : scalar_type) : scalar_type :=
  if bool_decide (t1 = t2) then t1
  else if is_float t1 || is_float t2 then
    if is_float t1 && is_float t2 then float64
    else
      let f := if is_float t1 then t1 else t2 in
      let i := if is_float t1 then t2 else t1 in
      if bool_decide (f = float32) && (bits i <=? 16)%nat then float32
      else float64
  else if Bool.eqb (is_signed t1) (is_signed t2) then
    if (bits t1 <=? bits t2)%nat then t2 else t1
  else
    let s := if is_signed t1 then t1 else t2 in
    let u := if is_signed t1 then t2 else t1 in
    if (bits u <? bits s)%nat then s
    else if (bits u <? 64)%nat then signed_of_bits (2 * bits u)
    else float64.

(** [np.stack(arrays, axis=0)]: the arrays must be one or more and of one
    shape; the result has one more leading axis, indexing the arrays. *)
Definition stack (arrays : list ndarray) : Result ndarray :=
  match arrays with
  | [] => Raise ValueError_stack_empty
  | a :: rest =>
      if forallb (fun b => shape_eqb (shape b) (shape a)) rest then
        Ok {| shape := length arrays :: shape a;
              dtype := fold_left promote_types (map dtype rest) (dtype a);
              data := concat (map data arrays) |}
      else Raise ValueError_stack_shapes
  end.

End Np.
Export Np.

(** ** Python values held in the metadata dict *)

Inductive pyval : Type :=
  | PyNone
  | PyStr (s : string)
  | PyFloat (x : Q)
  | PyTuple2 (a b : Q)
  | PyFloatList (l : list Q)
  | PyStrList (l : list string).

(** ** A decoded slice file *)

(** The header attributes the loader reads, [None] for an attribute the
    header lacks, and the pixel matrix. The three attributes that can give
    the position are held as pydicom hands them out: the values of the
    element, which are none for an element that is there without a value
    (the attribute then reads as Python's [None]), one (it reads as a
    number) or several (it reads as a list). [SOPInstanceUID] is read
    unconditionally by the loader and is mandatory in every DICOM
    instance. *)
Record Dataset : Type := mk_Dataset {
  ImagePositionPatient : option (list Q);
  SliceLocation : option (list Q);
  InstanceNumber : option (list Z);
  pixel_array : ndarray;
  SOPInstanceUID : string;
  PixelSpacing : option (Q * Q);
  SliceThickness : option Q;
  SpacingBetweenSlices : option Q;
  Modality : option string;
  SeriesInstanceUID : option string;
  PatientID : option string
}.

(** ** The world: a file system and the log of observable calls *)

Inductive Node : Type :=
  | Dir (names : list string)
  | DicomFile (ds : Dataset)
  | NpyFile (a : ndarray)
  | OtherFile.

Inductive Event : Type :=
  | EvMakedirs (path : string)
  | EvListdir (path : string)
  | EvDcmread (path : string)
  | EvNormalize (volume : ndarray) (modality : string)
  | EvZoom (volume : ndarray) (zoom_factors : list Py.float) (order : Z)
  | EvNpLoad (path : string)
  | EvNpSave (path : string) (a : ndarray).

Record World : Type := mk_World {
  files : gmap string Node;
  events : list Event
}.

(** A computation reads and changes the world and returns or raises. *)
Definition M (A : Type) : Type := World -> Result A * World.

Definition ret {A} (a : A) : M A := fun w => (Ok a, w).
Definition raise {A} (e : exn) : M A := fun w => (Raise e, w).
Definition bind {A B} (m : M A) (k : A -> M B) : M B :=
  fun w => match m w with
           | (Ok a, w') => k a w'
           | (Raise e, w') => (Raise e, w')
           end.
Definition lift {A} (r : Result A) : M A := fun w => (r, w).

#[global] Instance M_ret : MRet M := @ret.
#[global] Instance M_bind : MBind M := fun A B k m => bind m k.

(** A primitive step on the world. *)
Definition io {A} (f : World -> Result A * World) : M A := f.

Definition emit (e : Event) : M unit :=
  fun w => (Ok tt, {| files := files w; events := events w ++ [e] |}).

(** [os.path.exists(path)]. *)
Definition path_exists (path : string) : M bool :=
  fun w => (Ok (bool_decide (is_Some (files w !! path))), w).

(** The directories that are there whatever the world holds: the current
    directory, written [""] as the head of a relative name or ["."], the
    one above it, and the root. *)
Definition is_root (p : string) : bool :=
  negb (String.eqb p "") && forallb Py.is_slash (Py.chars p).
Definition always_there (p : string) : bool :=
  String.eqb p "" || String.eqb p "." || String.eqb p ".." || is_root p.

(** A new entry [node] at [path]: the directory that is to hold it must be
    there, and gets the name in its listing ([os.listdir] gives the names
    in an order of its own: the model lists a new name last). *)
Definition add_entry (path : string) (node : Node) (fs : gmap string Node)
    : Result (gmap string Node) :=
  let '(head, tail) := Py.split path in
  match fs !! head with
  | Some (Dir names) =>
      Ok (<[path := node]> (<[head := Dir (names ++ [tail])]> fs))
  | Some _ =>
      if always_there head then Ok (<[path := node]> fs)
      else Raise (NotADirectoryError_path path)
  | None =>
      if always_there head then Ok (<[path := node]> fs)
      else Raise (FileNotFoundError_path path)
  end.

(** [os.mkdir(path)] as [os.makedirs] with [exist_ok=True] calls it: a
    directory that is there is left alone. *)
Definition mkdir_exist_ok (path : string) (fs : gmap string Node)
    : Result (gmap string Node) :=
  match fs !! path with
  | Some (Dir _) => Ok fs
  | Some _ => Raise (FileExistsError_makedirs path)
  | None => add_entry path (Dir []) fs
  end.

(** The directory [key] and the directories above it that are missing,
    made from the top down. Nothing is made above a path that is there. *)
Fixpoint make_missing (fuel : nat) (key : string) (fs : gmap string Node)
    : Result (gmap string Node) :=
  match fs !! key with
  | Some _ => Ok fs
  | None =>
      match fuel with
      | O => mkdir_exist_ok key fs
      | S fuel' =>
          let head := (Py.split key).1 in
          rbind (if always_there head then Ok fs
                 else make_missing fuel' head fs)
                (mkdir_exist_ok key)
      end
  end.

(** What [os.makedirs(path, exist_ok=True)] does to the files: nothing
    where the directory is there; FileExistsError where the path is a
    regular file; else the directory and its missing ancestors are made,
    which NotADirectoryError stops under a regular file. *)
Definition makedirs_files (path : string) (fs : gmap string Node)
    : Result (gmap string Node) :=
  match fs !! path with
  | Some (Dir _) => Ok fs
  | Some _ => Raise (FileExistsError_makedirs path)
  | None =>
      if String.eqb path "" then Raise (FileNotFoundError_path path)
      else
        let key := Py.rstrip_slash path in
        if always_there key then Ok fs
        else
          match fs !! key with
          | Some (Dir _) => Ok fs
          | Some _ => Raise (FileExistsError_makedirs path)
          | None => make_missing (String.length key) key fs
          end
  end.

(** [os.makedirs(path, exist_ok=True)]. *)
Definition makedirs (path : string) : M unit :=
  emit (EvMakedirs path) ;;
  io (fun w => match makedirs_files path (files w) with
           | Ok fs => (Ok tt, {| files := fs; events := events w |})
           | Raise e => (Raise e, w)
           end).

(** [os.listdir(path)]. *)
Definition listdir (path : string) : M (list string) :=
  emit (EvListdir path) ;;
  io (fun w => match files w !! path with
           | Some (Dir names) => (Ok names, w)
           | Some _ => (Raise (NotADirectoryError_listdir path), w)
           | None => (Raise (FileNotFoundError_path path), w)
           end).

(** [pydicom.dcmread(path)]. *)
Definition dcmread (path : string) : M Dataset :=
  emit (EvDcmread path) ;;
  io (fun w => match files w !! path with
           | Some (DicomFile ds) => (Ok ds, w)
           | Some (Dir _) => (Raise (IsADirectoryError path), w)
           | Some _ => (Raise (InvalidDicomError path), w)
           | None => (Raise (FileNotFoundError_path path), w)
           end).

(** [np.load(path, mmap_mode="r")]. *)
Definition np_load (path : string) : M ndarray :=
  emit (EvNpLoad path) ;;
  io (fun w => match files w !! path with
           | Some (NpyFile a) => (Ok a, w)
           | Some (Dir _) => (Raise (IsADirectoryError path), w)
           | Some _ => (Raise (LibraryError "np.load"), w)
           | None => (Raise (FileNotFoundError_path path), w)
           end).

(** What [np.save(path, a)] does to the files, for a path that ends in
    [.npy]: a file that is there is written over; a new file is entered in
    its directory. *)
Definition np_save_files (path : string) (a : ndarray) (fs : gmap string Node)
    : Result (gmap string Node) :=
  match fs !! path with
  | Some (Dir _) => Raise (IsADirectoryError path)
  | Some _ => Ok (<[path := NpyFile a]> fs)
  | None => add_entry path (NpyFile a) fs
  end.

(** [np.save(path, a)]. *)
Definition np_save (path : string) (a : ndarray) : M unit :=
  emit (EvNpSave path a) ;;
  io (fun w => match np_save_files path a (files w) with
           | Ok fs => (Ok tt, {| files := fs; events := events w |})
           | Raise e => (Raise e, w)
           end).

(** ** The series assembler ([dicom_loader.py]) *)

(** Python's [sorted(l, key=key)]: a stable sort that compares keys with
    [<]. An element is put in front of the first element of the sorted
    rest whose key is not smaller than its own, so that it stays in front
    of the later elements with an equal key. *)
Section Sorted.
Context {A : Type} (key : A -> Q).

Fixpoint insert_by_key (x : A) (l : list A) : list A :=
  match l with
  | [] => [x]
  | y :: l' => if Py.ltb (key y) (key x) then y :: insert_by_key x l'
               else x :: l
  end.

Fixpoint sorted (l : list A) : list A :=
  match l with
  | [] => []
  | x :: l' => insert_by_key x (sorted l')
  end.
End Sorted.

(** One entry of the list [instances]: the dict with the keys ["dataset"],
    ["z"] and ["path"]. *)
Record Instance : Type := mk_Instance {
  dataset : Dataset;
  z : Q;
  path : string
}.

(** Step 2 of the loader, the ordering key of one slice: the third
    component of [ImagePositionPatient] when the header has the element,
    else [SliceLocation] when it has that one, else [InstanceNumber] when
    it has that one, else [0.0]. The element that is there is read
    whatever it holds: [None[2]] and [float(None)] raise TypeError, as do
    a number indexed and a list converted; a list of two values indexed at
    2 raises IndexError. *)
Definition position_key (ds : Dataset) : Result Q :=
  match ImagePositionPatient ds with
  | Some values =>
      match values with
      | [] | [_] => Raise (TypeError "not subscriptable")
      | _ :: _ :: z2 :: _ => Ok z2
      | _ => Raise IndexError
      end
  | None =>
      match SliceLocation ds with
      | Some values =>
          match values with
          | [loc] => Ok loc
          | _ => Raise (TypeError "float")
          end
      | None =>
          match InstanceNumber ds with
          | Some values =>
              match values with
              | [n] => Ok (inject_Z n)
              | _ => Raise (TypeError "float")
              end
          | None => Ok 0%Q
          end
      end
  end.

(** The body of the loop [for fp in dicom_files]. *)
Fixpoint read_instances (dicom_files : list string) : M (list Instance) :=
  match dicom_files with
  | [] => mret []
  | fp :: rest =>
      ds ← dcmread fp;
      z ← lift (position_key ds);
      let inst := {| dataset := ds; z := z; path := fp |} in
      insts ← read_instances rest;
      mret (inst :: insts)
  end.

Definition is_dicom_name (f : string) : bool :=
  Py.endswith (Py.lower f) ".dcm".

(** Step 5 of the loader: the spacing read from the first slice. *)
Definition pixel_spacing_of (ds0 : Dataset) : Q * Q :=
  match PixelSpacing ds0 with
  | Some (r, c) => (r, c)
  | None => (1%Q, 1%Q)
  end.

Definition z_spacing_of (ds0 : Dataset) : Q :=
  match SliceThickness ds0 with
  | Some slice_thickness => slice_thickness
  | None =>
      match SpacingBetweenSlices ds0 with
      | Some spacing_between_slices => spacing_between_slices
      | None => 1%Q
      end
  end.

Definition opt_str (o : option string) : pyval :=
  match o with Some s => PyStr s | None => PyNone end.

Definition metadata_of (ds0 : Dataset) (instances : list Instance)
    (sop_uids : list string) : gmap string pyval :=
  let '(r, c) := pixel_spacing_of ds0 in
  <["PixelSpacing" := PyTuple2 r c]>
  (<["SliceSpacing" := PyFloat (z_spacing_of ds0)]>
  (<["SliceLocations" := PyFloatList (map z instances)]>
  (<["SOPInstanceUIDs" := PyStrList sop_uids]>
  (<["Modality" := PyStr (default "UNKNOWN" (Modality ds0))]>
  (<["SeriesInstanceUID" := opt_str (SeriesInstanceUID ds0)]>
  (<["PatientID" := opt_str (PatientID ds0)]> ∅)))))).

(** Steps 3 to 5 of the loader, on the instances read in step 2. *)
Definition assemble (instances : list Instance)
    : Result (ndarray * gmap string pyval) :=
  (* 3. sort by z *)
  let instances := sorted z instances in
  (* 4. stack into numpy array *)
  let slices := map (fun inst => astype_int16 (pixel_array (dataset inst)))
                    instances in
  let sop_uids := map (fun inst => SOPInstanceUID (dataset inst))
                      instances in
  rbind (Np.stack slices) (fun volume =>
  (* 5. get spacing *)
  match instances with
  | [] => Raise IndexError
  | inst0 :: _ =>
      Ok (volume, metadata_of (dataset inst0) instances sop_uids)
  end).

Definition load_dicom_series (series_dir : string)
    : M (ndarray * gmap string pyval) :=
  (* 1. collect all dicom files *)
  names ← listdir series_dir;
  let dicom_files :=
    map (Py.path_join series_dir) (List.filter is_dicom_name names) in
  if (length dicom_files =? 0)%nat
  then raise (FileNotFoundError_no_dicom series_dir)
  else
    (* 2. read all headers *)
    instances ← read_instances dicom_files;
    lift (assemble instances).

(** ** External numeric routines *)

(** The routines the code calls on floating-point buffers and whose code is
    outside the repository. [zoom_values input zoom order output_shape] is
    the interpolation inside [scipy.ndimage.zoom], which fills the output
    array; [float32_of] rounds a number to a 32-bit float; [np_std] is
    [ndarray.std], a non-negative number. *)
Class Externals : Type := {
  zoom_values : ndarray -> list Py.float -> Z -> list nat -> Result (list Q);
  float32_of : Q -> Q;
  np_std : list Q -> Q
}.

(** [int(round(x))] on a float. *)
Definition int_round (x : Py.float) : Result Z :=
  match x with
  | Py.Fin q => Ok (Py.round q)
  | Py.Inf _ => Raise OverflowError
  | Py.NaN => Raise ValueError_nan
  end.

(** One extent of the output of [zoom]: [int(round(ii * jj))], for the
    input extent [ii] and the factor [jj]. *)
Definition zoom_extent (ii : nat) (jj : Py.float) : Result Z :=
  int_round (Py.product (Py.Fin (inject_Z (Z.of_nat ii))) jj).

(** [tuple(int(round(ii * jj)) for ii, jj in zip(input.shape, zoom))]. *)
Fixpoint zoom_output_shape (shp : list nat) (zoom : list Py.float)
    : Result (list Z) :=
  match shp, zoom with
  | ii :: shp', jj :: zoom' =>
      rbind (zoom_extent ii jj) (fun n =>
      rbind (zoom_output_shape shp' zoom') (fun l => Ok (n :: l)))
  | _, _ => Ok []
  end.

Section Preprocessing.
Context `{Externals}.

(** [scipy.ndimage.zoom(input, zoom, order=order)] for a list [zoom]: the
    checks it makes, the output array it allocates, of the element type of
    the input and of the extents above, and the interpolation that fills
    it. *)
Definition ndimage_zoom (input : ndarray) (zoom : list Py.float) (order : Z)
    : Result ndarray :=
  if (order <? 0)%Z || (5 <? order)%Z
  then Raise (LibraryError "spline order not supported")
  else if (ndim input <? 1)%nat
  then Raise (LibraryError "input and output rank must be > 0")
  else if negb (length zoom =? ndim input)%nat
  then Raise (LibraryError "sequence argument must have length equal to input rank")
  else
    rbind (zoom_output_shape (shape input) zoom) (fun output_shape =>
    if existsb (fun n => (n <? 0)%Z) output_shape
    then Raise (LibraryError "negative dimensions are not allowed")
    else
      let output_shape := map Z.to_nat output_shape in
      rbind (zoom_values input zoom order output_shape) (fun values =>
      Ok {| shape := output_shape; dtype := dtype input; data := values |})).

(** [a.astype(np.float32)]. *)
Definition astype_float32 (a : ndarray) : ndarray :=
  {| shape := shape a; dtype := float32; data := map float32_of (data a) |}.

(** *** Normalisation ([normalization.py]) *)

(** [np.clip(a, lower, upper)] with two Python floats as bounds. *)
Definition np_clip (a : ndarray) (lower upper : Q) : ndarray :=
  {| shape := shape a;
     dtype := if is_float (dtype a) then dtype a else float64;
     data := map (fun x => Qmin (Qmax x lower) upper) (data a) |}.

(** [a.min()] and [a.max()]: numpy raises on an array without elements. *)
Definition np_min (a : ndarray) : Result Q :=
  match data a with
  | [] => Raise (LibraryError "zero-size array to reduction operation")
  | x :: l => Ok (fold_left Qmin l x)
  end.
Definition np_max (a : ndarray) : Result Q :=
  match data a with
  | [] => Raise (LibraryError "zero-size array to reduction operation")
  | x :: l => Ok (fold_left Qmax l x)
  end.

(** [a.mean()]. *)
Definition np_mean (a : ndarray) : Q :=
  (fold_left Qplus (data a) 0 / inject_Z (Z.of_nat (length (data a))))%Q.

(** A float array computed element by element from [a]. *)
Definition map_float64 (f : Q -> Q) (a : ndarray) : ndarray :=
  {| shape := shape a;
     dtype := if is_float (dtype a) then dtype a else float64;
     data := map f (data a) |}.

Definition eps : Q := (1 # 100000000)%Q.

(** [(a - a.min()) / (a.max() - a.min() + 1e-8)]. *)
Definition min_max_scale (a : ndarray) : Result ndarray :=
  rbind (np_min a) (fun lo =>
  rbind (np_max a) (fun hi =>
  rbind (np_min a) (fun lo' =>
  Ok (map_float64 (fun x => (x - lo) / (hi - lo' + eps))%Q a)))).

Definition window_intensity (volume : ndarray)
    (window_center window_width : Q) : ndarray :=
  let lower := (window_center - window_width / 2)%Q in
  let upper := (window_center + window_width / 2)%Q in
  np_clip volume lower upper.

Definition normalize_cta (volume : ndarray) : Result ndarray :=
  let windowed := window_intensity volume 40 80 in
  rbind (min_max_scale windowed) (fun normed =>
  Ok (astype_float32 normed)).

Definition normalize_mri (volume : ndarray) : Result ndarray :=
  let mean := np_mean volume in
  let std := (np_std (data volume) + eps)%Q in
  let normed := map_float64 (fun x => (x - mean) / std)%Q volume in
  rbind (min_max_scale normed) (fun normed =>
  Ok (astype_float32 normed)).

Definition normalize_volume (volume : ndarray) (modality : string)
    : M ndarray :=
  emit (EvNormalize volume modality) ;;
  let modality := Py.strip (Py.upper modality) in
  if bool_decide (modality ∈ ["CT"; "CTA"]) then
    lift (normalize_cta volume)
  else if bool_decide (modality ∈ ["MR"; "MRI"; "MRA"; "T1"; "T2"]) then
    lift (normalize_mri volume)
  else
    lift (normalize_mri volume).

(** *** The isotropic resampler ([resampling.py]) *)

(** [a, b, c = t]. *)
Definition unpack3 (t : list Py.float)
    : Result (Py.float * Py.float * Py.float) :=
  match t with
  | [a; b; c] => Ok (a, b, c)
  | _ => Raise (ValueError_unpack 3 (length t))
  end.

(** [x / y] on two Python floats. *)
Definition py_div (x y : Py.float) : Result Py.float :=
  if Py.is_zero y then Raise ZeroDivisionError else Ok (Py.quotient x y).

Definition default_new_spacing : list Py.float :=
  [Py.Fin 1; Py.Fin 1; Py.Fin 1].
Definition default_order : Z := 1.

Definition resample_isotropic (volume : ndarray)
    (spacing new_spacing : list Py.float) (order : Z) : M ndarray :=
  (* normalisation of the rank *)
  volume ←
    (if (ndim volume =? 2)%nat then mret (newaxis volume)
     else if (ndim volume =? 4)%nat && (hd 0%nat (shape volume) =? 1)%nat
     then mret (squeeze0 volume)
     else if negb (ndim volume =? 3)%nat
     then raise (ValueError_unexpected_shape (shape volume))
     else mret volume);
  '(z_spacing, y_spacing, x_spacing) ← lift (unpack3 spacing);
  '(new_z, new_y, new_x) ← lift (unpack3 new_spacing);
  (* zoom factors (old_spacing / new_spacing) *)
  fz ← lift (py_div z_spacing new_z);
  fy ← lift (py_div y_spacing new_y);
  fx ← lift (py_div x_spacing new_x);
  let zoom_factors := [fz; fy; fx] in
  emit (EvZoom volume zoom_factors order) ;;
  resampled ← lift (ndimage_zoom volume zoom_factors order);
  if negb (length zoom_factors =? ndim volume)%nat
  then raise (ValueError_zoom_factors (length zoom_factors) (ndim volume))
  else mret (astype_float32 resampled).

(** *** The pipeline ([pipeline.py], [helpers.py]) *)

Definition ensure_dir (path : string) : M unit := makedirs path.

(** [d[key]] and the reads of a value at its Python type. *)
Definition dict_get (d : gmap string pyval) (key : string) : Result pyval :=
  match d !! key with
  | Some v => Ok v
  | None => Raise (KeyError key)
  end.
Definition as_str (v : pyval) : Result string :=
  match v with PyStr s => Ok s | _ => Raise (TypeError "str") end.
Definition as_float (v : pyval) : Result Q :=
  match v with PyFloat x => Ok x | _ => Raise (TypeError "float") end.
Definition as_pair (v : pyval) : Result (Q * Q) :=
  match v with PyTuple2 a b => Ok (a, b) | _ => Raise (TypeError "tuple") end.

(** The dict [{"volume": ..., "metadata": ...}] the pipeline returns. *)
Record Preprocessed : Type := mk_Preprocessed {
  volume : ndarray;
  metadata : gmap string pyval
}.

(** [preprocess_series]; the messages printed under [verbose] are not part
    of the model. *)
Definition preprocess_series (series_dir : string)
    (new_spacing : list Py.float) (cache_dir : string) (use_cache : bool)
    : M Preprocessed :=
  found ← path_exists series_dir;
  if negb found then raise (FileNotFoundError_series_dir series_dir)
  else
    (* create cache folder if not exists *)
    ensure_dir cache_dir ;;
    (* get unique series ID *)
    let series_id := Py.basename (Py.rstrip_slash series_dir) in
    let cache_path := Py.path_join cache_dir (series_id +:+ ".npy") in
    (* load from cache if available *)
    hit ← (if use_cache then path_exists cache_path else mret false : M bool);
    if (hit : bool) then
      volume ← np_load cache_path;
      mret {| volume := volume;
              metadata := {[ "SeriesInstanceUID" := PyStr series_id ]} |}
    else
      (* otherwise preprocess normally *)
      '(volume, metadata) ← load_dicom_series series_dir;
      (* normalize *)
      modality ← lift (rbind (dict_get metadata "Modality") as_str);
      volume ← normalize_volume volume modality;
      (* resample *)
      slice_spacing ← lift (rbind (dict_get metadata "SliceSpacing") as_float);
      ps0 ← lift (rbind (dict_get metadata "PixelSpacing") as_pair);
      ps1 ← lift (rbind (dict_get metadata "PixelSpacing") as_pair);
      let orig_spacing :=
        [Py.Fin slice_spacing; Py.Fin ps0.1; Py.Fin ps1.2] in
      volume ← resample_isotropic volume orig_spacing new_spacing
                 default_order;
      (* save to cache *)
      (if use_cache then np_save cache_path (astype_float32 volume)
       else mret tt : M unit) ;;
      mret {| volume := astype_float32 volume; metadata := metadata |}.

End Preprocessing.

(** ** An instance of the external routines, to run the code on examples *)

Module Examples.

(** Index arithmetic on a row-major buffer. *)
Fixpoint unravel (shp : list nat) (i : nat) : list nat :=
  match shp with
  | [] => []
  | _ :: rest => (i / size_of rest)%nat :: unravel rest (i mod size_of rest)
  end.

Fixpoint ravel (shp idx : list nat) : nat :=
  match shp, idx with
  | _ :: rest, i :: idx' => (i * size_of rest + ravel rest idx')%nat
  | _, _ => 0%nat
  end.

(** The input index nearest to output index [o] along one axis: the
    output grid is stretched over the input grid, end to end. *)
Definition nearest (n_in n_out o : nat) : nat :=
  if (n_out <=? 1)%nat then 0%nat
  else Z.to_nat (Py.round (inject_Z (Z.of_nat o)
                           * (inject_Z (Z.of_nat (n_in - 1))
                              / inject_Z (Z.of_nat (n_out - 1))))%Q).

Fixpoint nearest_index (shp_in shp_out idx : list nat) : list nat :=
  match shp_in, shp_out, idx with
  | n :: si, m :: so, o :: idx' => nearest n m o :: nearest_index si so idx'
  | _, _, _ => []
  end.

(** Nearest-neighbour values (the interpolation of order 0), whatever the
    order asked for. *)
Definition zoom_nearest (input : ndarray) (zoom : list Py.float) (order : Z)
    (shp : list nat) : Result (list Q) :=
  Ok (map (fun i =>
             nth (ravel (shape input)
                    (nearest_index (shape input) shp (unravel shp i)))
                 (data input) 0%Q)
          (seq 0 (size_of shp))).

(** The standard deviation to eight decimals. *)
Definition std_approx (l : list Q) : Q :=
  match l with
  | [] => 0%Q
  | _ =>
      let n := inject_Z (Z.of_nat (length l)) in
      let mean := (fold_left Qplus l 0 / n)%Q in
      let var := (fold_left Qplus (map (fun x => (x - mean) * (x - mean)) l) 0
                  / n)%Q in
      (inject_Z (Z.sqrt (Qfloor (var * inject_Z (10 ^ 16))))
       / inject_Z (10 ^ 8))%Q
  end.

(** The numbers of the examples are 32-bit floats already, or are left
    at the precision they have. *)
#[export] Instance externals : Externals := {|
  zoom_values := zoom_nearest;
  float32_of := Qred;
  np_std := std_approx
|}.

Definition pixels (rows cols : nat) (values : list Z) : ndarray :=
  {| shape := [rows; cols]; dtype := uint16; data := map inject_Z values |}.

(** A slice file with a spatial position, a slice location and an
    instance number. *)
Definition slice (uid : string) (pos : Z) (values : list Z) : Dataset :=
  {| ImagePositionPatient := Some [0%Q; 0%Q; inject_Z pos];
     SliceLocation := Some [inject_Z (- pos)];
     InstanceNumber := Some [1%Z];
     pixel_array := pixels 2 2 values;
     SOPInstanceUID := uid;
     PixelSpacing := Some (1 # 2, 1 # 2)%Q;
     SliceThickness := Some 2%Q;
     SpacingBetweenSlices := Some 3%Q;
     Modality := Some "CT";
     SeriesInstanceUID := Some "1.2.3";
     PatientID := None |}.

(** A slice file with no attribute but the mandatory ones. *)
Definition bare_slice (uid : string) (rows cols : nat) (values : list Z)
    : Dataset :=
  {| ImagePositionPatient := None; SliceLocation := None;
     InstanceNumber := None;
     pixel_array := pixels rows cols values;
     SOPInstanceUID := uid;
     PixelSpacing := None; SliceThickness := None;
     SpacingBetweenSlices := None;
     Modality := None; SeriesInstanceUID := None; PatientID := None |}.

(** The five files of positions 30, 10, 20, 0 and 40. *)
Definition five_files : list (string * Dataset) :=
  [ ("a.dcm", slice "A" 30 [30; 31; 32; 33]%Z);
    ("b.DCM", slice "B" 10 [10; 11; 12; 13]%Z);
    ("c.dcm", slice "C" 20 [20; 21; 22; 23]%Z);
    ("d.dcm", slice "D" 0 [0; 1; 2; 70000]%Z);
    ("e.dcm", slice "E" 40 [40; 41; 42; 43]%Z) ].

(** A directory [series_dir] holding the files [entries], and a text
    file next to them. *)
Definition series_world (series_dir : string)
    (entries : list (string * Dataset)) : World :=
  {| files :=
       <[series_dir := Dir (map fst entries ++ ["notes.txt"])]>
       (<[Py.path_join series_dir "notes.txt" := OtherFile]>
       (list_to_map
          (map (fun e => (Py.path_join series_dir e.1, DicomFile e.2))
               entries)));
     events := [] |}.

Definition world5 : World := series_world "series/1.2.3" five_files.

(** The same directory, listed in the reverse order. *)
Definition world5_reversed : World :=
  {| files := <["series/1.2.3" :=
                  Dir (rev (map fst five_files ++ ["notes.txt"]))]>
              (files world5);
     events := [] |}.

(** Two slices of different shapes, and a single bare slice. *)
Definition two_shapes : list (string * Dataset) :=
  [ ("a.dcm", bare_slice "A" 2 2 [1; 2; 3; 4]%Z);
    ("b.dcm", bare_slice "B" 2 3 [1; 2; 3; 4; 5; 6]%Z) ].

Definition one_bare : list (string * Dataset) :=
  [ ("a.dcm", bare_slice "A" 1 1 [7]%Z) ].
Definition world_one_bare : World := series_world "s" one_bare.

Definition empty_world : World := {| files := ∅; events := [] |}.

(** The directory of the five files next to a cache that holds a volume
    for the series, and that cache alone. *)
Definition cache_files (a : ndarray) : gmap string Node :=
  <["cache" := Dir ["1.2.3.npy"]]>
  (<["cache/1.2.3.npy" := NpyFile a]> ∅).
Definition world_cached (a : ndarray) : World :=
  {| files := cache_files a ∪ files world5; events := [] |}.
Definition world_cache_only (a : ndarray) : World :=
  {| files := cache_files a; events := [] |}.

(** Arrays of ranks 1 to 5. *)
Definition array (shp : list nat) (values : list Z) : ndarray :=
  {| shape := shp; dtype := float32; data := map inject_Z values |}.
Definition line3 : ndarray := array [3%nat] [1; 2; 3]%Z.
Definition image23 : ndarray := array [2; 3]%nat [1; 2; 3; 4; 5; 6]%Z.
Definition volume111 : ndarray := array [1; 1; 1]%nat [5]%Z.
Definition volume222 : ndarray :=
  array [2; 2; 2]%nat [1; 2; 3; 4; 5; 6; 7; 8]%Z.
Definition channel1222 : ndarray :=
  array [1; 2; 2; 2]%nat [1; 2; 3; 4; 5; 6; 7; 8]%Z.
Definition channel2111 : ndarray := array [2; 1; 1; 1]%nat [1; 2]%Z.
Definition rank5 : ndarray := array [1; 1; 1; 1; 1]%nat [1]%Z.
Definition volume_10_50_50 : ndarray :=
  {| shape := [10; 50; 50]%nat; dtype := float32;
     data := repeat 0%Q (10 * 50 * 50) |}.

End Examples.

(** ** Vocabulary of the statements *)

(** [a] is not after [b] in the order of the keys. *)
Definition key_le {A} (key : A -> Q) (a b : A) : Prop := (key a <= key b)%Q.

(** The keys of a list, each in lowest terms: two keys are equal numbers
    exactly when their entries here are equal, so the keys of [l] are
    pairwise distinct when [NoDup (keys key l)]. *)
Definition keys {A} (key : A -> Q) (l : list A) : list Q :=
  map (fun a => Qred (key a)) l.

(** The elements of [l] whose key is the number [k], in the order of [l]. *)
Definition with_key {A} (key : A -> Q) (k : Q) (l : list A) : list A :=
  List.filter (fun a => Qeq_bool (key a) k) l.

(** The key of a slice whose position can be read. *)
Definition key_of (ds : Dataset) : Q :=
  match position_key ds with
  | Ok k => k
  | Raise _ => 0%Q
  end.

(** In the world [w] the directory [series_dir] lists [names], and its
    slice files, in the order of the listing, are the [entries]: a file
    name and the dataset the file decodes to, whose position can be read
    (the position element the loader turns to, if the header has one, holds
    a value). *)
Definition holds_series (w : World) (series_dir : string)
    (names : list string) (entries : list (string * Dataset)) : Prop :=
  files w !! series_dir = Some (Dir names) /\
  List.filter is_dicom_name names = map fst entries /\
  Forall (fun e => files w !! Py.path_join series_dir e.1
                   = Some (DicomFile e.2)) entries /\
  Forall (fun e => is_ok (position_key e.2) = true) entries.

(** The instance the loader builds for a slice file. *)
Definition instance_of (series_dir : string) (e : string * Dataset)
    : Instance :=
  {| dataset := e.2; z := key_of e.2;
     path := Py.path_join series_dir e.1 |}.

(** The instances of a series in the order of the assembled volume. *)
Definition ordered_instances (series_dir : string)
    (entries : list (string * Dataset)) : list Instance :=
  sorted z (map (instance_of series_dir) entries).

(** What the loader logs on a series. *)
Definition loader_events (series_dir : string)
    (entries : list (string * Dataset)) : list Event :=
  EvListdir series_dir
  :: map (fun e => EvDcmread (Py.path_join series_dir e.1)) entries.

Definition log (w : World) (evs : list Event) : World :=
  {| files := files w; events := events w ++ evs |}.

(** [helpers.get_cache_path], the expression the pipeline computes in
    line for the file of a series in the cache. *)
Definition series_id_of (series_dir : string) : string :=
  Py.basename (Py.rstrip_slash series_dir).
Definition get_cache_path (series_id cache_dir : string) : string :=
  Py.path_join cache_dir (series_id +:+ ".npy").

(** The calls that compute on a volume, among the logged events. *)
Definition is_numeric (e : Event) : bool :=
  match e with
  | EvNormalize _ _ | EvZoom _ _ _ => true
  | _ => false
  end.
Definition numeric_events (evs : list Event) : list Event :=
  List.filter is_numeric evs.

(** The events logged between the world [w] and the later world [w']. *)
Definition new_events (w w' : World) : list Event :=
  drop (length (events w)) (events w').

(** [v3] is [v] after the normalisation of the rank: [v] itself, or [v]
    with a leading axis added or removed. *)
Definition rank_adjusted (v v3 : ndarray) : Prop :=
  v3 = v \/ v3 = newaxis v \/ v3 = squeeze0 v.

(** An entry after a step that deletes nothing and writes over nothing:
    a path that held nothing holds nothing, a regular file is as it was,
    a directory is a directory that lists every name it listed. *)
Definition kept (old new : option Node) : Prop :=
  match old with
  | Some (Dir names) =>
      exists names', new = Some (Dir names')
                     /\ forall n, In n names -> In n names'
  | _ => new = old
  end.

(** The directories above [key] that [os.makedirs] may have to make. *)
Fixpoint dirs_above (fuel : nat) (key : string) : list string :=
  match fuel with
  | O => []
  | S fuel' =>
      let head := (Py.split key).1 in
      if always_there head then [] else head :: dirs_above fuel' head
  end.

(** The paths [os.makedirs(path)] may make: the directory and the ones
    above it. *)
Definition makedirs_paths (path : string) : list string :=
  let key := Py.rstrip_slash path in
  key :: dirs_above (String.length key) key.

(** From [fs] to [fs'] every entry is kept, but for new directories among
    [dirs] and new array files among [saved]. *)
Definition changes_within (dirs saved : list string)
    (fs fs' : gmap string Node) : Prop :=
  forall p,
    kept (fs !! p) (fs' !! p)
    \/ (fs !! p = None /\ In p dirs
        /\ exists names, fs' !! p = Some (Dir names))
    \/ (fs !! p = None /\ In p saved
        /\ exists a, fs' !! p = Some (NpyFile a)).

(** ** The cache helpers and the batch run ([helpers.py], [precache_all.py]) *)

(** [helpers.load_cached_volume]. *)
Definition load_cached_volume (series_id cache_dir : string) : M ndarray :=
  let path := get_cache_path series_id cache_dir in
  found ← path_exists path;
  if (found : bool) then np_load path
  else raise (FileNotFoundError_path path).

(** [os.path.isdir(path)] in a world. *)
Definition is_dir_in (w : World) (path : string) : bool :=
  match files w !! path with
  | Some (Dir _) => true
  | _ => false
  end.

(** Python's [sorted] on a list of [str]: the order of the characters'
    codes, position by position. *)
Fixpoint insert_str (x : string) (l : list string) : list string :=
  match l with
  | [] => [x]
  | y :: l' => if String.ltb y x then y :: insert_str x l' else x :: l
  end.

Fixpoint sorted_str (l : list string) : list string :=
  match l with
  | [] => []
  | x :: l' => insert_str x (sorted_str l')
  end.

(** What the batch run calls outside the repository: [glob.glob] on a
    pattern, and the reading of the series identifiers of a CSV file,
    [pd.read_csv(csv_path)["SeriesInstanceUID"].astype(str).unique().tolist()]. *)
Class Orchestration : Type := {
  glob_glob : string -> World -> list string;
  read_series_ids : string -> World -> Result (list string)
}.

Section Batch.
Context `{Externals} `{Orchestration}.

(** [helpers.list_series_dirs]. *)
Definition list_series_dirs (series_root : string) : M (list string) :=
  fun w =>
    (Ok (sorted_str (List.filter (is_dir_in w)
                       (glob_glob (Py.path_join series_root "*") w))), w).

(** The body of the loop of [precache_all]: one series, its exception
    caught. *)
Definition precache_one (series_dir cache_dir : string) : M unit :=
  fun w =>
    match preprocess_series series_dir default_new_spacing cache_dir true w with
    | (Ok _, w') => (Ok tt, w')
    | (Raise _, w') => (Ok tt, w')
    end.

Fixpoint precache_loop (series_dirs : list string) (cache_dir : string)
    : M unit :=
  match series_dirs with
  | [] => mret tt
  | series_dir :: rest =>
      precache_one series_dir cache_dir ;;
      precache_loop rest cache_dir
  end.

(** The series directories named by a CSV file: the identifiers of the
    file, each joined to the root, that are directories. *)
Definition csv_series_dirs (series_root csv_path : string)
    : M (list string) :=
  series_ids ← io (fun w => (read_series_ids csv_path w, w));
  io (fun w => (Ok (List.filter (is_dir_in w)
                      (map (Py.path_join series_root) series_ids)), w)).

(** [precache_all]; [csv_path] is [None] or a string, and the empty string
    counts as no path. The progress bar and the log lines are not part of
    the model. *)
Definition precache_all (series_root : string) (csv_path : option string)
    (cache_dir : string) : M unit :=
  ensure_dir cache_dir ;;
  series_dirs ←
    (match csv_path with
     | Some p =>
         if String.eqb p "" then list_series_dirs series_root
         else
           found ← path_exists p;
           if (found : bool) then csv_series_dirs series_root p
           else list_series_dirs series_root
     | None => list_series_dirs series_root
     end);
  precache_loop series_dirs cache_dir.

End Batch.

(** ** Augmentation ([augmentation.py]) *)

(** What the augmentation takes from outside the repository: the numbers
    that [random.random()] returns one after the other, the standard normal
    samples that [np.random] draws one after the other, and scipy's
    [rotate(input, angle, axes, reshape=False, order=1, mode='nearest')]
    and [gaussian_filter(input, sigma)]. *)
Class Augmenters : Type := {
  random_stream : nat -> Q;
  standard_normal_stream : nat -> Q;
  ndimage_rotate : ndarray -> Q -> Z * Z -> Result ndarray;
  ndimage_gaussian_filter : ndarray -> Q -> Result ndarray
}.

(** The state of the two global generators: how many numbers each has
    handed out. *)
Record Generators : Type := mk_generators {
  py_drawn : nat;
  np_drawn : nat
}.

(** A computation that draws random numbers and can raise. *)
Definition Aug (A : Type) : Type := Generators -> Result A * Generators.

Definition aug_ret {A} (a : A) : Aug A := fun g => (Ok a, g).
Definition aug_bind {A B} (m : Aug A) (k : A -> Aug B) : Aug B :=
  fun g => match m g with
           | (Ok a, g') => k a g'
           | (Raise e, g') => (Raise e, g')
           end.
Definition aug_lift {A} (r : Result A) : Aug A := fun g => (r, g).

#[global] Instance Aug_ret : MRet Aug := @aug_ret.
#[global] Instance Aug_bind : MBind Aug := fun A B k m => aug_bind m k.

(** [np.flip] checks its axis against the rank: an axis counts from the
    front when it is not negative, from the back when it is, and one that
    is out of range raises AxisError. *)
Definition normalize_axis_index (axis : Z) (nd : nat) : Result nat :=
  if (0 <=? axis)%Z && (axis <? Z.of_nat nd)%Z then Ok (Z.to_nat axis)
  else if (- Z.of_nat nd <=? axis)%Z && (axis <? 0)%Z
       then Ok (Z.to_nat (axis + Z.of_nat nd))
       else Raise (LibraryError "AxisError").

(** The first [k] runs of [n] elements of a buffer. *)
Fixpoint chunks (k n : nat) (l : list Q) : list (list Q) :=
  match k with
  | O => []
  | S k' => firstn n l :: chunks k' n (skipn n l)
  end.

(** A row-major buffer of shape [shp] with the order along axis [a]
    reversed: in each block that the axes before [a] index, the runs that
    the axes after [a] index come in the opposite order. *)
Definition flip_axis (shp : list nat) (a : nat) (l : list Q) : list Q :=
  let outer := size_of (firstn a shp) in
  let extent := nth a shp 0%nat in
  let inner := size_of (skipn (S a) shp) in
  concat (map (fun block => concat (rev (chunks extent inner block)))
            (chunks outer (extent * inner) l)).

(** [np.flip(m, axis=axis)] for one integer axis. *)
Definition np_flip (m : ndarray) (axis : Z) : Result ndarray :=
  rbind (normalize_axis_index axis (ndim m)) (fun a =>
  Ok {| shape := shape m; dtype := dtype m;
        data := flip_axis (shape m) a (data m) |}).

Section Augmentation.
Context `{Externals} `{Augmenters}.

(** [random.random()]. *)
Definition random_random : Aug Q :=
  fun g => (Ok (random_stream (py_drawn g)),
            {| py_drawn := S (py_drawn g); np_drawn := np_drawn g |}).

(** [random.uniform(a, b)], which is [a + (b - a) * random()]. *)
Definition random_uniform (a b : Q) : Aug Q :=
  u ← random_random;
  mret (a + (b - a) * u)%Q.

(** [np.random.normal(loc, scale, size=size)]: [loc + scale * z] for one
    standard normal sample [z] per element, in float64; a negative scale
    raises ValueError. *)
Definition np_random_normal (loc scale : Q) (size : list nat) : Aug ndarray :=
  fun g =>
    if Py.ltb scale 0 then (Raise (LibraryError "scale < 0"), g)
    else
      let n := size_of size in
      (Ok {| shape := size; dtype := float64;
             data := map (fun i => (loc + scale * standard_normal_stream i)%Q)
                       (seq (np_drawn g) n) |},
       {| py_drawn := py_drawn g; np_drawn := (np_drawn g + n)%nat |}).

(** [volume * scale + shift] with two Python floats: a float32 array stays
    float32, each operation rounding to it; every other array gives
    float64. *)
Definition scale_shift (volume : ndarray) (scale shift : Q) : ndarray :=
  if bool_decide (dtype volume = float32) then
    {| shape := shape volume; dtype := float32;
       data := map (fun x => float32_of
                               (float32_of (x * float32_of scale)
                                + float32_of shift)%Q) (data volume) |}
  else
    {| shape := shape volume; dtype := float64;
       data := map (fun x => (x * scale + shift)%Q) (data volume) |}.

(** [volume + noise] for a float64 array [noise] of the shape of
    [volume]. *)
Definition add_noise (volume noise : ndarray) : ndarray :=
  {| shape := shape volume;
     dtype := promote_types (dtype volume) (dtype noise);
     data := zip_with Qplus (data volume) (data noise) |}.

Fixpoint random_flip (volume : ndarray) (axes : list Z) (p : Q)
    : Aug ndarray :=
  match axes with
  | [] => mret volume
  | axis :: axes' =>
      u ← random_random;
      volume ← (if Py.ltb u p then aug_lift (np_flip volume axis)
                else mret volume : Aug ndarray);
      random_flip volume axes' p
  end.

Definition random_rotate (volume : ndarray) (max_angle : Q) (axes : Z * Z)
    : Aug ndarray :=
  angle ← random_uniform (- max_angle) max_angle;
  rotated ← aug_lift (ndimage_rotate volume angle axes);
  mret rotated.

Definition random_gaussian_noise (volume : ndarray) (sigma_range : Q * Q)
    : Aug ndarray :=
  sigma ← random_uniform sigma_range.1 sigma_range.2;
  noise ← np_random_normal 0 sigma (shape volume);
  mret (np_clip (add_noise volume noise) 0 1).

Definition random_blur (volume : ndarray) (sigma_range : Q * Q) (p : Q)
    : Aug ndarray :=
  u ← random_random;
  if Py.ltb u p then
    sigma ← random_uniform sigma_range.1 sigma_range.2;
    aug_lift (ndimage_gaussian_filter volume sigma)
  else mret volume.

Definition random_intensity_shift (volume : ndarray)
    (shift_range scale_range : Q * Q) (p : Q) : Aug ndarray :=
  u ← random_random;
  if Py.ltb u p then
    shift ← random_uniform shift_range.1 shift_range.2;
    scale ← random_uniform scale_range.1 scale_range.2;
    let volume := scale_shift volume scale shift in
    mret (np_clip volume 0 1)
  else mret volume.

(** The defaults of the keyword arguments that [augment_volume] leaves
    out. *)
Definition default_shift_range : Q * Q := (- (1 # 10), 1 # 10)%Q.
Definition default_scale_range : Q * Q := (9 # 10, 11 # 10)%Q.
Definition default_sigma_range : Q * Q := (0, 5 # 100)%Q.
Definition default_blur_range : Q * Q := (1 # 2, 3 # 2)%Q.

Definition augment_volume (volume : ndarray) : Aug ndarray :=
  volume ← random_flip volume [1; 2]%Z (1 # 2);
  volume ← random_rotate volume 10 (1, 2)%Z;
  volume ← random_intensity_shift volume default_shift_range
             default_scale_range (1 # 2);
  volume ← random_gaussian_noise volume default_sigma_range;
  volume ← random_blur volume default_blur_range (3 # 10);
  mret (astype_float32 volume).

End Augmentation.

(** The generators after [n] more calls of [random.random()]. *)
Definition after_draws (g : Generators) (n : nat) : Generators :=
  {| py_drawn := (py_drawn g + n)%nat; np_drawn := np_drawn g |}.

(** A number between 0 and 1, both included. *)
Definition in_unit (x : Q) : Prop := (0 <= x <= 1)%Q.

(** An array as numpy builds them: as many elements as the shape says. *)
Definition well_formed (a : ndarray) : Prop :=
  length (data a) = size_of (shape a).

(** ** More vocabulary *)

(** The events of the loader: a directory listed, a slice file read. *)
Definition is_read_event (e : Event) : Prop :=
  exists p, e = EvListdir p \/ e = EvDcmread p.

(** The events that touch a cached array: a load, a save. *)
Definition is_cache_event (e : Event) : Prop :=
  match e with
  | EvNpLoad _ | EvNpSave _ _ => True
  | _ => False
  end.

(** The path holds a cached array in the world. *)
Definition is_npy_in (w : World) (path : string) : Prop :=
  exists a, files w !! path = Some (NpyFile a).

(** ** More examples *)

Module MoreExamples.

(** A slice whose spatial position is there without a value, and that
    has a slice location; a directory that holds it after a bare slice. *)
Definition slice_empty_position : Dataset :=
  {| ImagePositionPatient := Some []; SliceLocation := Some [5%Q];
     InstanceNumber := Some [2%Z];
     pixel_array := Examples.pixels 1 1 [9]%Z;
     SOPInstanceUID := "B";
     PixelSpacing := None; SliceThickness := None;
     SpacingBetweenSlices := None;
     Modality := None; SeriesInstanceUID := None; PatientID := None |}.
Definition world_empty_position : World :=
  {| files :=
       <["s" := Dir ["a.dcm"; "b.dcm"]]>
       (<["s/a.dcm" := DicomFile (Examples.bare_slice "A" 1 1 [7]%Z)]>
       (<["s/b.dcm" := DicomFile slice_empty_position]> ∅));
     events := [] |}.


(** A column of 45 slices of one element. *)
Definition volume_45_1_1 : ndarray :=
  {| shape := [45; 1; 1]%nat; dtype := float32; data := repeat 0%Q 45 |}.

(** A directory of three slice files of which the second is not DICOM. *)
Definition world_bad_slice : World :=
  {| files :=
       <["s" := Dir ["a.dcm"; "bad.dcm"; "c.dcm"]]>
       (<["s/a.dcm" := DicomFile (Examples.bare_slice "A" 1 1 [7]%Z)]>
       (<["s/bad.dcm" := OtherFile]>
       (<["s/c.dcm" := DicomFile (Examples.bare_slice "C" 1 1 [9]%Z)]> ∅)));
     events := [] |}.

(** A directory without any slice file, and a regular file. *)
Definition world_no_slice : World :=
  {| files := <["s" := Dir ["notes.txt"; "scan.dcm.bak"]]>
              (<["s/notes.txt" := OtherFile]>
              (<["s/scan.dcm.bak" := OtherFile]> ∅));
     events := [] |}.

(** The five files next to a regular file named [cache]. *)
Definition world_cache_is_file : World :=
  {| files := <["cache" := OtherFile]> (files Examples.world5);
     events := [] |}.

(** Two series directories, of which the second cannot be stacked, a
    regular file, and a CSV file. *)
Definition world_two_series : World :=
  {| files :=
       <["root/train.csv" := OtherFile]>
       (<["root/readme" := OtherFile]>
       (files (Examples.series_world "root/1.2.3" Examples.five_files)
        ∪ files (Examples.series_world "root/0.0.7" Examples.two_shapes)));
     events := [] |}.

(** The paths of the world right under the directory of the pattern
    [dir/*], and the identifiers that the CSV file of the example lists. *)
Definition glob_children (pattern : string) (w : World) : list string :=
  let dir := Py.rstrip_slash (String.substring 0 (String.length pattern - 1)
                                pattern) in
  List.filter (fun p => String.eqb p (Py.path_join dir (Py.basename p)))
    (map fst (map_to_list (files w))).

Definition orchestration : Orchestration := {|
  glob_glob := glob_children;
  read_series_ids := fun path w =>
    match files w !! path with
    | Some OtherFile => Ok ["1.2.3"; "0.0.7"; "4.5.6"]
    | _ => Raise (FileNotFoundError_path path)
    end
|}.

(** Generators that alternate between 1/4 and 3/4, and between -1, 0 and
    1; a rotation and a blur that leave the volume as it is. *)
Definition augmenters : Augmenters := {|
  random_stream := fun i => if Nat.even i then (1 # 4)%Q else (3 # 4)%Q;
  standard_normal_stream := fun i => inject_Z (Z.of_nat (i mod 3) - 1);
  ndimage_rotate := fun volume _ _ => Ok volume;
  ndimage_gaussian_filter := fun volume _ => Ok volume
|}.

Definition fresh : Generators := {| py_drawn := 0; np_drawn := 0 |}.

(** A volume with values below, inside and above the brain window. *)
Definition volume_hu : ndarray :=
  {| shape := [1; 2; 2]%nat; dtype := int16;
     data := map inject_Z [-1000; 0; 40; 3000]%Z |}.

End MoreExamples.

(** * Properties *)

(** ** The Python runtime on examples *)

Example round_half_to_even :
  Py.round (5 # 2) = 2%Z /\ Py.round (7 # 2) = 4%Z
  /\ Py.round (-5 # 2) = (-2)%Z /\ Py.round (26 # 10) = 3%Z.
Proof. repeat split; reflexivity. Qed.

Example string_methods :
  Py.lower "IMG_01.DCM" = "img_01.dcm"
  /\ Py.endswith "a.dcm" ".dcm" = true /\ Py.endswith "dcm" ".dcm" = false
  /\ Py.strip (Py.upper " ct ") = "CT"
  /\ Py.rstrip_slash "series/1.2.3//" = "series/1.2.3"
  /\ Py.basename "series/1.2.3" = "1.2.3" /\ Py.basename "/" = ""
  /\ Py.path_join "cache" "1.2.3.npy" = "cache/1.2.3.npy"
  /\ Py.path_join "cache/" "x.npy" = "cache/x.npy"
  /\ Py.path_join "" "x.npy" = "x.npy".
Proof. repeat split; vm_compute; reflexivity. Qed.

Example int16_cast :
  cast_int16 70000 = 4464%Q /\ cast_int16 40000 = (-25536)%Q
  /\ cast_int16 (-5) = (-5)%Q /\ cast_int16 (7 # 2) = 3%Q.
Proof. repeat split; vm_compute; reflexivity. Qed.

(** ** The stable sort *)

Lemma ltb_lt (x y : Q) : Py.ltb x y = true <-> (x < y)%Q.
Proof.
  unfold Py.ltb. rewrite negb_true_iff, <- not_true_iff_false, Qle_bool_iff.
  split; [apply Qnot_le_lt | apply Qlt_not_le].
Qed.

Lemma ltb_ge (x y : Q) : Py.ltb x y = false <-> (y <= x)%Q.
Proof.
  unfold Py.ltb. rewrite negb_false_iff. apply Qle_bool_iff.
Qed.

Section SortedFacts.
Context {A : Type} (key : A -> Q).

Lemma insert_by_key_perm (x : A) (l : list A) :
  insert_by_key key x l ≡ₚ x :: l.
Proof.
  induction l as [|y l IH]; simpl; [done|].
  destruct (Py.ltb (key y) (key x)); [|done].
  rewrite IH. apply Permutation_swap.
Qed.

Lemma sorted_perm (l : list A) : sorted key l ≡ₚ l.
Proof.
  induction l as [|x l IH]; simpl; [done|].
  by rewrite insert_by_key_perm, IH.
Qed.

Lemma sorted_length (l : list A) : length (sorted key l) = length l.
Proof. apply Permutation_length, sorted_perm. Qed.

Lemma insert_by_key_sorted (x : A) (l : list A) :
  StronglySorted (key_le key) l ->
  StronglySorted (key_le key) (insert_by_key key x l).
Proof.
  induction 1 as [|y l Hl IH Hy]; simpl.
  - repeat constructor.
  - destruct (Py.ltb (key y) (key x)) eqn:E.
    + apply ltb_lt in E. constructor; [done|].
      rewrite insert_by_key_perm. constructor; [|done].
      by apply Qlt_le_weak.
    + apply ltb_ge in E. constructor; [by constructor|].
      constructor; [done|].
      eapply Forall_impl; [exact Hy|].
      intros b Hb. unfold key_le in *. by eapply Qle_trans.
Qed.

Lemma sorted_sorted (l : list A) :
  StronglySorted (key_le key) (sorted key l).
Proof.
  induction l as [|x l IH]; simpl; [constructor|].
  by apply insert_by_key_sorted.
Qed.

(** The elements of one key keep the order they had. *)
Lemma insert_by_key_stable (k : Q) (x : A) (l : list A) :
  with_key key k (insert_by_key key x l) = with_key key k (x :: l).
Proof.
  unfold with_key.
  induction l as [|y l IH]; [done|].
  cbn [insert_by_key].
  destruct (Py.ltb (key y) (key x)) eqn:E; [|done].
  apply ltb_lt in E.
  cbn [List.filter] in *. rewrite IH.
  destruct (Qeq_bool (key x) k) eqn:Ex; [|done].
  destruct (Qeq_bool (key y) k) eqn:Ey; [|done].
  apply Qeq_bool_iff in Ex, Ey. exfalso.
  rewrite Ex, Ey in E. by apply Qlt_irrefl in E.
Qed.

Lemma sorted_stable (k : Q) (l : list A) :
  with_key key k (sorted key l) = with_key key k l.
Proof.
  induction l as [|x l IH]; [done|].
  cbn [sorted]. rewrite insert_by_key_stable. unfold with_key in *.
  cbn [List.filter]. by rewrite IH.
Qed.

Lemma keys_perm (l1 l2 : list A) : l1 ≡ₚ l2 -> keys key l1 ≡ₚ keys key l2.
Proof. intros Hp. unfold keys. by rewrite Hp. Qed.

(** Two sorted arrangements of the same elements are one list when no two
    elements have the same key. *)
Lemma sorted_unique (l1 l2 : list A) :
  StronglySorted (key_le key) l1 -> StronglySorted (key_le key) l2 ->
  l1 ≡ₚ l2 -> NoDup (keys key l1) -> l1 = l2.
Proof.
  intros H1. revert l2.
  induction H1 as [|a t1 Ht1 IH Ha]; intros l2 H2 Hp Hnd.
  - by apply Permutation_nil in Hp.
  - destruct H2 as [|b t2 Ht2 Hb].
    { symmetry in Hp. by apply Permutation_nil in Hp. }
    assert (a = b) as ->.
    { assert (Hbin : b ∈ a :: t1) by (rewrite Hp; apply elem_of_cons; by left).
      assert (Hain : a ∈ b :: t2) by (rewrite <- Hp; apply elem_of_cons; by left).
      apply elem_of_cons in Hbin as [->|Hbt]; [done|].
      apply elem_of_cons in Hain as [->|Hat]; [done|].
      exfalso.
      rewrite Forall_forall in Ha, Hb.
      assert (Hab : key_le key a b) by (by apply Ha).
      assert (Hba : key_le key b a) by (by apply Hb).
      assert (Heq : Qred (key a) = Qred (key b)).
      { apply Qred_complete. by apply Qle_antisym. }
      cbn [keys map] in Hnd. apply NoDup_cons in Hnd as [Hnin _].
      apply Hnin. rewrite Heq.
      apply (list_elem_of_fmap_2 (fun a => Qred (key a))) in Hbt.
      exact Hbt. }
    f_equal. apply IH; [done| |].
    + by apply Permutation_cons_inv in Hp.
    + cbn [keys map] in Hnd. by apply NoDup_cons in Hnd as [_ ?].
Qed.

(** With pairwise distinct keys the outcome of the sort does not depend
    on the order of its input. *)
Lemma sorted_perm_invariant (l1 l2 : list A) :
  l1 ≡ₚ l2 -> NoDup (keys key l1) -> sorted key l1 = sorted key l2.
Proof.
  intros Hp Hnd. apply sorted_unique; try apply sorted_sorted.
  - by rewrite !sorted_perm.
  - by rewrite (keys_perm _ _ (sorted_perm l1)).
Qed.

Lemma sorted_nil_inv (l : list A) : sorted key l = [] -> l = [].
Proof.
  intros Hs. apply length_zero_iff_nil.
  by rewrite <- sorted_length, Hs.
Qed.
End SortedFacts.

(** ** Running the loader *)

Lemma log_app (w : World) (e1 e2 : list Event) :
  log (log w e1) e2 = log w (e1 ++ e2).
Proof. unfold log; simpl. by rewrite app_assoc. Qed.

Lemma log_nil (w : World) : log w [] = w.
Proof. destruct w. unfold log; simpl. by rewrite app_nil_r. Qed.

Lemma bind_run {A B} (m : M A) (k : A -> M B) (w : World) :
  (m ≫= k) w = match m w with
               | (Ok a, w') => k a w'
               | (Raise e, w') => (Raise e, w')
               end.
Proof. reflexivity. Qed.

Lemma emit_run (e : Event) (w : World) : emit e w = (Ok tt, log w [e]).
Proof. reflexivity. Qed.

Lemma listdir_run (w : World) (d : string) (names : list string) :
  files w !! d = Some (Dir names) ->
  listdir d w = (Ok names, log w [EvListdir d]).
Proof.
  intros Hd. unfold listdir. rewrite bind_run, emit_run.
  unfold io. simpl. by rewrite Hd.
Qed.

Lemma dcmread_run (w : World) (fp : string) (ds : Dataset) :
  files w !! fp = Some (DicomFile ds) ->
  dcmread fp w = (Ok ds, log w [EvDcmread fp]).
Proof.
  intros Hf. unfold dcmread. rewrite bind_run, emit_run.
  unfold io. simpl. by rewrite Hf.
Qed.

Lemma position_key_of (ds : Dataset) :
  is_ok (position_key ds) = true -> position_key ds = Ok (key_of ds).
Proof. unfold key_of. by destruct (position_key ds). Qed.

Lemma read_instances_run (d : string) (entries : list (string * Dataset)) :
  forall w : World,
    Forall (fun e => files w !! Py.path_join d e.1 = Some (DicomFile e.2))
           entries ->
    Forall (fun e => is_ok (position_key e.2) = true) entries ->
    read_instances (map (fun e => Py.path_join d e.1) entries) w
    = (Ok (map (instance_of d) entries),
       log w (map (fun e => EvDcmread (Py.path_join d e.1)) entries)).
Proof.
  induction entries as [|e entries IH]; intros w Hall Hkeys.
  - simpl. by rewrite log_nil.
  - apply Forall_cons in Hall as [He Hall].
    apply Forall_cons in Hkeys as [Hk Hkeys].
    cbn [map read_instances]. rewrite bind_run, (dcmread_run _ _ _ He).
    rewrite bind_run. unfold lift at 1. rewrite (position_key_of _ Hk).
    rewrite bind_run, IH by done.
    by rewrite log_app.
Qed.

(** On a directory that holds at least one slice file, and whose slice
    files all decode, the loader is [assemble] on the instances in the
    order of the listing; the files are left as they were. *)
Lemma load_dicom_series_run (w : World) (d : string) (names : list string)
    (entries : list (string * Dataset)) :
  holds_series w d names entries -> entries <> [] ->
  load_dicom_series d w
  = (assemble (map (instance_of d) entries), log w (loader_events d entries)).
Proof.
  intros (Hd & Hnames & Hfiles & Hkeys) Hne.
  unfold load_dicom_series.
  rewrite bind_run, (listdir_run _ _ _ Hd), Hnames.
  rewrite length_map, length_map.
  destruct entries as [|e entries]; [done|]. cbn [length Nat.eqb].
  rewrite map_map, bind_run, read_instances_run by done.
  unfold lift. by rewrite log_app.
Qed.

(** A slice whose position cannot be read stops the loader. *)
Lemma load_dicom_series_stops_at_key (w : World) (d : string)
    (names : list string) (pre : list (string * Dataset)) (f : string)
    (ds : Dataset) (post : list string) (e : exn) :
  files w !! d = Some (Dir names) ->
  List.filter is_dicom_name names = map fst pre ++ f :: post ->
  Forall (fun e => files w !! Py.path_join d e.1 = Some (DicomFile e.2)) pre ->
  Forall (fun e => is_ok (position_key e.2) = true) pre ->
  files w !! Py.path_join d f = Some (DicomFile ds) ->
  position_key ds = Raise e ->
  load_dicom_series d w
  = (Raise e, log w (loader_events d pre ++ [EvDcmread (Py.path_join d f)])).
Proof.
  intros Hd Hnames Hpre Hkeys Hf He. unfold load_dicom_series.
  rewrite bind_run, (listdir_run _ _ _ Hd), Hnames.
  rewrite length_map, length_app. cbn [length].
  replace (length (map fst pre) + S (length post) =? 0)%nat with false
    by (symmetry; apply Nat.eqb_neq; lia).
  rewrite bind_run, map_app, map_map. cbn [map].
  assert (Hgo : forall w0 rest,
    files w0 = files w ->
    read_instances
      (map (fun e => Py.path_join d e.1) pre ++ Py.path_join d f :: rest) w0
    = (Raise e,
       log w0 (map (fun e => EvDcmread (Py.path_join d e.1)) pre
               ++ [EvDcmread (Py.path_join d f)]))).
  { clear Hnames. induction pre as [|x pre IH]; intros w0 rest Hw0.
    - cbn [map app read_instances]. rewrite bind_run.
      rewrite (dcmread_run w0 _ ds) by (by rewrite Hw0).
      rewrite bind_run. unfold lift at 1. by rewrite He.
    - apply Forall_cons in Hpre as [Hx Hpre].
      apply Forall_cons in Hkeys as [Hk Hkeys].
      cbn [map app read_instances]. rewrite bind_run.
      rewrite (dcmread_run w0 _ x.2) by (by rewrite Hw0).
      rewrite bind_run. unfold lift at 1. rewrite (position_key_of _ Hk).
      rewrite bind_run, IH by done. by rewrite log_app. }
  rewrite Hgo by done. unfold loader_events. by rewrite log_app.
Qed.

(** A directory without a slice file. *)
Lemma load_dicom_series_empty (w : World) (d : string) (names : list string) :
  files w !! d = Some (Dir names) -> List.filter is_dicom_name names = [] ->
  (load_dicom_series d w).1 = Raise (FileNotFoundError_no_dicom d).
Proof.
  intros Hd Hnames. unfold load_dicom_series.
  by rewrite bind_run, (listdir_run _ _ _ Hd), Hnames.
Qed.

(** ** Stacking *)

Lemma stack_dtype (t : scalar_type) (ts : list scalar_type) :
  Forall (eq t) ts -> fold_left promote_types ts t = t.
Proof.
  induction 1 as [|t' ts <- _ IH]; [done|]. simpl.
  unfold promote_types at 2. by rewrite bool_decide_eq_true_2.
Qed.

Lemma stack_same_shape (shp : list nat) (arrays : list ndarray) :
  arrays <> [] -> Forall (fun a => shape a = shp) arrays ->
  exists v, Np.stack arrays = Ok v
            /\ shape v = length arrays :: shp
            /\ data v = concat (map data arrays).
Proof.
  intros Hne Hall. destruct arrays as [|a rest]; [done|].
  apply Forall_cons in Hall as [Ha Hrest].
  unfold Np.stack.
  assert (forallb (fun b => shape_eqb (shape b) (shape a)) rest = true) as ->.
  { apply forallb_forall. intros b Hb%list_elem_of_In.
    rewrite Forall_forall in Hrest. unfold shape_eqb.
    apply bool_decide_eq_true_2. rewrite Ha. by apply Hrest. }
  eexists; split; [reflexivity|]. simpl. by rewrite Ha.
Qed.


Lemma stack_dtype_all (t : scalar_type) (arrays : list ndarray) (v : ndarray) :
  Forall (fun a => dtype a = t) arrays -> Np.stack arrays = Ok v ->
  dtype v = t.
Proof.
  intros Hall Hs. destruct arrays as [|a rest]; [done|].
  apply Forall_cons in Hall as [Ha Hrest]. unfold Np.stack in Hs.
  destruct (forallb _ rest); [|done]. injection Hs as <-. simpl.
  rewrite Ha. apply stack_dtype, Forall_map.
  eapply Forall_impl; [exact Hrest|]. by intros b <-.
Qed.

(** ** The assembler on slices of one shape *)

Ltac meta_lookup :=
  unfold metadata_of; destruct (pixel_spacing_of _);
  repeat (rewrite lookup_insert_ne by done);
  try rewrite lookup_insert_eq; try apply lookup_empty.

Lemma metadata_slice_locations ds0 insts sops :
  metadata_of ds0 insts sops !! "SliceLocations"
  = Some (PyFloatList (map z insts)).
Proof. by meta_lookup. Qed.

Lemma metadata_sop_uids ds0 insts sops :
  metadata_of ds0 insts sops !! "SOPInstanceUIDs" = Some (PyStrList sops).
Proof. by meta_lookup. Qed.

Lemma metadata_slice_spacing ds0 insts sops :
  metadata_of ds0 insts sops !! "SliceSpacing"
  = Some (PyFloat (z_spacing_of ds0)).
Proof. by meta_lookup. Qed.

Lemma metadata_pixel_spacing ds0 insts sops :
  metadata_of ds0 insts sops !! "PixelSpacing"
  = Some (PyTuple2 (pixel_spacing_of ds0).1 (pixel_spacing_of ds0).2).
Proof.
  unfold metadata_of. destruct (pixel_spacing_of ds0).
  by rewrite lookup_insert_eq.
Qed.

Lemma assemble_same_shape (insts : list Instance) (shp : list nat) :
  insts <> [] ->
  Forall (fun i => shape (pixel_array (dataset i)) = shp) insts ->
  exists vol inst0 rest,
    sorted z insts = inst0 :: rest
    /\ assemble insts
       = Ok (vol, metadata_of (dataset inst0) (sorted z insts)
                    (map (fun i => SOPInstanceUID (dataset i))
                         (sorted z insts)))
    /\ shape vol = length insts :: shp
    /\ dtype vol = int16
    /\ data vol
       = concat (map (fun i => map cast_int16 (data (pixel_array (dataset i))))
                     (sorted z insts)).
Proof.
  intros Hne Hall.
  assert (Hall' : Forall (fun i => shape (pixel_array (dataset i)) = shp)
                         (sorted z insts)).
  { eapply Permutation_Forall; [|exact Hall]. symmetry. apply sorted_perm. }
  pose proof (sorted_length z insts) as Hlen.
  unfold assemble.
  destruct (sorted z insts) as [|inst0 rest] eqn:Es.
  { by apply sorted_nil_inv in Es. }
  set (slices := map (fun i => astype_int16 (pixel_array (dataset i)))
                     (inst0 :: rest)).
  destruct (stack_same_shape shp slices) as (vol & Hs & Hshape & Hdata).
  { done. }
  { unfold slices. apply Forall_map. exact Hall'. }
  assert (Hdt : dtype vol = int16).
  { apply (stack_dtype_all _ slices); [|exact Hs].
    unfold slices. apply Forall_map, Forall_true. done. }
  exists vol, inst0, rest. split; [done|].
  rewrite Hs. simpl. split; [done|]. split.
  { rewrite Hshape. unfold slices. by rewrite length_map, Hlen. }
  split; [done|].
  rewrite Hdata. unfold slices. by rewrite map_map.
Qed.


Lemma same_shape_instances (d : string) (entries : list (string * Dataset))
    (shp : list nat) :
  Forall (fun e => shape (pixel_array e.2) = shp) entries ->
  Forall (fun i => shape (pixel_array (dataset i)) = shp)
         (map (instance_of d) entries).
Proof. intros Hall. by apply Forall_map. Qed.

(** ** The 16-bit cast *)

Lemma wrap16_range (n : Z) : (-32768 <= wrap16 n <= 32767)%Z.
Proof. unfold wrap16. pose proof (Z.mod_pos_bound (n + 32768) 65536). lia. Qed.

Lemma wrap16_id (n : Z) : (-32768 <= n <= 32767)%Z -> wrap16 n = n.
Proof. intros Hn. unfold wrap16. rewrite Z.mod_small; lia. Qed.

Lemma trunc_Z (n : Z) : trunc (inject_Z n) = n.
Proof. unfold trunc. destruct (Qle_bool 0 _); [apply Qfloor_Z|apply Qceiling_Z]. Qed.

Lemma cast_int16_Z (n : Z) : cast_int16 (inject_Z n) = inject_Z (wrap16 n).
Proof. unfold cast_int16. by rewrite trunc_Z. Qed.

(** ** The series assembler *)

(** C2, as the code has it. Each slice gets its ordering key by the
    fallback priority among the position elements its header has: the third
    component of the spatial position, else the slice location, else the
    instance number, else 0.0. The element the priority stops at is read
    whatever it holds: where it is there without a value the loader raises
    TypeError and does not turn to the next element, and the first slice of
    a listing on which that happens stops the loader. On a series whose
    positions can all be read, the slices are put in ascending order of the
    key by a stable sort: the order of the volume is a rearrangement of the
    slices read, it is non-decreasing in the key, and the slices of one key
    keep the order in which the listing gave them. The assembled volume,
    the list of slice locations and the list of instance identifiers all
    follow that order. *)
Theorem load_dicom_series_sorted_by_position_key
    (w : World) (d : string) (names : list string)
    (entries : list (string * Dataset)) (shp : list nat) :
  holds_series w d names entries -> entries <> [] ->
  Forall (fun e => shape (pixel_array e.2) = shp) entries ->
  let insts := ordered_instances d entries in
  (forall ds x y k more,
      ImagePositionPatient ds = Some (x :: y :: k :: more) ->
      position_key ds = Ok k)
  /\ (forall ds loc, ImagePositionPatient ds = None ->
                     SliceLocation ds = Some [loc] ->
                     position_key ds = Ok loc)
  /\ (forall ds n, ImagePositionPatient ds = None -> SliceLocation ds = None ->
                   InstanceNumber ds = Some [n] ->
                   position_key ds = Ok (inject_Z n))
  /\ (forall ds, ImagePositionPatient ds = None -> SliceLocation ds = None ->
                 InstanceNumber ds = None -> position_key ds = Ok 0%Q)
  /\ (forall ds,
        ImagePositionPatient ds = Some []
        \/ (ImagePositionPatient ds = None /\ SliceLocation ds = Some [])
        \/ (ImagePositionPatient ds = None /\ SliceLocation ds = None
            /\ InstanceNumber ds = Some []) ->
        exists what, position_key ds = Raise (TypeError what))
  /\ (forall w' d' names' pre f ds post e,
        files w' !! d' = Some (Dir names') ->
        List.filter is_dicom_name names' = map fst pre ++ f :: post ->
        Forall (fun x => files w' !! Py.path_join d' x.1
                         = Some (DicomFile x.2)) pre ->
        Forall (fun x => is_ok (position_key x.2) = true) pre ->
        files w' !! Py.path_join d' f = Some (DicomFile ds) ->
        position_key ds = Raise e ->
        (load_dicom_series d' w').1 = Raise e)
  /\ Forall (fun i => position_key (dataset i) = Ok (z i)) insts
  /\ insts ≡ₚ map (instance_of d) entries
  /\ StronglySorted (key_le z) insts
  /\ (forall k, with_key z k insts = with_key z k (map (instance_of d) entries))
  /\ exists vol meta,
       (load_dicom_series d w).1 = Ok (vol, meta)
       /\ data vol
          = concat (map (fun i => data (astype_int16 (pixel_array (dataset i))))
                        insts)
       /\ meta !! "SliceLocations" = Some (PyFloatList (map z insts))
       /\ meta !! "SOPInstanceUIDs"
          = Some (PyStrList (map (fun i => SOPInstanceUID (dataset i)) insts))
       /\ StronglySorted Qle (map z insts).
Proof.
  intros Hw Hne Hshp insts.
  assert (Hperm : insts ≡ₚ map (instance_of d) entries) by apply sorted_perm.
  assert (Hsorted : StronglySorted (key_le z) insts) by apply sorted_sorted.
  split. { intros ds x y k more Hp. unfold position_key. by rewrite Hp. }
  split. { intros ds loc Hp Hl. unfold position_key. by rewrite Hp, Hl. }
  split. { intros ds n Hp Hl Hn. unfold position_key. by rewrite Hp, Hl, Hn. }
  split. { intros ds Hp Hl Hn. unfold position_key. by rewrite Hp, Hl, Hn. }
  split.
  { intros ds [Hp|[[Hp Hl]|(Hp & Hl & Hn)]]; unfold position_key;
      rewrite Hp, ?Hl, ?Hn; by eexists. }
  split.
  { intros w' d' names' pre f ds post e Hd' Hn' Hpre Hkeys Hf He.
    by rewrite (load_dicom_series_stops_at_key w' d' names' pre f ds post e). }
  split.
  { eapply Permutation_Forall; [symmetry; exact Hperm|].
    apply Forall_map. destruct Hw as (_ & _ & _ & Hkeys).
    eapply Forall_impl; [exact Hkeys|]. intros e He. cbn [instance_of dataset z].
    by apply position_key_of. }
  split; [exact Hperm|]. split; [exact Hsorted|].
  split. { intros k. apply sorted_stable. }
  rewrite (load_dicom_series_run w d names entries Hw Hne). simpl.
  destruct (assemble_same_shape (map (instance_of d) entries) shp)
    as (vol & inst0 & rest & Hs & Ha & _ & _ & Hdata).
  { by destruct entries. }
  { by apply same_shape_instances. }
  exists vol, (metadata_of (dataset inst0) insts
                 (map (fun i => SOPInstanceUID (dataset i)) insts)).
  split; [exact Ha|]. split; [exact Hdata|].
  split; [apply metadata_slice_locations|].
  split; [apply metadata_sop_uids|].
  clear -Hsorted. induction Hsorted as [|a l _ IH Ha]; simpl; constructor.
  - exact IH.
  - apply Forall_map. exact Ha.
Qed.

Ltac holds_example :=
  split; [vm_compute; reflexivity|];
  split; [vm_compute; reflexivity|];
  split; repeat constructor; vm_compute; reflexivity.

Ltac same_shape_example := repeat constructor.

Lemma load_dicom_series_sorted_by_position_key_witness :
  holds_series Examples.world5 "series/1.2.3"
    (map fst Examples.five_files ++ ["notes.txt"]) Examples.five_files
  /\ Examples.five_files <> []
  /\ Forall (fun e => shape (pixel_array e.2) = [2; 2]%nat) Examples.five_files
  /\ exists vol meta,
       (load_dicom_series "series/1.2.3" Examples.world5).1 = Ok (vol, meta)
       /\ meta !! "SOPInstanceUIDs"
          = Some (PyStrList ["D"; "B"; "C"; "A"; "E"]).
Proof.
  assert (H1 : holds_series Examples.world5 "series/1.2.3"
                 (map fst Examples.five_files ++ ["notes.txt"])
                 Examples.five_files) by holds_example.
  assert (H2 : Examples.five_files <> []) by done.
  assert (H3 : Forall (fun e => shape (pixel_array e.2) = [2; 2]%nat)
                      Examples.five_files) by same_shape_example.
  split; [exact H1|]. split; [exact H2|]. split; [exact H3|].
  destruct (load_dicom_series_sorted_by_position_key _ _ _ _ _ H1 H2 H3)
    as (_ & _ & _ & _ & _ & _ & _ & _ & _ & _
        & vol & meta & Hl & _ & _ & Hu & _).
  exists vol, meta. split; [exact Hl|exact Hu].
Defined.

(** C2 fails on the code: a slice whose spatial position is there without
    a value stops the loader with TypeError, though its header has a slice
    location to fall back on; no volume is assembled. *)
Lemma load_dicom_series_empty_position_raises :
  files MoreExamples.world_empty_position !! "s"
  = Some (Dir ["a.dcm"; "b.dcm"])
  /\ files MoreExamples.world_empty_position !! "s/b.dcm"
     = Some (DicomFile MoreExamples.slice_empty_position)
  /\ ImagePositionPatient MoreExamples.slice_empty_position = Some []
  /\ SliceLocation MoreExamples.slice_empty_position = Some [5%Q]
  /\ load_dicom_series "s" MoreExamples.world_empty_position
     = (Raise (TypeError "not subscriptable"),
        log MoreExamples.world_empty_position
          [EvListdir "s"; EvDcmread "s/a.dcm"; EvDcmread "s/b.dcm"]).
Proof. repeat split; vm_compute; reflexivity. Qed.



(** C7. The spacing of an assembled series is read from its first slice
    (the first in the order of the volume): through the plane, the slice
    thickness when the slice has one, else the spacing between slices when
    it has one, else 1.0; in the plane, the pixel spacing (height, width)
    when the slice has one, else (1.0, 1.0). *)
Theorem load_dicom_series_spacing
    (w : World) (d : string) (names : list string)
    (entries : list (string * Dataset)) (shp : list nat) :
  holds_series w d names entries -> entries <> [] ->
  Forall (fun e => shape (pixel_array e.2) = shp) entries ->
  exists vol meta inst0 rest,
    (load_dicom_series d w).1 = Ok (vol, meta)
    /\ ordered_instances d entries = inst0 :: rest
    /\ let ds0 := dataset inst0 in
       (forall t, SliceThickness ds0 = Some t ->
                  meta !! "SliceSpacing" = Some (PyFloat t))
       /\ (forall s, SliceThickness ds0 = None ->
                     SpacingBetweenSlices ds0 = Some s ->
                     meta !! "SliceSpacing" = Some (PyFloat s))
       /\ (SliceThickness ds0 = None -> SpacingBetweenSlices ds0 = None ->
           meta !! "SliceSpacing" = Some (PyFloat 1))
       /\ (forall r c, PixelSpacing ds0 = Some (r, c) ->
                       meta !! "PixelSpacing" = Some (PyTuple2 r c))
       /\ (PixelSpacing ds0 = None ->
           meta !! "PixelSpacing" = Some (PyTuple2 1 1)).
Proof.
  intros Hw Hne Hshp.
  rewrite (load_dicom_series_run w d names entries Hw Hne). simpl.
  destruct (assemble_same_shape (map (instance_of d) entries) shp)
    as (vol & inst0 & rest & Hs & Ha & _).
  { by destruct entries. }
  { by apply same_shape_instances. }
  eexists vol, _, inst0, rest. split; [exact Ha|]. split; [exact Hs|].
  cbv zeta. rewrite metadata_slice_spacing, metadata_pixel_spacing.
  unfold z_spacing_of, pixel_spacing_of.
  split. { by intros t ->. }
  split. { by intros s -> ->. }
  split. { by intros -> ->. }
  split. { by intros r c ->. }
  by intros ->.
Qed.

Lemma load_dicom_series_spacing_witness :
  holds_series Examples.world_one_bare "s"
    (map fst Examples.one_bare ++ ["notes.txt"]) Examples.one_bare
  /\ Examples.one_bare <> []
  /\ Forall (fun e => shape (pixel_array e.2) = [1; 1]%nat) Examples.one_bare
  /\ exists vol meta,
       (load_dicom_series "s" Examples.world_one_bare).1 = Ok (vol, meta)
       /\ meta !! "SliceSpacing" = Some (PyFloat 1)
       /\ meta !! "PixelSpacing" = Some (PyTuple2 1 1).
Proof.
  assert (H1 : holds_series Examples.world_one_bare "s"
                 (map fst Examples.one_bare ++ ["notes.txt"]) Examples.one_bare)
    by holds_example.
  assert (H2 : Examples.one_bare <> []) by done.
  assert (H3 : Forall (fun e => shape (pixel_array e.2) = [1; 1]%nat)
                      Examples.one_bare)
    by same_shape_example.
  split; [exact H1|]. split; [exact H2|]. split; [exact H3|].
  destruct (load_dicom_series_spacing _ _ _ _ _ H1 H2 H3)
    as (vol & meta & inst0 & rest & Hl & Ho & _ & _ & Hz & _ & Hp).
  injection Ho as <- _.
  exists vol, meta. split; [exact Hl|]. split; [by apply Hz|by apply Hp].
Defined.

(** C10. Every slice is cast to 16-bit signed integers before the slices
    are stacked: the assembled volume has element type int16 whatever the
    element types of the stored pixel matrices, its elements are the casts
    of the stored values and lie in the 16-bit signed range; a stored
    integer inside that range is kept, one outside it is not. *)
Theorem load_dicom_series_int16
    (w : World) (d : string) (names : list string)
    (entries : list (string * Dataset)) (shp : list nat) :
  holds_series w d names entries -> entries <> [] ->
  Forall (fun e => shape (pixel_array e.2) = shp) entries ->
  exists vol meta,
    (load_dicom_series d w).1 = Ok (vol, meta)
    /\ dtype vol = int16
    /\ data vol
       = concat (map (fun i => map cast_int16 (data (pixel_array (dataset i))))
                     (ordered_instances d entries))
    /\ Forall (fun x => exists n : Z,
                   x = inject_Z n /\ (-32768 <= n <= 32767)%Z) (data vol)
    /\ (forall p : Z, (-32768 <= p <= 32767)%Z ->
                      cast_int16 (inject_Z p) = inject_Z p)
    /\ (forall p : Z, ~ (-32768 <= p <= 32767)%Z ->
                      ~ (cast_int16 (inject_Z p) == inject_Z p)%Q).
Proof.
  intros Hw Hne Hshp.
  rewrite (load_dicom_series_run w d names entries Hw Hne). simpl.
  destruct (assemble_same_shape (map (instance_of d) entries) shp)
    as (vol & inst0 & rest & _ & Ha & _ & Hdt & Hdata).
  { by destruct entries. }
  { by apply same_shape_instances. }
  eexists vol, _. split; [exact Ha|]. split; [exact Hdt|].
  split; [exact Hdata|]. split.
  { rewrite Hdata. apply Forall_concat, Forall_map, Forall_true.
    intros i. apply Forall_map, Forall_true. intros x.
    exists (wrap16 (trunc x)). split; [done|apply wrap16_range]. }
  split.
  { intros p Hp. by rewrite cast_int16_Z, wrap16_id. }
  intros p Hp Heq. rewrite cast_int16_Z in Heq.
  unfold Qeq in Heq. simpl in Heq. rewrite !Z.mul_1_r in Heq.
  pose proof (wrap16_range p) as Hr. rewrite Heq in Hr. exact (Hp Hr).
Qed.

Lemma load_dicom_series_int16_witness :
  holds_series Examples.world5 "series/1.2.3"
    (map fst Examples.five_files ++ ["notes.txt"]) Examples.five_files
  /\ Examples.five_files <> []
  /\ Forall (fun e => shape (pixel_array e.2) = [2; 2]%nat) Examples.five_files
  /\ exists vol meta,
       (load_dicom_series "series/1.2.3" Examples.world5).1 = Ok (vol, meta)
       /\ dtype vol = int16
       /\ firstn 4 (data vol) = [0%Q; 1%Q; 2%Q; 4464%Q].
Proof.
  assert (H1 : holds_series Examples.world5 "series/1.2.3"
                 (map fst Examples.five_files ++ ["notes.txt"])
                 Examples.five_files) by holds_example.
  assert (H2 : Examples.five_files <> []) by done.
  assert (H3 : Forall (fun e => shape (pixel_array e.2) = [2; 2]%nat)
                      Examples.five_files) by same_shape_example.
  split; [exact H1|]. split; [exact H2|]. split; [exact H3|].
  destruct (load_dicom_series_int16 _ _ _ _ _ H1 H2 H3)
    as (vol & meta & Hl & Hdt & Hdata & _).
  exists vol, meta. split; [exact Hl|]. split; [exact Hdt|].
  rewrite Hdata. vm_compute. reflexivity.
Defined.

Lemma keys_instances (d : string) (entries : list (string * Dataset)) :
  keys z (map (instance_of d) entries) = keys key_of (map snd entries).
Proof. unfold keys. by rewrite !map_map. Qed.

Lemma holds_series_rev (w w' : World) (d : string) (names : list string)
    (entries : list (string * Dataset)) :
  holds_series w d names entries ->
  files w' = <[d := Dir (rev names)]> (files w) ->
  holds_series w' d (rev names) (rev entries).
Proof.
  intros (Hd & Hnames & Hfiles & Hkeys) Hw'. unfold holds_series. rewrite Hw'.
  split; [apply lookup_insert_eq|].
  split; [by rewrite filter_rev, Hnames, map_rev|].
  split; [|by apply Forall_rev].
  apply Forall_rev. eapply Forall_impl; [exact Hfiles|].
  intros e He. cbn beta in He. rewrite lookup_insert_ne; [exact He|].
  intros Heq. rewrite <- Heq in He. congruence.
Qed.

(** C4. When the position keys of the slices of a series are pairwise
    distinct, the loader returns the same volume and the same metadata,
    per-slice lists included, whether the directory lists its files in one
    order or in the reverse order. *)
Theorem load_dicom_series_reversed_listing
    (w w' : World) (d : string) (names : list string)
    (entries : list (string * Dataset)) :
  holds_series w d names entries ->
  files w' = <[d := Dir (rev names)]> (files w) ->
  NoDup (keys key_of (map snd entries)) ->
  (load_dicom_series d w').1 = (load_dicom_series d w).1.
Proof.
  intros Hw Hw' Hnd.
  pose proof (holds_series_rev _ _ _ _ _ Hw Hw') as Hrev.
  destruct entries as [|e entries].
  - destruct Hw as (Hd & Hnames & _). destruct Hrev as (Hd' & Hnames' & _).
    by rewrite (load_dicom_series_empty w' d _ Hd' Hnames'),
               (load_dicom_series_empty w d _ Hd Hnames).
  - rewrite (load_dicom_series_run w' d _ _ Hrev),
            (load_dicom_series_run w d _ _ Hw); [|done|].
    2:{ intros Hnil. apply (f_equal (@length _)) in Hnil.
        rewrite length_rev in Hnil. done. }
    cbn [fst]. unfold assemble.
    rewrite (sorted_perm_invariant z (map (instance_of d) (rev (e :: entries)))
               (map (instance_of d) (e :: entries))); [done| |].
    + rewrite map_rev. symmetry. apply Permutation_rev.
    + rewrite keys_instances, map_rev. unfold keys. rewrite map_rev.
      eapply NoDup_Permutation_proper; [|exact Hnd].
      symmetry. apply Permutation_rev.
Qed.

Lemma load_dicom_series_reversed_listing_witness :
  holds_series Examples.world5 "series/1.2.3"
    (map fst Examples.five_files ++ ["notes.txt"]) Examples.five_files
  /\ NoDup (keys key_of (map snd Examples.five_files))
  /\ (load_dicom_series "series/1.2.3" Examples.world5_reversed).1
     = (load_dicom_series "series/1.2.3" Examples.world5).1.
Proof.
  assert (H1 : holds_series Examples.world5 "series/1.2.3"
                 (map fst Examples.five_files ++ ["notes.txt"])
                 Examples.five_files) by holds_example.
  assert (H2 : NoDup (keys key_of (map snd Examples.five_files))).
  { apply NoDup_ListNoDup. vm_compute.
    repeat (constructor; [simpl; intuition discriminate|]). constructor. }
  split; [exact H1|]. split; [exact H2|].
  exact (load_dicom_series_reversed_listing _ Examples.world5_reversed
           _ _ _ H1 eq_refl H2).
Defined.

(** Among slices of one key the listing decides: two slices without any
    position attribute come out in the order of the listing, and in the
    other order when the listing is reversed. *)
Example equal_keys_follow_the_listing :
  map (fun i => SOPInstanceUID (dataset i))
      (ordered_instances "s" [("a.dcm", Examples.bare_slice "A" 1 1 [1]%Z);
                              ("b.dcm", Examples.bare_slice "B" 1 1 [2]%Z)])
  = ["A"; "B"]
  /\ map (fun i => SOPInstanceUID (dataset i))
         (ordered_instances "s" [("b.dcm", Examples.bare_slice "B" 1 1 [2]%Z);
                                 ("a.dcm", Examples.bare_slice "A" 1 1 [1]%Z)])
     = ["B"; "A"].
Proof. split; vm_compute; reflexivity. Qed.

(** ** The isotropic resampler *)

Lemma pow2_pos (e : Z) : (0 < Py.pow2 e)%Q.
Proof.
  unfold Py.pow2. destruct (Z.leb_spec 0 e).
  - change 0%Q with (inject_Z 0). rewrite <- Zlt_Qlt. by apply Z.pow_pos_nonneg.
  - apply Qlt_shift_div_l.
    + change 0%Q with (inject_Z 0). rewrite <- Zlt_Qlt.
      apply Z.pow_pos_nonneg; lia.
    + by rewrite Qmult_0_l.
Qed.

Lemma round_comp (x y : Q) : (x == y)%Q -> Py.round x = Py.round y.
Proof.
  intros Hxy. unfold Py.round. rewrite (Qfloor_comp _ _ Hxy).
  assert ((x - inject_Z (Qfloor y)) == (y - inject_Z (Qfloor y)))%Q as ->
    by (by rewrite Hxy).
  done.
Qed.

Lemma round_nonneg (x : Q) : (0 <= x)%Q -> (0 <= Py.round x)%Z.
Proof.
  intros Hx. unfold Py.round.
  assert (0 <= Qfloor x)%Z.
  { change 0%Z with (Qfloor 0). by apply Qfloor_resp_le. }
  destruct (Qcompare _ _); [destruct (Z.even _)| |]; lia.
Qed.

Lemma round_Z (n : Z) (q : Q) : (q == inject_Z n)%Q -> Py.round q = n.
Proof.
  intros Hq. rewrite (round_comp _ _ Hq). unfold Py.round.
  rewrite Qfloor_Z.
  assert ((inject_Z n - inject_Z n) == 0)%Q as -> by ring.
  done.
Qed.

(** The rounding to a 64-bit float looks at the number, not at the
    fraction that writes it; it keeps the sign. *)
Lemma binary64_comp (x y : Q) : (x == y)%Q -> Py.binary64 x = Py.binary64 y.
Proof.
  intros Hxy. unfold Py.binary64. by rewrite (Qred_complete _ _ Hxy).
Qed.

Lemma binary64_nonneg (x : Q) :
  (0 <= x)%Q -> Py.not_negative (Py.binary64 x).
Proof.
  intros Hx. unfold Py.not_negative, Py.binary64.
  assert (Hx' : (0 <= Qred x)%Q) by (by rewrite Qred_correct).
  destruct (Qeq_bool (Qred x) 0); [done|].
  assert (Hle : Qle_bool 0 (Qred x) = true) by (by apply Qle_bool_iff).
  rewrite Hle. cbn [negb].
  set (e := Z.max _ _).
  set (m := Py.round _).
  assert (Hm : (0 <= m)%Z).
  { apply round_nonneg. apply Qle_shift_div_l; [apply pow2_pos|].
    rewrite Qmult_0_l. apply Qabs_nonneg. }
  assert (Hr : (0 <= inject_Z m * Py.pow2 e)%Q).
  { apply Qmult_le_0_compat; [|apply Qlt_le_weak, pow2_pos].
    change 0%Q with (inject_Z 0). by rewrite <- Zle_Qle. }
  clear Hle. destruct (Qle_bool (Py.pow2 1024) _); [done|].
  by rewrite Qred_correct.
Qed.

(** An integer below 2^53 is a 64-bit float. *)
Lemma binary64_Z (n : Z) :
  (0 <= n < 2 ^ 53)%Z -> Py.binary64 (inject_Z n) = Py.Fin (inject_Z n).
Proof.
  intros [Hn0 Hn]. unfold Py.binary64.
  assert (HQ : Qred (inject_Z n) = inject_Z n).
  { unfold Qred, inject_Z.
    pose proof (Z.ggcd_gcd n 1) as Hg.
    pose proof (Z.ggcd_correct_divisors n 1) as Hd.
    destruct (Z.ggcd n 1) as [g [aa bb]]. cbn [fst snd] in *.
    rewrite Z.gcd_1_r in Hg. subst g. destruct Hd as [Ha Hb].
    assert (bb = 1%Z) as -> by lia. assert (aa = n) as -> by lia. done. }
  rewrite HQ.
  destruct (Z.eq_dec n 0%Z) as [->|Hnz]; [done|].
  assert (Hpos : (0 < n)%Z) by lia.
  assert (Qeq_bool (inject_Z n) 0 = false) as ->.
  { apply not_true_iff_false. intros E%Qeq_bool_iff.
    unfold Qeq in E. cbn in E. lia. }
  assert (Ha : Qabs (inject_Z n) = inject_Z n).
  { unfold Qabs, inject_Z. by rewrite Z.abs_eq. }
  rewrite Ha. cbn [Qnum Qden inject_Z].
  change (Z.log2 1) with 0%Z. rewrite Z.sub_0_r.
  fold (inject_Z n).
  pose proof (Z.log2_spec n Hpos) as [Hlo Hhi].
  pose proof (Z.log2_nonneg n) as Hk0.
  assert (Hk : (Z.log2 n <= 52)%Z).
  { apply Z.lt_succ_r. apply (Z.pow_lt_mono_r_iff 2); lia. }
  assert (Qle_bool (Py.pow2 (Z.log2 n)) (inject_Z n) = true) as ->.
  { apply Qle_bool_iff. unfold Py.pow2.
    rewrite (proj2 (Z.leb_le 0 _) Hk0). by rewrite <- Zle_Qle. }
  rewrite Z.max_l by lia.
  assert (Hle0 : Qle_bool 0 (inject_Z n) = true).
  { apply Qle_bool_iff. change 0%Q with (inject_Z 0). rewrite <- Zle_Qle. lia. }
  rewrite Hle0.
  set (e := (Z.log2 n - 52)%Z).
  assert (Hpe : (Py.pow2 e * inject_Z (2 ^ (52 - Z.log2 n)) == 1)%Q).
  { unfold Py.pow2, e. destruct (Z.leb_spec 0 (Z.log2 n - 52)) as [Hge|Hlt].
    - assert (Z.log2 n = 52%Z) as -> by lia. done.
    - replace (- (Z.log2 n - 52))%Z with (52 - Z.log2 n)%Z by lia.
      field. intros E. unfold Qeq in E. cbn in E.
      assert (0 < 2 ^ (52 - Z.log2 n))%Z by (apply Z.pow_pos_nonneg; lia).
      lia. }
  assert (Hm : Py.round (inject_Z n / Py.pow2 e)
               = (n * 2 ^ (52 - Z.log2 n))%Z).
  { apply round_Z. rewrite inject_Z_mult.
    pose proof (pow2_pos e) as Hp.
    assert (Hinv : (/ Py.pow2 e == inject_Z (2 ^ (52 - Z.log2 n)))%Q).
    { rewrite <- (Qmult_1_l (/ Py.pow2 e)), <- Hpe. field. lra. }
    unfold Qdiv. by rewrite Hinv. }
  rewrite Hm.
  assert (Hr : (inject_Z (n * 2 ^ (52 - Z.log2 n)) * Py.pow2 e
                == inject_Z n)%Q).
  { rewrite inject_Z_mult, <- Qmult_assoc,
      (Qmult_comm (inject_Z (2 ^ _))), Hpe. ring. }
  assert (Qle_bool (Py.pow2 1024) (inject_Z (n * 2 ^ (52 - Z.log2 n))
                                   * Py.pow2 e) = false) as ->.
  { apply not_true_iff_false. intros E%Qle_bool_iff. rewrite Hr in E.
    unfold Py.pow2 in E. cbn [Z.leb Z.compare] in E.
    rewrite <- Zle_Qle in E.
    assert (2 ^ 53 < 2 ^ 1024)%Z by (by apply Z.pow_lt_mono_r). lia. }
  by rewrite (Qred_complete _ _ Hr), HQ.
Qed.

Lemma to_float_not_negative (x : Py.float) :
  Py.not_negative x -> Py.not_negative (Py.to_float x).
Proof.
  destruct x as [q| |]; [|done..]. cbn [Py.to_float Py.not_negative].
  intros Hq. by apply binary64_nonneg.
Qed.

Lemma quotient_not_negative (x y : Py.float) :
  Py.not_negative (Py.to_float x) -> Py.not_negative (Py.to_float y) ->
  Py.not_negative (Py.quotient x y).
Proof.
  unfold Py.quotient.
  destruct (Py.to_float x) as [a|s|], (Py.to_float y) as [b|t|];
    cbn [Py.not_negative]; try done.
  - intros Ha Hb. destruct (Qeq_bool b 0) eqn:E.
    + apply Qeq_bool_iff in E.
      rewrite (binary64_comp (a / b) 0) by (rewrite E; unfold Qdiv, Qinv; cbn; ring).
      done.
    + apply Qeq_bool_neq in E. apply binary64_nonneg.
      apply Qle_shift_div_l; [lra|]. by rewrite Qmult_0_l.
  - intros -> Hb. cbn [xorb]. by rewrite (proj2 (Qle_bool_iff 0 b) Hb).
Qed.

Lemma product_not_negative (x y : Py.float) :
  Py.not_negative (Py.to_float x) -> Py.not_negative (Py.to_float y) ->
  Py.not_negative (Py.product x y).
Proof.
  unfold Py.product.
  destruct (Py.to_float x) as [a|s|], (Py.to_float y) as [b|t|];
    cbn [Py.not_negative]; try done.
  - intros Ha Hb. apply binary64_nonneg. by apply Qmult_le_0_compat.
  - intros Ha ->. destruct (Qeq_bool a 0); [done|]. cbn [xorb Py.not_negative].
    by rewrite (proj2 (Qle_bool_iff 0 a) Ha).
  - intros -> Hb. destruct (Qeq_bool b 0); [done|]. cbn [xorb Py.not_negative].
    by rewrite (proj2 (Qle_bool_iff 0 b) Hb).
  - by intros -> ->.
Qed.

Section Resampler.
Context `{Externals}.

Lemma py_div_nonzero (x y : Py.float) :
  Py.is_zero y = false -> py_div x y = Ok (Py.quotient x y).
Proof. intros Hy. unfold py_div. by rewrite Hy. Qed.

Lemma py_div_zero (x y : Py.float) :
  Py.is_zero y = true -> py_div x y = Raise ZeroDivisionError.
Proof. intros Hy. unfold py_div. by rewrite Hy. Qed.

(** The resampler on a volume of rank 3 and spacings of three
    components. *)
Lemma resample_isotropic_3d (w : World) (v : ndarray)
    (sz sy sx nz ny nx : Py.float) (order : Z) :
  ndim v = 3%nat ->
  resample_isotropic v [sz; sy; sx] [nz; ny; nx] order w
  = match py_div sz nz, py_div sy ny, py_div sx nx with
    | Ok fz, Ok fy, Ok fx =>
        (rbind (ndimage_zoom v [fz; fy; fx] order)
               (fun r => Ok (astype_float32 r)),
         log w [EvZoom v [fz; fy; fx] order])
    | _, _, _ => (Raise ZeroDivisionError, w)
    end.
Proof.
  intros Hv. unfold resample_isotropic. rewrite Hv.
  cbv beta iota delta [mbind M_bind bind mret M_ret ret lift raise unpack3
                       Nat.eqb andb negb py_div length].
  destruct (Py.is_zero nz); [done|].
  destruct (Py.is_zero ny); [done|].
  destruct (Py.is_zero nx); [done|].
  rewrite emit_run.
  destruct (ndimage_zoom _ _ _); [|done]. by rewrite Hv.
Qed.

Lemma map_of_nat_inj (l l' : list nat) :
  map Z.of_nat l = map Z.of_nat l' -> l = l'.
Proof.
  revert l'. induction l as [|a l IH]; intros [|b l'] Hc; try done.
  simpl in Hc. injection Hc as Hab Hc. f_equal; [lia|by apply IH].
Qed.

Lemma accepted_rank_cases (v : ndarray) :
  ndim v = 2%nat \/ ndim v = 3%nat
  \/ (ndim v = 4%nat /\ hd 0%nat (shape v) = 1%nat) ->
  exists v3, rank_adjusted v v3 /\ ndim v3 = 3%nat
    /\ forall sp nsp order w,
         resample_isotropic v sp nsp order w
         = resample_isotropic v3 sp nsp order w.
Proof.
  unfold ndim, rank_adjusted. intros [Hv|[Hv|[Hv Hh]]].
  - exists (newaxis v). split; [tauto|]. split; [by simpl; rewrite Hv|].
    intros. unfold resample_isotropic, ndim. simpl. by rewrite Hv.
  - exists v. split; [tauto|]. by split.
  - exists (squeeze0 v). split; [tauto|]. split.
    { simpl. destruct (shape v); [done|]. simpl in *. lia. }
    intros. unfold resample_isotropic, ndim. rewrite Hv, Hh. simpl.
    destruct (shape v) as [|? s]; [done|]. simpl in *.
    assert (length s = 3%nat) as -> by lia. done.
Qed.

Lemma rejected_rank (v : ndarray) (sp nsp : list Py.float) (order : Z)
    (w : World) :
  ndim v <> 2%nat -> ndim v <> 3%nat ->
  ~ (ndim v = 4%nat /\ hd 0%nat (shape v) = 1%nat) ->
  resample_isotropic v sp nsp order w
  = (Raise (ValueError_unexpected_shape (shape v)), w).
Proof.
  intros H2 H3 H4. unfold resample_isotropic.
  destruct (Nat.eqb_spec (ndim v) 2); [done|].
  destruct (Nat.eqb_spec (ndim v) 4) as [E4|];
    [destruct (Nat.eqb_spec (hd 0%nat (shape v)) 1); [tauto|]|];
    cbn [andb]; (destruct (Nat.eqb_spec (ndim v) 3); [done|]); done.
Qed.

(** The resampler on spacings of three components without a zero among
    the target's, once the rank is 3. *)
Lemma resample_isotropic_nonzero (w : World) (v : ndarray)
    (sz sy sx nz ny nx : Py.float) (order : Z) :
  ndim v = 3%nat ->
  Py.is_zero nz = false -> Py.is_zero ny = false -> Py.is_zero nx = false ->
  resample_isotropic v [sz; sy; sx] [nz; ny; nx] order w
  = (rbind (ndimage_zoom v
              [Py.quotient sz nz; Py.quotient sy ny; Py.quotient sx nx] order)
           (fun r => Ok (astype_float32 r)),
     log w [EvZoom v
              [Py.quotient sz nz; Py.quotient sy ny; Py.quotient sx nx]
              order]).
Proof.
  intros Hv Hz Hy Hx. rewrite resample_isotropic_3d by exact Hv.
  by rewrite !py_div_nonzero.
Qed.

(** C5. Before anything is resampled the rank is normalised: an input
    (H, W) is resampled as the volume (1, H, W), which is the array the
    interpolation is called on; an input (1, Z, H, W) is resampled as the
    volume (Z, H, W), which is the array the interpolation is called on;
    an input of any other rank (of rank 1 or 5, say) is refused with the
    ValueError "Unexpected volume shape" (the UnsupportedRankError of the
    specification). On an input of an accepted rank, a spacing that has
    not three components is refused with the ValueError of the tuple
    assignment (the SpacingRankMismatchError of the specification). Both
    refusals leave the world as it was: nothing has been interpolated. *)
Theorem resample_isotropic_rank (w : World) (v : ndarray)
    (sp nsp : list Py.float) (order : Z) :
  (forall h wd : nat,
      shape v = [h; wd] ->
      shape (newaxis v) = [1%nat; h; wd]
      /\ resample_isotropic v sp nsp order w
         = resample_isotropic (newaxis v) sp nsp order w
      /\ forall sz sy sx nz ny nx,
           sp = [sz; sy; sx] -> nsp = [nz; ny; nx] ->
           Py.is_zero nz = false -> Py.is_zero ny = false ->
           Py.is_zero nx = false ->
           resample_isotropic v sp nsp order w
           = (rbind (ndimage_zoom (newaxis v)
                       [Py.quotient sz nz; Py.quotient sy ny;
                        Py.quotient sx nx] order)
                    (fun r => Ok (astype_float32 r)),
              log w [EvZoom (newaxis v)
                       [Py.quotient sz nz; Py.quotient sy ny;
                        Py.quotient sx nx] order]))
  /\ (forall n h wd : nat,
        shape v = [1%nat; n; h; wd] ->
        shape (squeeze0 v) = [n; h; wd]
        /\ resample_isotropic v sp nsp order w
           = resample_isotropic (squeeze0 v) sp nsp order w
        /\ forall sz sy sx nz ny nx,
             sp = [sz; sy; sx] -> nsp = [nz; ny; nx] ->
             Py.is_zero nz = false -> Py.is_zero ny = false ->
             Py.is_zero nx = false ->
             resample_isotropic v sp nsp order w
             = (rbind (ndimage_zoom (squeeze0 v)
                         [Py.quotient sz nz; Py.quotient sy ny;
                          Py.quotient sx nx] order)
                      (fun r => Ok (astype_float32 r)),
                log w [EvZoom (squeeze0 v)
                         [Py.quotient sz nz; Py.quotient sy ny;
                          Py.quotient sx nx] order]))
  /\ (ndim v <> 2%nat -> ndim v <> 3%nat ->
      ~ (ndim v = 4%nat /\ hd 0%nat (shape v) = 1%nat) ->
      resample_isotropic v sp nsp order w
      = (Raise (ValueError_unexpected_shape (shape v)), w))
  /\ (ndim v = 2%nat \/ ndim v = 3%nat
      \/ (ndim v = 4%nat /\ hd 0%nat (shape v) = 1%nat) ->
      length sp <> 3%nat ->
      resample_isotropic v sp nsp order w
      = (Raise (ValueError_unpack 3 (length sp)), w)).
Proof.
  split; [|split; [|split]].
  - intros h wd Hv. split; [by simpl; rewrite Hv|].
    assert (Heq : forall sp nsp,
               resample_isotropic v sp nsp order w
               = resample_isotropic (newaxis v) sp nsp order w).
    { intros. unfold resample_isotropic, ndim. simpl. by rewrite Hv. }
    split; [apply Heq|].
    intros sz sy sx nz ny nx -> -> Hz Hy Hx. rewrite Heq.
    apply resample_isotropic_nonzero; [|done..].
    unfold ndim. simpl. by rewrite Hv.
  - intros n h wd Hv. split; [by simpl; rewrite Hv|].
    assert (Heq : forall sp nsp,
               resample_isotropic v sp nsp order w
               = resample_isotropic (squeeze0 v) sp nsp order w).
    { intros. unfold resample_isotropic, ndim. simpl. by rewrite Hv. }
    split; [apply Heq|].
    intros sz sy sx nz ny nx -> -> Hz Hy Hx. rewrite Heq.
    apply resample_isotropic_nonzero; [|done..].
    unfold ndim. simpl. by rewrite Hv.
  - apply rejected_rank.
  - intros Hv Hsp.
    destruct (accepted_rank_cases v Hv) as (v3 & _ & Hv3 & ->).
    unfold resample_isotropic. rewrite Hv3.
    cbv beta iota delta [mbind M_bind bind mret M_ret ret lift raise
                         Nat.eqb andb negb].
    destruct sp as [|a [|b [|c [|e sp]]]]; done.
Qed.

(** What [zoom] returns has the extents of [zoom_output_shape]. *)
Lemma ndimage_zoom_shape (v out : ndarray) (zf : list Py.float) (order : Z) :
  ndimage_zoom v zf order = Ok out ->
  zoom_output_shape (shape v) zf = Ok (map Z.of_nat (shape out))
  /\ dtype out = dtype v.
Proof.
  unfold ndimage_zoom.
  destruct (_ || _); [done|]. destruct (_ <? _)%nat; [done|].
  destruct (negb _); [done|].
  destruct (zoom_output_shape _ _) as [l|e]; [|done]. cbn [rbind].
  destruct (existsb _ l) eqn:E; [done|].
  destruct (zoom_values _ _ _ _) as [values|e]; [|done]. cbn [rbind].
  intros [= <-]. cbn [shape dtype]. split; [|done]. f_equal.
  clear -E. induction l as [|n l IH]; [done|].
  cbn [existsb] in E. apply orb_false_iff in E as [Hn Hl].
  cbn [map]. rewrite Z2Nat.id by (apply Z.ltb_ge in Hn; lia).
  f_equal. by apply IH.
Qed.

Lemma zoom_extent_positive (n : nat) (a b : Q) (e : Z) :
  (0 < a)%Q -> (0 < b)%Q ->
  zoom_extent n (Py.quotient (Py.Fin a) (Py.Fin b)) = Ok e -> (0 <= e)%Z.
Proof.
  intros Ha Hb. unfold zoom_extent.
  assert (Hq : Py.not_negative (Py.quotient (Py.Fin a) (Py.Fin b))).
  { apply quotient_not_negative; apply binary64_nonneg; lra. }
  assert (Hp : Py.not_negative
                 (Py.product (Py.Fin (inject_Z (Z.of_nat n)))
                    (Py.quotient (Py.Fin a) (Py.Fin b)))).
  { apply product_not_negative; [|apply to_float_not_negative, Hq].
    apply binary64_nonneg. change 0%Q with (inject_Z 0).
    rewrite <- Zle_Qle. lia. }
  destruct (Py.product _ _) as [r| |]; [|done..].
  cbn [int_round]. intros [= <-]. by apply round_nonneg.
Qed.

Lemma zoom_output_shape_3d (n h wd : nat) (fz fy fx : Py.float)
    (l : list nat) :
  zoom_output_shape [n; h; wd] [fz; fy; fx] = Ok (map Z.of_nat l) ->
  exists en eh ew,
    l = [en; eh; ew]
    /\ zoom_extent n fz = Ok (Z.of_nat en)
    /\ zoom_extent h fy = Ok (Z.of_nat eh)
    /\ zoom_extent wd fx = Ok (Z.of_nat ew).
Proof.
  cbn [zoom_output_shape].
  destruct (zoom_extent n fz) as [en|]; [|done].
  destruct (zoom_extent h fy) as [eh|]; [|done].
  destruct (zoom_extent wd fx) as [ew|]; [|done].
  cbn [rbind]. intros [= Hl].
  destruct l as [|a [|b [|c [|d l]]]]; try done.
  cbn [map] in Hl. injection Hl as -> -> ->. by exists a, b, c.
Qed.

Lemma ndimage_zoom_returns (v : ndarray) (n h wd en eh ew : nat)
    (fz fy fx : Py.float) (order : Z) (values : list Q) :
  shape v = [n; h; wd] ->
  (0 <= order <= 5)%Z ->
  zoom_extent n fz = Ok (Z.of_nat en) ->
  zoom_extent h fy = Ok (Z.of_nat eh) ->
  zoom_extent wd fx = Ok (Z.of_nat ew) ->
  zoom_values v [fz; fy; fx] order [en; eh; ew] = Ok values ->
  ndimage_zoom v [fz; fy; fx] order
  = Ok {| shape := [en; eh; ew]; dtype := dtype v; data := values |}.
Proof.
  intros Hv Ho Hz Hy Hx Hvals. unfold ndimage_zoom, ndim. rewrite Hv.
  assert ((order <? 0)%Z || (5 <? order)%Z = false) as ->.
  { apply orb_false_iff. split; apply Z.ltb_ge; lia. }
  cbn [length Nat.ltb Nat.leb Nat.eqb negb zoom_output_shape].
  rewrite Hz, Hy, Hx. cbn [rbind existsb].
  assert (forall k : nat, (Z.of_nat k <? 0)%Z = false) as Hk
    by (intros; apply Z.ltb_ge; lia).
  rewrite !Hk. cbn [orb map]. rewrite !Nat2Z.id, Hvals. done.
Qed.

(** C6, as the code has it. On a volume of rank 3 and spacings of three
    components without a zero among the target's, the extent of the
    result along an axis is int(round(extent * (original / target))),
    where the quotient and then the product are rounded to 64-bit floats
    ([zoom_extent]), and the result is a float32 volume: that is what a
    run that returns has returned, and the run returns, with the array of
    these extents that the interpolation has filled, whenever the order
    is one of 0..5, the three extents are not negative and the
    interpolation returns. With strictly positive original and target
    spacings no extent is negative. For spacings (2, 1, 1) and (1, 1, 1)
    a volume (10, 50, 50) becomes (20, 50, 50). *)
Theorem resample_isotropic_extent (w : World) (v : ndarray)
    (n h wd : nat) (sz sy sx nz ny nx : Py.float) (order : Z) :
  shape v = [n; h; wd] ->
  Py.is_zero nz = false -> Py.is_zero ny = false -> Py.is_zero nx = false ->
  let fz := Py.quotient sz nz in
  let fy := Py.quotient sy ny in
  let fx := Py.quotient sx nx in
  let run := resample_isotropic v [sz; sy; sx] [nz; ny; nx] order w in
  (forall out,
      run.1 = Ok out ->
      dtype out = float32
      /\ exists en eh ew,
           shape out = [en; eh; ew]
           /\ zoom_extent n fz = Ok (Z.of_nat en)
           /\ zoom_extent h fy = Ok (Z.of_nat eh)
           /\ zoom_extent wd fx = Ok (Z.of_nat ew))
  /\ (forall en eh ew values,
        (0 <= order <= 5)%Z ->
        zoom_extent n fz = Ok (Z.of_nat en) ->
        zoom_extent h fy = Ok (Z.of_nat eh) ->
        zoom_extent wd fx = Ok (Z.of_nat ew) ->
        zoom_values v [fz; fy; fx] order [en; eh; ew] = Ok values ->
        run.1 = Ok {| shape := [en; eh; ew]; dtype := float32;
                      data := map float32_of values |})
  /\ (forall (k : nat) (s t : Py.float) (a b : Q) (e : Z),
        In (k, s, t) [(n, sz, nz); (h, sy, ny); (wd, sx, nx)] ->
        s = Py.Fin a -> t = Py.Fin b -> (0 < a)%Q -> (0 < b)%Q ->
        zoom_extent k (Py.quotient s t) = Ok e -> (0 <= e)%Z)
  /\ ([n; h; wd] = [10; 50; 50]%nat ->
      [sz; sy; sx] = [Py.Fin 2; Py.Fin 1; Py.Fin 1] ->
      [nz; ny; nx] = [Py.Fin 1; Py.Fin 1; Py.Fin 1] ->
      forall out, run.1 = Ok out -> shape out = [20; 50; 50]%nat).
Proof.
  intros Hv Hz Hy Hx fz fy fx run.
  assert (Hrun : run.1 = rbind (ndimage_zoom v [fz; fy; fx] order)
                           (fun r => Ok (astype_float32 r))).
  { unfold run. rewrite resample_isotropic_nonzero; try done.
    unfold ndim. by rewrite Hv. }
  assert (Hout : forall out,
             run.1 = Ok out ->
             dtype out = float32
             /\ exists en eh ew,
                  shape out = [en; eh; ew]
                  /\ zoom_extent n fz = Ok (Z.of_nat en)
                  /\ zoom_extent h fy = Ok (Z.of_nat eh)
                  /\ zoom_extent wd fx = Ok (Z.of_nat ew)).
  { intros out. rewrite Hrun.
    destruct (ndimage_zoom v [fz; fy; fx] order) as [out0|] eqn:Hzoom;
      [|done].
    cbn [rbind]. intros [= <-]. split; [done|].
    apply ndimage_zoom_shape in Hzoom as [Hshape _]. rewrite Hv in Hshape.
    by apply zoom_output_shape_3d. }
  split; [exact Hout|]. split; [|split].
  - intros en eh ew values Ho Hen Heh Hew Hvals. rewrite Hrun.
    by rewrite (ndimage_zoom_returns v n h wd en eh ew fz fy fx order values).
  - intros k s t a b e _ -> -> Ha Hb. by apply zoom_extent_positive.
  - intros Hs Ho Ht out Hr.
    destruct (Hout out Hr) as (_ & en & eh & ew & -> & Hen & Heh & Hew).
    revert Hen Heh Hew. unfold fz, fy, fx.
    injection Hs as -> -> ->. injection Ho as -> -> ->.
    injection Ht as -> -> ->.
    assert (zoom_extent 10 (Py.quotient (Py.Fin 2) (Py.Fin 1)) = Ok 20%Z)
      as -> by (vm_compute; reflexivity).
    assert (zoom_extent 50 (Py.quotient (Py.Fin 1) (Py.Fin 1)) = Ok 50%Z)
      as -> by (vm_compute; reflexivity).
    intros [= Hen] [= Heh] [= Hew].
    f_equal; [lia|f_equal; [lia|f_equal; lia]].
Qed.

(** C1, as the code has it. The resampler does not look at the sign of a
    spacing. On a volume of rank 3 and spacings of three components: when
    a target component is zero the division raises ZeroDivisionError and
    nothing is interpolated; in every other case, whatever the signs, the
    interpolation routine is called once with the factors original /
    target, and the resampler returns its result cast to float32, or
    its failure. *)
Theorem resample_isotropic_no_spacing_check (w : World) (v : ndarray)
    (sz sy sx nz ny nx : Py.float) (order : Z) :
  ndim v = 3%nat ->
  ((Py.is_zero nz = true \/ Py.is_zero ny = true \/ Py.is_zero nx = true) ->
   resample_isotropic v [sz; sy; sx] [nz; ny; nx] order w
   = (Raise ZeroDivisionError, w))
  /\ (Py.is_zero nz = false -> Py.is_zero ny = false ->
      Py.is_zero nx = false ->
      resample_isotropic v [sz; sy; sx] [nz; ny; nx] order w
      = (rbind (ndimage_zoom v
                  [Py.quotient sz nz; Py.quotient sy ny; Py.quotient sx nx]
                  order)
               (fun r => Ok (astype_float32 r)),
         log w [EvZoom v
                  [Py.quotient sz nz; Py.quotient sy ny; Py.quotient sx nx]
                  order])).
Proof.
  intros Hv. split.
  - rewrite resample_isotropic_3d by exact Hv.
    intros [Hz|[Hz|Hz]]; rewrite (py_div_zero _ _ Hz);
      repeat (destruct (py_div _ _)); done.
  - intros Hz Hy Hx. by apply resample_isotropic_nonzero.
Qed.
End Resampler.


(** ** The path of a series in the cache *)

Lemma string_length_app (a b : string) :
  String.length (a +:+ b) = (String.length a + String.length b)%nat.
Proof. induction a as [|c a IH]; simpl; [done|]. by rewrite IH. Qed.

Lemma after_last_slash_no_slash (pre l : list ascii) :
  forallb (fun c => negb (Py.is_slash c)) pre = true ->
  forallb (fun c => negb (Py.is_slash c)) (Py.after_last_slash (pre ++ l) l)
  = true.
Proof.
  revert pre. induction l as [|c l IH]; intros pre Hpre; simpl.
  - by rewrite app_nil_r.
  - destruct (Py.is_slash c) eqn:Ec.
    + apply (IH []). done.
    + replace (pre ++ c :: l) with ((pre ++ [c]) ++ l)
        by (by rewrite <- app_assoc).
      apply IH. rewrite forallb_app, Hpre. simpl. by rewrite Ec.
Qed.

Lemma cache_file_name_relative (series_dir : string) :
  String.prefix "/" (series_id_of series_dir +:+ ".npy") = false.
Proof.
  unfold series_id_of, Py.basename.
  pose proof (after_last_slash_no_slash []
                (Py.chars (Py.rstrip_slash series_dir)) eq_refl) as Hns.
  simpl in Hns.
  destruct (Py.after_last_slash _ _) as [|c l]; [done|].
  simpl in Hns. apply andb_true_iff in Hns as [Hc _].
  unfold Py.str. cbn [string_of_list_ascii].
  change (match ascii_dec "/" c with
          | left _ => String.prefix "" (string_of_list_ascii l +:+ ".npy")
          | right _ => false
          end = false).
  destruct (ascii_dec "/" c) as [<-|]; [|done].
  by vm_compute in Hc.
Qed.

Lemma get_cache_path_longer (series_dir cache_dir : string) :
  (String.length cache_dir
   < String.length (get_cache_path (series_id_of series_dir) cache_dir))%nat.
Proof.
  unfold get_cache_path, Py.path_join.
  rewrite cache_file_name_relative.
  destruct (_ || _); rewrite !string_length_app; simpl; lia.
Qed.

Lemma get_cache_path_not_cache_dir (series_dir cache_dir : string) :
  get_cache_path (series_id_of series_dir) cache_dir <> cache_dir.
Proof.
  intros Heq. pose proof (get_cache_path_longer series_dir cache_dir) as Hl.
  rewrite Heq in Hl. lia.
Qed.

Lemma length_str (l : list ascii) : String.length (Py.str l) = length l.
Proof. induction l as [|c l IH]; simpl; [done|]. by rewrite IH. Qed.

Lemma length_chars (s : string) : length (Py.chars s) = String.length s.
Proof. induction s as [|c s IH]; simpl; [done|]. by rewrite IH. Qed.

Lemma drop_while_length (p : ascii -> bool) (l : list ascii) :
  (length (Py.drop_while p l) <= length l)%nat.
Proof. induction l as [|c l IH]; simpl; [done|]. destruct (p c); simpl; lia. Qed.

Lemma rstrip_chars_length (p : ascii -> bool) (l : list ascii) :
  (length (Py.rstrip_chars p l) <= length l)%nat.
Proof.
  unfold Py.rstrip_chars. rewrite length_rev.
  pose proof (drop_while_length p (rev l)) as Hl.
  by rewrite length_rev in Hl.
Qed.

Lemma rstrip_slash_length (s : string) :
  (String.length (Py.rstrip_slash s) <= String.length s)%nat.
Proof.
  unfold Py.rstrip_slash. rewrite length_str, <- length_chars.
  apply rstrip_chars_length.
Qed.

Lemma split_head_length (p : string) :
  (String.length (Py.split p).1 <= String.length p)%nat.
Proof.
  unfold Py.split. cbn [fst]. rewrite length_str, <- length_chars.
  set (head := firstn _ _).
  assert (Hh : (length head <= length (Py.chars p))%nat)
    by (unfold head; rewrite length_firstn; lia).
  destruct (forallb _ _); [done|].
  pose proof (rstrip_chars_length Py.is_slash head). lia.
Qed.

Lemma dirs_above_length (fuel : nat) :
  forall key p,
    In p (dirs_above fuel key) ->
    (String.length p <= String.length key)%nat.
Proof.
  induction fuel as [|fuel IH]; intros key p; cbn [dirs_above]; [done|].
  cbn zeta. destruct (always_there _); [done|].
  pose proof (split_head_length key) as Hh.
  intros [<-|Hin]; [done|]. apply IH in Hin. lia.
Qed.

Lemma makedirs_paths_length (path p : string) :
  In p (makedirs_paths path) ->
  (String.length p <= String.length path)%nat.
Proof.
  unfold makedirs_paths. pose proof (rstrip_slash_length path) as Hk.
  intros [<-|Hin]; [done|]. apply dirs_above_length in Hin. lia.
Qed.

(** The cache file of a series is none of the directories that are made
    for the cache directory. *)
Lemma get_cache_path_not_made (series_dir cache_dir : string) :
  ~ In (get_cache_path (series_id_of series_dir) cache_dir)
       (makedirs_paths cache_dir).
Proof.
  intros Hin%makedirs_paths_length.
  pose proof (get_cache_path_longer series_dir cache_dir). lia.
Qed.

(** ** The file system *)

Lemma kept_refl (n : option Node) : kept n n.
Proof.
  destruct n as [[names| | |]|]; try done. by exists names.
Qed.

Lemma kept_trans (a b c : option Node) : kept a b -> kept b c -> kept a c.
Proof.
  destruct a as [[names| | |]|]; cbn [kept]; try (by intros ->).
  intros (names1 & -> & H1) (names2 & -> & H2). exists names2.
  split; [done|]. intros n Hn. by apply H2, H1.
Qed.

Lemma kept_is_Some (a b : option Node) : kept a b -> is_Some a -> is_Some b.
Proof.
  destruct a as [[names| | |]|]; cbn [kept]; try (by intros ->).
  by intros (names' & -> & _).
Qed.

Lemma changes_within_refl (dirs saved : list string) (fs : gmap string Node) :
  changes_within dirs saved fs fs.
Proof. intros p. left. apply kept_refl. Qed.

Lemma changes_within_trans (dirs saved : list string)
    (fs1 fs2 fs3 : gmap string Node) :
  changes_within dirs saved fs1 fs2 -> changes_within dirs saved fs2 fs3 ->
  changes_within dirs saved fs1 fs3.
Proof.
  intros H12 H23 p.
  destruct (H12 p) as [Hk|[(Hn & Hin & names & Hd)|(Hn & Hin & a & Hf)]].
  - destruct (H23 p) as [Hk'|[(Hn' & Hin' & Hd')|(Hn' & Hin' & Hf')]].
    + left. by apply (kept_trans _ (fs2 !! p)).
    + right; left. split; [|done].
      destruct (fs1 !! p) as [n|] eqn:E; [|done].
      assert (is_Some (fs2 !! p)) as [? Hs]
        by (apply (kept_is_Some (Some n)); [done|by eexists]).
      congruence.
    + right; right. split; [|done].
      destruct (fs1 !! p) as [n|] eqn:E; [|done].
      assert (is_Some (fs2 !! p)) as [? Hs]
        by (apply (kept_is_Some (Some n)); [done|by eexists]).
      congruence.
  - destruct (H23 p) as [Hk'|[(Hn' & _)|(Hn' & _)]]; [|congruence..].
    right; left. split; [done|]. split; [done|].
    rewrite Hd in Hk'. destruct Hk' as (names' & -> & _). by eexists.
  - destruct (H23 p) as [Hk'|[(Hn' & _)|(Hn' & _)]]; [|congruence..].
    right; right. split; [done|]. split; [done|].
    rewrite Hf in Hk'. cbn [kept] in Hk'. rewrite Hk'. by eexists.
Qed.

Lemma changes_within_mono (dirs dirs' saved saved' : list string)
    (fs fs' : gmap string Node) :
  (forall p, In p dirs -> In p dirs') ->
  (forall p, In p saved -> In p saved') ->
  changes_within dirs saved fs fs' -> changes_within dirs' saved' fs fs'.
Proof.
  intros Hd Hs Hch p. destruct (Hch p) as [Hk|[(Hn & Hin & Hx)|(Hn & Hin & Hx)]];
    [by left|right; left|right; right]; split; auto.
Qed.

(** A new entry: the path holds it, the directory it is in has its name,
    and every other path is as it was. *)
Lemma add_entry_spec (path : string) (node : Node) (fs fs' : gmap string Node) :
  fs !! path = None ->
  add_entry path node fs = Ok fs' ->
  fs' !! path = Some node
  /\ forall p, p <> path -> kept (fs !! p) (fs' !! p).
Proof.
  intros Hnone. unfold add_entry. destruct (Py.split path) as [head tail].
  assert (Hplain : forall p, p <> path ->
             kept (fs !! p) (<[path := node]> fs !! p)).
  { intros p Hp. rewrite lookup_insert_ne by done. apply kept_refl. }
  destruct (fs !! head) as [[names| | |]|] eqn:Eh;
    try (destruct (always_there head); [|done]);
    intros [= <-]; try (split; [by rewrite lookup_insert_eq|exact Hplain]).
  split; [by rewrite lookup_insert_eq|].
  intros p Hp. rewrite lookup_insert_ne by done.
  destruct (decide (p = head)) as [->|Hne].
  - rewrite lookup_insert_eq, Eh. exists (names ++ [tail]).
    split; [done|]. intros n Hn. apply in_or_app. by left.
  - rewrite lookup_insert_ne by done. apply kept_refl.
Qed.

Lemma mkdir_exist_ok_spec (dirs : list string) (key : string)
    (fs fs' : gmap string Node) :
  mkdir_exist_ok key fs = Ok fs' ->
  (exists names, fs' !! key = Some (Dir names))
  /\ changes_within (key :: dirs) [] fs fs'.
Proof.
  unfold mkdir_exist_ok. destruct (fs !! key) as [[names| | |]|] eqn:Ek;
    try done.
  - intros [= <-]. split; [by eexists|]. apply changes_within_refl.
  - intros Hadd. destruct (add_entry_spec _ _ _ _ Ek Hadd) as [Hk Hother].
    split; [by eexists|].
    intros p. destruct (decide (p = key)) as [->|Hp].
    + right; left. split; [done|]. split; [by left|by eexists].
    + left. by apply Hother.
Qed.

Lemma make_missing_spec (fuel : nat) :
  forall (key : string) (fs fs' : gmap string Node),
    make_missing fuel key fs = Ok fs' ->
    (fs !! key = None -> exists names, fs' !! key = Some (Dir names))
    /\ changes_within (key :: dirs_above fuel key) [] fs fs'.
Proof.
  induction fuel as [|fuel IH]; intros key fs fs'; cbn [make_missing dirs_above].
  - destruct (fs !! key) as [n|] eqn:Ek.
    + intros [= <-]. split; [done|]. apply changes_within_refl.
    + intros Hmk. destruct (mkdir_exist_ok_spec [] _ _ _ Hmk). by split.
  - destruct (fs !! key) as [n|] eqn:Ek.
    + intros [= <-]. split; [done|]. apply changes_within_refl.
    + cbn zeta. destruct (always_there (Py.split key).1).
      { cbn [rbind]. intros Hmk.
        destruct (mkdir_exist_ok_spec [] _ _ _ Hmk). by split. }
      destruct (make_missing fuel (Py.split key).1 fs) as [fs1|] eqn:E1;
        [|done].
      cbn [rbind]. intros Hmk.
      destruct (IH _ _ _ E1) as (_ & Hch1).
      destruct (mkdir_exist_ok_spec
                  ((Py.split key).1 :: dirs_above fuel (Py.split key).1)
                  _ _ _ Hmk) as [Hd Hch2].
      split; [done|].
      apply (changes_within_trans _ _ fs fs1 fs'); [|done].
      eapply changes_within_mono; [| |exact Hch1]; [|done].
      intros p Hin. by right.
Qed.

(** What follows the last slash of a path, and what comes before it. *)
Lemma after_last_slash_cases (l : list ascii) :
  forall acc,
    (Py.after_last_slash acc l = acc)
    \/ exists pre, l = pre ++ "/"%char :: Py.after_last_slash acc l.
Proof.
  induction l as [|c l IH]; intros acc; cbn [Py.after_last_slash]; [by left|].
  destruct (Py.is_slash c) eqn:Ec.
  - right. apply Ascii.eqb_eq in Ec as ->.
    destruct (IH l) as [->|[pre Hpre]]; [by exists []|].
    exists ("/"%char :: pre). cbn [app]. by rewrite <- Hpre.
  - destruct (IH acc) as [->|[pre Hpre]]; [by left|].
    right. exists (c :: pre). cbn [app]. by rewrite <- Hpre.
Qed.

(** The directory above a path has a shorter name, unless it is one of
    those that are always there. *)
Lemma split_head_shorter (key : string) :
  always_there (Py.split key).1 = false ->
  (String.length (Py.split key).1 < String.length key)%nat.
Proof.
  unfold Py.split. cbn [fst]. rewrite <- (length_chars key).
  destruct (after_last_slash_cases (Py.chars key) (Py.chars key))
    as [->|[pre Hpre]].
  { rewrite Nat.sub_diag, firstn_O. by cbn. }
  set (tail := Py.after_last_slash _ _) in *.
  assert (Hlen : length (Py.chars key) = (length pre + 1 + length tail)%nat).
  { rewrite Hpre at 1. rewrite length_app. cbn [length]. lia. }
  assert (Hhead : firstn (length (Py.chars key) - length tail) (Py.chars key)
                  = pre ++ ["/"%char]).
  { rewrite Hpre at 2.
    replace (length (Py.chars key) - length tail)%nat
      with (length (pre ++ ["/"%char]) + 0)%nat
      by (rewrite length_app; cbn [length]; lia).
    replace (pre ++ "/"%char :: tail) with ((pre ++ ["/"%char]) ++ tail)
      by (by rewrite <- app_assoc).
    by rewrite firstn_app_2, firstn_O, app_nil_r. }
  rewrite Hhead.
  destruct (forallb Py.is_slash (pre ++ ["/"%char])) eqn:Eall.
  - intros Hno. exfalso. revert Hno. unfold always_there, is_root, Py.chars, Py.str.
    rewrite list_ascii_of_string_of_list_ascii, Eall.
    destruct pre; cbn; by rewrite ?orb_true_r.
  - intros _. rewrite length_str. unfold Py.rstrip_chars.
    rewrite rev_app_distr. cbn [rev app Py.drop_while].
    change (Py.is_slash "/"%char) with true. cbv iota.
    rewrite length_rev.
    pose proof (drop_while_length Py.is_slash (rev pre)) as Hd.
    rewrite length_rev in Hd. lia.
Qed.

(** The fuel that [os.makedirs] is given is enough: more of it changes
    nothing. *)
Lemma make_missing_fuel (fuel : nat) :
  forall (key : string) (fs : gmap string Node),
    (String.length key <= fuel)%nat ->
    make_missing (S fuel) key fs = make_missing fuel key fs.
Proof.
  induction fuel as [|fuel IH]; intros key fs Hlen.
  - destruct key; [|cbn in Hlen; lia].
    cbn [make_missing]. by destruct (fs !! ""%string).
  - change (make_missing (S (S fuel)) key fs)
      with (match fs !! key with
            | Some _ => Ok fs
            | None =>
                rbind (if always_there (Py.split key).1 then Ok fs
                       else make_missing (S fuel) (Py.split key).1 fs)
                      (mkdir_exist_ok key)
            end).
    change (make_missing (S fuel) key fs)
      with (match fs !! key with
            | Some _ => Ok fs
            | None =>
                rbind (if always_there (Py.split key).1 then Ok fs
                       else make_missing fuel (Py.split key).1 fs)
                      (mkdir_exist_ok key)
            end).
    destruct (fs !! key); [done|].
    destruct (always_there (Py.split key).1) eqn:Ea; [done|].
    rewrite IH; [done|].
    pose proof (split_head_shorter key Ea). lia.
Qed.

(** What [os.makedirs] leaves: every entry kept, and new directories only
    at the path and above it. Afterwards the call finds the directory
    there. *)
Lemma makedirs_files_spec (path : string) (fs fs' : gmap string Node) :
  makedirs_files path fs = Ok fs' ->
  changes_within (makedirs_paths path) [] fs fs'
  /\ makedirs_files path fs' = Ok fs'.
Proof.
  unfold makedirs_files, makedirs_paths.
  destruct (fs !! path) as [[names| | |]|] eqn:Ep; try done.
  { intros [= <-]. split; [apply changes_within_refl|]. by rewrite Ep. }
  destruct (String.eqb path ""); [done|]. cbn zeta.
  destruct (always_there (Py.rstrip_slash path)) eqn:Ea.
  { intros [= <-]. split; [apply changes_within_refl|]. by rewrite Ep. }
  destruct (fs !! Py.rstrip_slash path) as [[names| | |]|] eqn:Ek; try done.
  { intros [= <-]. split; [apply changes_within_refl|]. by rewrite Ep, Ek. }
  intros Hmk. destruct (make_missing_spec _ _ _ _ Hmk) as [Hd Hch].
  split; [done|].
  destruct (Hd Ek) as [names Hk].
  destruct (Hch path) as [Hkept|[(_ & _ & names' & Hp)|(_ & [] & _)]].
  - rewrite Ep in Hkept. cbn [kept] in Hkept. by rewrite Hkept, Hk.
  - by rewrite Hp.
Qed.


(** What [np.save] leaves: the array at the path, every other entry
    kept. *)
Lemma np_save_files_spec (path : string) (a : ndarray)
    (fs fs' : gmap string Node) :
  np_save_files path a fs = Ok fs' ->
  fs' !! path = Some (NpyFile a)
  /\ forall p, p <> path -> kept (fs !! p) (fs' !! p).
Proof.
  unfold np_save_files. destruct (fs !! path) as [[names| | |]|] eqn:Ep;
    try done; try (by apply add_entry_spec);
    intros [= <-]; (split; [by rewrite lookup_insert_eq|]);
    intros p Hp; rewrite lookup_insert_ne by done; apply kept_refl.
Qed.

Lemma np_save_files_new (path : string) (a : ndarray)
    (fs fs' : gmap string Node) :
  fs !! path = None ->
  np_save_files path a fs = Ok fs' ->
  changes_within [] [path] fs fs'.
Proof.
  intros Hnone Hsave. destruct (np_save_files_spec _ _ _ _ Hsave) as [Hp Ho].
  intros p. destruct (decide (p = path)) as [->|Hne].
  - right; right. split; [done|]. split; [by left|by eexists].
  - left. by apply Ho.
Qed.

(** Where [os.makedirs] finds its directory there, it finds it there
    after an array has been saved at another path. *)
Lemma makedirs_files_after_save (path file : string) (a : ndarray)
    (fs fs' : gmap string Node) :
  makedirs_files path fs = Ok fs ->
  np_save_files file a fs = Ok fs' ->
  file <> path -> file <> Py.rstrip_slash path ->
  makedirs_files path fs' = Ok fs'.
Proof.
  intros Hready Hsave Hp Hk.
  destruct (np_save_files_spec _ _ _ _ Hsave) as [_ Ho].
  pose proof (Ho path (not_eq_sym Hp)) as Hkp.
  pose proof (Ho (Py.rstrip_slash path) (not_eq_sym Hk)) as Hkk.
  revert Hready. unfold makedirs_files.
  destruct (fs !! path) as [[names| | |]|] eqn:Ep; try done.
  { destruct Hkp as (names' & -> & _). done. }
  cbn [kept] in Hkp. rewrite Hkp.
  destruct (String.eqb path ""); [done|]. cbn zeta.
  destruct (always_there (Py.rstrip_slash path)); [done|].
  destruct (fs !! Py.rstrip_slash path) as [[names| | |]|] eqn:Ek; try done.
  { destruct Hkk as (names' & -> & _). done. }
  intros Hmk. destruct (make_missing_spec _ _ _ _ Hmk) as [Hd _].
  destruct (Hd Ek) as [names Hn]. congruence.
Qed.

Lemma makedirs_files_dir (path : string) (names : list string)
    (fs : gmap string Node) :
  fs !! path = Some (Dir names) -> makedirs_files path fs = Ok fs.
Proof. intros Hp. unfold makedirs_files. by rewrite Hp. Qed.

(** [os.makedirs] where it finds its directory there. *)
Lemma makedirs_there (path : string) (w : World) :
  makedirs_files path (files w) = Ok (files w) ->
  makedirs path w = (Ok tt, log w [EvMakedirs path]).
Proof.
  intros Hmk. unfold makedirs. rewrite bind_run, emit_run. unfold io.
  cbn [log files events]. by rewrite Hmk.
Qed.

(** ** The pipeline *)

Section Pipeline.
Context `{Externals}.

Lemma new_events_log (w w' : World) (evs : list Event) :
  events w' = events w ++ evs -> new_events w w' = evs.
Proof.
  intros Hev. unfold new_events. rewrite Hev. apply drop_app_length.
Qed.

Lemma numeric_events_app (e1 e2 : list Event) :
  numeric_events (e1 ++ e2) = numeric_events e1 ++ numeric_events e2.
Proof. apply List.filter_app. Qed.

(** What each step logs. *)
Lemma read_instances_log (fps : list string) :
  forall w, exists evs,
    events (read_instances fps w).2 = events w ++ evs
    /\ numeric_events evs = [].
Proof.
  induction fps as [|fp fps IH]; intros w.
  - exists []. simpl. by rewrite app_nil_r.
  - cbn [read_instances]. rewrite bind_run.
    unfold dcmread at 1. rewrite bind_run, emit_run. unfold io.
    destruct (files (log w [EvDcmread fp]) !! fp) as [[?|ds|?|]|];
      try (exists [EvDcmread fp]; by split).
    rewrite bind_run. unfold lift at 1.
    destruct (position_key ds); [|exists [EvDcmread fp]; by split].
    rewrite bind_run.
    destruct (IH (log w [EvDcmread fp])) as (evs & Hevs & Hnum).
    destruct (read_instances fps (log w [EvDcmread fp])) as [[insts|e] w'];
      exists (EvDcmread fp :: evs); simpl in *; rewrite Hevs;
      (split; [by rewrite <- app_assoc|done]).
Qed.

Lemma load_dicom_series_log (d : string) (w : World) :
  exists evs,
    events (load_dicom_series d w).2 = events w ++ evs
    /\ numeric_events evs = [].
Proof.
  unfold load_dicom_series. rewrite bind_run.
  unfold listdir at 1. rewrite bind_run, emit_run. unfold io.
  destruct (files (log w [EvListdir d]) !! d) as [[names| | |]|];
    try (exists [EvListdir d]; by split).
  destruct (length _ =? 0)%nat; [exists [EvListdir d]; by split|].
  rewrite bind_run.
  destruct (read_instances_log
              (map (Py.path_join d) (List.filter is_dicom_name names))
              (log w [EvListdir d])) as (evs & Hevs & Hnum).
  destruct (read_instances _ _) as [[insts|e] w'];
    exists (EvListdir d :: evs); simpl in *; rewrite Hevs;
    (split; [by rewrite <- app_assoc|done]).
Qed.

Lemma normalize_volume_run (v : ndarray) (m : string) (w : World) :
  exists r, normalize_volume v m w = (r, log w [EvNormalize v m]).
Proof.
  unfold normalize_volume. rewrite bind_run, emit_run.
  repeat case_bool_decide; unfold lift; eauto.
Qed.

Lemma resample_isotropic_log (v : ndarray) (sp nsp : list Py.float) (o : Z)
    (w : World) :
  (exists e, resample_isotropic v sp nsp o w = (Raise e, w))
  \/ (exists v3 zf,
        rank_adjusted v v3
        /\ resample_isotropic v sp nsp o w
           = (rbind (ndimage_zoom v3 zf o) (fun r => Ok (astype_float32 r)),
              log w [EvZoom v3 zf o])).
Proof.
  assert (H3d : forall v3, ndim v3 = 3%nat ->
            (exists e, resample_isotropic v3 sp nsp o w = (Raise e, w))
            \/ (exists zf,
                  resample_isotropic v3 sp nsp o w
                  = (rbind (ndimage_zoom v3 zf o)
                           (fun r => Ok (astype_float32 r)),
                     log w [EvZoom v3 zf o]))).
  { intros v3 Hv3.
    destruct sp as [|sz [|sy [|sx [|? ?]]]];
      try (left; eexists; unfold resample_isotropic; rewrite Hv3;
           reflexivity).
    destruct nsp as [|nz [|ny [|nx [|? ?]]]];
      try (left; eexists; unfold resample_isotropic; rewrite Hv3;
           reflexivity).
    rewrite resample_isotropic_3d by exact Hv3.
    destruct (py_div sz nz); [|left; by eexists].
    destruct (py_div sy ny); [|left; by eexists].
    destruct (py_div sx nx); [|left; by eexists].
    right. by eexists. }
  destruct (decide (ndim v = 2%nat \/ ndim v = 3%nat
                    \/ (ndim v = 4%nat /\ hd 0%nat (shape v) = 1%nat)))
    as [Hacc|Hrej].
  - destruct (accepted_rank_cases v Hacc) as (v3 & Hadj & Hv3 & Heq).
    rewrite Heq. destruct (H3d v3 Hv3) as [?|(zf & Hzf)]; [by left|].
    right. by exists v3, zf.
  - left. eexists. apply rejected_rank; tauto.
Qed.

Lemma normalize_volume_result (v : ndarray) (m : string) (w w' : World) :
  (normalize_volume v m w).1 = (normalize_volume v m w').1.
Proof.
  unfold normalize_volume. rewrite !bind_run, !emit_run.
  repeat case_bool_decide; done.
Qed.

Lemma ensure_dir_cases (cdir : string) (w : World) :
  (exists e, ensure_dir cdir w = (Raise e, log w [EvMakedirs cdir]))
  \/ (exists w1,
        ensure_dir cdir w = (Ok tt, w1)
        /\ events w1 = events w ++ [EvMakedirs cdir]
        /\ makedirs_files cdir (files w) = Ok (files w1)).
Proof.
  unfold ensure_dir, makedirs. rewrite bind_run, emit_run. unfold io.
  cbn [log files events]. destruct (makedirs_files cdir (files w)) as [fs|e].
  - right. eexists. split; [reflexivity|]. by split.
  - left. by eexists.
Qed.

(** [os.makedirs] on the cache directory makes no cache file. *)
Lemma makedirs_files_misses (fs fs' : gmap string Node) (d cdir : string) :
  makedirs_files cdir fs = Ok fs' ->
  fs !! get_cache_path (series_id_of d) cdir = None ->
  fs' !! get_cache_path (series_id_of d) cdir = None.
Proof.
  intros [Hch _]%makedirs_files_spec Hnone.
  destruct (Hch (get_cache_path (series_id_of d) cdir))
    as [Hk|[(_ & Hin & _)|(_ & [] & _)]].
  - rewrite Hnone in Hk. exact Hk.
  - by apply get_cache_path_not_made in Hin.
Qed.

Lemma cold_run_misses (w w1 : World) (d cdir : string) (uc : bool) :
  uc = false \/ files w !! get_cache_path (series_id_of d) cdir = None ->
  makedirs_files cdir (files w) = Ok (files w1) ->
  (if uc then path_exists (get_cache_path (series_id_of d) cdir)
   else mret false : M bool) w1 = (Ok false, w1).
Proof.
  intros [->|Hmiss] Hfiles; [done|].
  destruct uc; [|done]. unfold path_exists.
  by rewrite (makedirs_files_misses _ _ _ _ Hfiles Hmiss).
Qed.

(** C9, as the code has it. With [use_cache] true, a series directory
    that exists and a cache file for the series in the cache directory,
    the pipeline returns the array of the cache file and a metadata dict
    whose only key is SeriesInstanceUID, bound to the base name of the
    series directory: no Modality, no spacing, no slice locations, no
    instance identifiers. It lists no directory, reads no slice,
    normalises nothing and resamples nothing: its only calls are
    [makedirs] on the cache directory and the load of the cache file. *)
Theorem preprocess_series_cache_hit (w : World) (d : string)
    (nsp : list Py.float) (cdir : string) (names : list string) (a : ndarray) :
  is_Some (files w !! d) ->
  files w !! cdir = Some (Dir names) ->
  files w !! get_cache_path (series_id_of d) cdir = Some (NpyFile a) ->
  let run := preprocess_series d nsp cdir true w in
  run.1 = Ok {| volume := a;
                metadata := {[ "SeriesInstanceUID" :=
                                 PyStr (Py.basename (Py.rstrip_slash d)) ]} |}
  /\ files run.2 = files w
  /\ new_events w run.2
     = [EvMakedirs cdir; EvNpLoad (get_cache_path (series_id_of d) cdir)]
  /\ forall p, run.1 = Ok p ->
       forall key, key <> "SeriesInstanceUID" -> metadata p !! key = None.
Proof.
  intros Hd Hc Hf run.
  assert (Hrun : run
    = (Ok {| volume := a;
             metadata := {[ "SeriesInstanceUID" :=
                              PyStr (Py.basename (Py.rstrip_slash d)) ]} |},
       log w [EvMakedirs cdir;
              EvNpLoad (get_cache_path (series_id_of d) cdir)])).
  { unfold run, preprocess_series. rewrite bind_run. unfold path_exists at 1.
    rewrite (bool_decide_eq_true_2 _ Hd). cbn [negb].
    rewrite bind_run. unfold ensure_dir.
    rewrite (makedirs_there _ _ (makedirs_files_dir _ _ _ Hc)).
    rewrite bind_run. unfold path_exists.
    fold (series_id_of d). fold (get_cache_path (series_id_of d) cdir).
    cbn [log files]. rewrite Hf.
    rewrite (bool_decide_eq_true_2 _ (mk_is_Some _ _ eq_refl)).
    rewrite bind_run. unfold np_load. rewrite bind_run, emit_run.
    unfold io. cbn [log files]. rewrite Hf.
    cbn [mret M_ret ret]. by rewrite log_app. }
  rewrite Hrun. cbn [fst snd log files].
  split; [done|]. split; [done|]. split.
  { by apply new_events_log. }
  intros p [= <-] key Hkey. cbn [metadata].
  by apply lookup_singleton_ne.
Qed.

(** C8. On every run that does not take the volume from the cache
    ([use_cache] false, or no file for the series in the cache), whatever
    its outcome, the calls that compute on a volume are, in this order: none
    (the run failed before); or one normalisation, of the raw volume the
    loader returned, under the modality of its metadata; or that
    normalisation followed by one interpolation, of the normalised volume
    (with its rank adjusted). The interpolation never comes first and
    never takes the raw volume; a run that returns a volume returns the
    interpolation of the normalised volume, cast to float32. *)
Theorem preprocess_series_normalizes_before_resampling
    (w : World) (d : string) (nsp : list Py.float) (cdir : string)
    (uc : bool) :
  uc = false \/ files w !! get_cache_path (series_id_of d) cdir = None ->
  let run := preprocess_series d nsp cdir uc w in
  let evs := numeric_events (new_events w run.2) in
  (evs = [] /\ is_ok run.1 = false)
  \/ exists raw meta modality,
       (load_dicom_series d (ensure_dir cdir w).2).1 = Ok (raw, meta)
       /\ meta !! "Modality" = Some (PyStr modality)
       /\ ((evs = [EvNormalize raw modality] /\ is_ok run.1 = false)
           \/ exists normed v3 zf,
                (forall w0, (normalize_volume raw modality w0).1 = Ok normed)
                /\ rank_adjusted normed v3
                /\ evs = [EvNormalize raw modality;
                          EvZoom v3 zf default_order]
                /\ forall p, run.1 = Ok p ->
                     exists resampled,
                       ndimage_zoom v3 zf default_order = Ok resampled
                       /\ volume p
                          = astype_float32 (astype_float32 resampled)).
Proof.
  intros Hcold run evs. subst evs.
  destruct run as [r wf] eqn:Hrun. subst run. cbn [fst snd].
  unfold preprocess_series in Hrun. rewrite bind_run in Hrun.
  unfold path_exists at 1 in Hrun.
  destruct (bool_decide (is_Some (files w !! d))); cbn [negb] in Hrun.
  2:{ left. injection Hrun as <- <-.
      rewrite (new_events_log w w []) by (by rewrite app_nil_r). done. }
  rewrite bind_run in Hrun.
  destruct (ensure_dir_cases cdir w) as [(e & He)|(w1 & He & Hev1 & Hf1)];
    rewrite He in *.
  { left. injection Hrun as <- <-.
    by rewrite (new_events_log w _ [EvMakedirs cdir]). }
  rewrite bind_run in Hrun.
  fold (series_id_of d) in Hrun.
  fold (get_cache_path (series_id_of d) cdir) in Hrun.
  rewrite (cold_run_misses w w1 d cdir uc Hcold Hf1) in Hrun.
  rewrite bind_run in Hrun. cbn [snd].
  destruct (load_dicom_series_log d w1) as (evsL & HevL & HnumL).
  destruct (load_dicom_series d w1) as [[[raw meta]|e] w2] eqn:Hload;
    cbn [snd] in HevL.
  2:{ left. injection Hrun as <- <-.
      rewrite (new_events_log w w2 (EvMakedirs cdir :: evsL))
        by (by rewrite HevL, Hev1, <- app_assoc).
      unfold numeric_events in *. cbn [List.filter is_numeric]. done. }
  assert (Hev2 : events w2 = events w ++ EvMakedirs cdir :: evsL)
    by (by rewrite HevL, Hev1, <- app_assoc).
  assert (Hnum2 : numeric_events (EvMakedirs cdir :: evsL) = [])
    by (unfold numeric_events in *; by cbn [List.filter is_numeric]).
  clear HevL Hev1 HnumL He Hf1 Hcold.
  rewrite bind_run in Hrun. unfold lift at 1, dict_get at 1 in Hrun.
  destruct (meta !! "Modality") as [mv|] eqn:Hmod; cbn [rbind] in Hrun.
  2:{ left. injection Hrun as <- <-.
      by rewrite (new_events_log w w2 _ Hev2). }
  destruct mv as [|modality| | | |]; cbn [as_str] in Hrun;
    try (left; injection Hrun as <- <-;
         by rewrite (new_events_log w w2 _ Hev2)).
  right. exists raw, meta, modality. split; [done|]. split; [done|].
  rewrite bind_run in Hrun.
  destruct (normalize_volume_run raw modality w2) as (rn & Hn).
  rewrite Hn in Hrun.
  assert (Hev3 : events (log w2 [EvNormalize raw modality])
                 = events w ++ (EvMakedirs cdir :: evsL)
                              ++ [EvNormalize raw modality])
    by (cbn [log events]; by rewrite Hev2, <- app_assoc).
  destruct rn as [normed|e].
  2:{ left. injection Hrun as <- <-.
      rewrite (new_events_log w _ _ Hev3), numeric_events_app, Hnum2.
      done. }
  set (w3 := log w2 [EvNormalize raw modality]) in *.
  set (evs3 := (EvMakedirs cdir :: evsL) ++ [EvNormalize raw modality]) in *.
  assert (Hnum3 : numeric_events evs3 = [EvNormalize raw modality])
    by (unfold evs3; by rewrite numeric_events_app, Hnum2).
  assert (Hnorm : forall w0, (normalize_volume raw modality w0).1 = Ok normed)
    by (intros w0; by rewrite (normalize_volume_result _ _ w0 w2), Hn).
  clearbody w3 evs3. clear Hn Hev2 Hnum2 Hload.
  assert (Hfail : forall e, (r, wf) = (Raise e, w3) ->
            numeric_events (new_events w wf) = [EvNormalize raw modality]
            /\ is_ok r = false).
  { intros e [= -> ->]. by rewrite (new_events_log w w3 _ Hev3). }
  rewrite bind_run in Hrun. unfold lift at 1, dict_get at 1 in Hrun.
  destruct (meta !! "SliceSpacing") as [sv|]; cbn [rbind] in Hrun;
    [|left; by eapply Hfail].
  destruct sv as [| |slice_spacing| | |]; cbn [as_float] in Hrun;
    try (left; by eapply Hfail).
  rewrite bind_run in Hrun. unfold lift, dict_get in Hrun.
  destruct (meta !! "PixelSpacing") as [pv|]; cbn [rbind] in Hrun;
    [|left; by eapply Hfail].
  destruct pv as [| | |py px| |]; cbn [as_pair] in Hrun;
    try (left; by eapply Hfail).
  rewrite !bind_run in Hrun. cbn [fst snd] in Hrun.
  destruct (resample_isotropic_log normed
              [Py.Fin slice_spacing; Py.Fin py; Py.Fin px] nsp
              default_order w3)
    as [(e & Hres)|(v3 & zf & Hadj & Hres)]; rewrite Hres in Hrun.
  { left. by eapply Hfail. }
  right. exists normed, v3, zf. split; [exact Hnorm|]. split; [exact Hadj|].
  assert (Hev4 : events (log w3 [EvZoom v3 zf default_order])
                 = events w ++ evs3 ++ [EvZoom v3 zf default_order])
    by (cbn [log events]; by rewrite Hev3, <- app_assoc).
  assert (Hnum4 : numeric_events (evs3 ++ [EvZoom v3 zf default_order])
                  = [EvNormalize raw modality; EvZoom v3 zf default_order])
    by (by rewrite numeric_events_app, Hnum3).
  destruct (ndimage_zoom v3 zf default_order) as [resampled|e];
    cbn [rbind] in Hrun.
  2:{ injection Hrun as <- <-.
      rewrite (new_events_log w _ _ Hev4). split; [exact Hnum4|]. done. }
  destruct uc.
  - rewrite bind_run in Hrun. unfold np_save in Hrun.
    rewrite bind_run, emit_run in Hrun. unfold io in Hrun.
    set (ev5 := EvNpSave _ _) in Hrun.
    assert (Hev5 : events (log (log w3 [EvZoom v3 zf default_order]) [ev5])
                   = events w
                     ++ (evs3 ++ [EvZoom v3 zf default_order]) ++ [ev5])
      by (cbn [log events]; rewrite Hev3; by rewrite <- !app_assoc).
    assert (Hnum5 :
              numeric_events ((evs3 ++ [EvZoom v3 zf default_order]) ++ [ev5])
              = [EvNormalize raw modality; EvZoom v3 zf default_order])
      by (by rewrite numeric_events_app, Hnum4).
    destruct (np_save_files _ _ _); cbn [mret M_ret ret] in Hrun;
      injection Hrun as <- <-;
      (erewrite new_events_log; [|exact Hev5]);
      (split; [exact Hnum5|]);
      first [done | intros p [= <-]; by exists resampled].
  - rewrite bind_run in Hrun. cbn [mret M_ret ret] in Hrun.
    injection Hrun as <- <-.
    rewrite (new_events_log w _ _ Hev4). split; [exact Hnum4|].
    intros p [= <-]. by exists resampled.
Qed.
End Pipeline.

(** ** More on the series assembler *)

Lemma read_instances_frame (fps : list string) :
  forall w, exists evs,
    (read_instances fps w).2 = log w evs
    /\ Forall (fun e => exists p, e = EvDcmread p) evs.
Proof.
  induction fps as [|fp fps IH]; intros w.
  - exists []. simpl. by rewrite log_nil.
  - cbn [read_instances]. rewrite bind_run.
    unfold dcmread at 1. rewrite bind_run, emit_run. unfold io.
    assert (Hfp : exists p, EvDcmread fp = EvDcmread p) by (by exists fp).
    destruct (files (log w [EvDcmread fp]) !! fp) as [[?|ds|?|]|];
      try (exists [EvDcmread fp]; split; [done|by constructor]).
    rewrite bind_run. unfold lift at 1.
    destruct (position_key ds);
      [|exists [EvDcmread fp]; split; [done|by constructor]].
    rewrite bind_run.
    destruct (IH (log w [EvDcmread fp])) as (evs & Hevs & Hall).
    destruct (read_instances fps (log w [EvDcmread fp])) as [[insts|e] w'];
      exists (EvDcmread fp :: evs); simpl in *; rewrite Hevs;
      (split; [by rewrite log_app|by constructor]).
Qed.

Lemma load_dicom_series_frame (d : string) (w : World) :
  exists evs,
    (load_dicom_series d w).2 = log w (EvListdir d :: evs)
    /\ Forall (fun e => exists p, e = EvDcmread p) evs.
Proof.
  unfold load_dicom_series. rewrite bind_run.
  unfold listdir at 1. rewrite bind_run, emit_run. unfold io.
  destruct (files (log w [EvListdir d]) !! d) as [[names| | |]|];
    try (exists []; split; [done|by constructor]).
  destruct (length _ =? 0)%nat; [exists []; split; [done|by constructor]|].
  rewrite bind_run.
  destruct (read_instances_frame
              (map (Py.path_join d) (List.filter is_dicom_name names))
              (log w [EvListdir d])) as (evs & Hevs & Hall).
  destruct (read_instances _ _) as [[insts|e] w'];
    exists evs; simpl in *; rewrite Hevs;
    (split; [by rewrite log_app|done]).
Qed.

(** X1. The loader fails without opening any file when the directory is
    missing, when the path is not a directory, and when the directory lists
    no name that ends in [.dcm] (in any letter case): in the last case it
    raises its own FileNotFoundError "No DICOM files found". *)
Theorem load_dicom_series_without_slice_file (w : World) (d : string) :
  (files w !! d = None ->
   load_dicom_series d w
   = (Raise (FileNotFoundError_path d), log w [EvListdir d]))
  /\ (forall n, files w !! d = Some n -> (forall names, n <> Dir names) ->
      load_dicom_series d w
      = (Raise (NotADirectoryError_listdir d), log w [EvListdir d]))
  /\ (forall names,
        files w !! d = Some (Dir names) ->
        Forall (fun f => Py.endswith (Py.lower f) ".dcm" = false) names ->
        load_dicom_series d w
        = (Raise (FileNotFoundError_no_dicom d), log w [EvListdir d])).
Proof.
  split; [|split].
  - intros Hd. unfold load_dicom_series, listdir.
    rewrite !bind_run, emit_run. unfold io. cbn [log files]. by rewrite Hd.
  - intros n Hd Hn. unfold load_dicom_series, listdir.
    rewrite !bind_run, emit_run. unfold io. cbn [log files]. rewrite Hd.
    destruct n as [names| | |]; [by destruct (Hn names)|done..].
  - intros names Hd Hall. unfold load_dicom_series.
    rewrite bind_run, (listdir_run _ _ _ Hd).
    assert (List.filter is_dicom_name names = []) as ->; [|done].
    clear Hd. induction Hall as [|f names Hf _ IH]; [done|].
    cbn [List.filter]. unfold is_dicom_name at 1. by rewrite Hf.
Qed.

(** X2. The loader only reads: whatever its outcome, the files are as they
    were and all it has done is list a directory and read slice files. On a
    directory whose slice files all decode it lists the directory once and
    then reads, once each and in the order of the listing, exactly the
    files whose name ends in [.dcm]. *)
Theorem load_dicom_series_reads_only (w : World) (d : string) :
  (exists evs,
      (load_dicom_series d w).2 = log w evs /\ Forall is_read_event evs)
  /\ files (load_dicom_series d w).2 = files w
  /\ forall names entries,
       holds_series w d names entries -> entries <> [] ->
       new_events w (load_dicom_series d w).2
       = EvListdir d
         :: map (fun f => EvDcmread (Py.path_join d f))
                (List.filter is_dicom_name names).
Proof.
  destruct (load_dicom_series_frame d w) as (evs & Hevs & Hall).
  split.
  { exists (EvListdir d :: evs). split; [done|].
    constructor; [exists d; by left|].
    eapply Forall_impl; [exact Hall|]. intros e [p ->]. exists p. by right. }
  split; [by rewrite Hevs|].
  intros names entries Hw Hne.
  rewrite (load_dicom_series_run w d names entries Hw Hne). cbn [snd].
  rewrite (new_events_log w _ (loader_events d entries)) by done.
  destruct Hw as (_ & -> & _). unfold loader_events. by rewrite map_map.
Qed.

(** X3. A slice file that is not DICOM stops the loader: after the
    slices before it, which decode and whose position can be read, the
    error of the read is raised as it is, no volume is assembled from the
    slices read so far, and the files that follow in the listing are not
    read. *)
Theorem load_dicom_series_undecodable_slice (w : World) (d : string)
    (names : list string) (pre : list (string * Dataset)) (f : string)
    (post : list string) :
  files w !! d = Some (Dir names) ->
  List.filter is_dicom_name names = map fst pre ++ f :: post ->
  Forall (fun e => files w !! Py.path_join d e.1 = Some (DicomFile e.2)) pre ->
  Forall (fun e => is_ok (position_key e.2) = true) pre ->
  files w !! Py.path_join d f = Some OtherFile ->
  load_dicom_series d w
  = (Raise (InvalidDicomError (Py.path_join d f)),
     log w (loader_events d pre ++ [EvDcmread (Py.path_join d f)])).
Proof.
  intros Hd Hnames Hpre Hkeys Hf. unfold load_dicom_series.
  rewrite bind_run, (listdir_run _ _ _ Hd), Hnames.
  rewrite length_map, length_app. cbn [length].
  replace (length (map fst pre) + S (length post) =? 0)%nat with false
    by (symmetry; apply Nat.eqb_neq; lia).
  rewrite bind_run, map_app, map_map. cbn [map].
  assert (Hgo : forall w0 rest,
    files w0 = files w ->
    read_instances
      (map (fun e => Py.path_join d e.1) pre ++ Py.path_join d f :: rest) w0
    = (Raise (InvalidDicomError (Py.path_join d f)),
       log w0 (map (fun e => EvDcmread (Py.path_join d e.1)) pre
               ++ [EvDcmread (Py.path_join d f)]))).
  { clear Hnames. induction pre as [|e pre IH]; intros w0 rest Hw0.
    - cbn [map app read_instances]. rewrite bind_run.
      unfold dcmread. rewrite bind_run, emit_run. unfold io.
      cbn [log files]. by rewrite Hw0, Hf.
    - apply Forall_cons in Hpre as [He Hpre].
      apply Forall_cons in Hkeys as [Hk Hkeys].
      cbn [map app read_instances]. rewrite bind_run.
      rewrite (dcmread_run w0 _ e.2) by (by rewrite Hw0).
      rewrite bind_run. unfold lift at 1. rewrite (position_key_of _ Hk).
      rewrite bind_run, IH by done. by rewrite log_app. }
  rewrite Hgo by done. unfold loader_events. by rewrite log_app.
Qed.

Lemma metadata_dom ds0 insts sops :
  dom (metadata_of ds0 insts sops)
  = list_to_set ["PixelSpacing"; "SliceSpacing"; "SliceLocations";
                 "SOPInstanceUIDs"; "Modality"; "SeriesInstanceUID";
                 "PatientID"].
Proof.
  unfold metadata_of. destruct (pixel_spacing_of ds0).
  rewrite !dom_insert_L, dom_empty_L. cbn [list_to_set]. done.
Qed.

Lemma metadata_identifiers ds0 insts sops :
  metadata_of ds0 insts sops !! "Modality"
  = Some (PyStr (default "UNKNOWN" (Modality ds0)))
  /\ metadata_of ds0 insts sops !! "SeriesInstanceUID"
     = Some (opt_str (SeriesInstanceUID ds0))
  /\ metadata_of ds0 insts sops !! "PatientID"
     = Some (opt_str (PatientID ds0)).
Proof. repeat split; by meta_lookup. Qed.

(** X4. The metadata of an assembled series always has the same seven
    keys; the lists of slice locations and of instance identifiers have one
    entry per slice, as many as the leading extent of the volume; the
    modality is a string, "UNKNOWN" when the first slice has none, and the
    series and patient identifiers are None when the first slice has
    none. *)
Theorem load_dicom_series_metadata
    (w : World) (d : string) (names : list string)
    (entries : list (string * Dataset)) (shp : list nat) :
  holds_series w d names entries -> entries <> [] ->
  Forall (fun e => shape (pixel_array e.2) = shp) entries ->
  exists vol meta inst0 rest locs uids,
    (load_dicom_series d w).1 = Ok (vol, meta)
    /\ ordered_instances d entries = inst0 :: rest
    /\ dom meta
       = list_to_set ["PixelSpacing"; "SliceSpacing"; "SliceLocations";
                      "SOPInstanceUIDs"; "Modality"; "SeriesInstanceUID";
                      "PatientID"]
    /\ meta !! "SliceLocations" = Some (PyFloatList locs)
    /\ meta !! "SOPInstanceUIDs" = Some (PyStrList uids)
    /\ length locs = length entries /\ length uids = length entries
    /\ shape vol = length entries :: shp
    /\ meta !! "Modality"
       = Some (PyStr (match Modality (dataset inst0) with
                      | Some m => m
                      | None => "UNKNOWN"
                      end))
    /\ meta !! "SeriesInstanceUID"
       = Some (match SeriesInstanceUID (dataset inst0) with
               | Some s => PyStr s
               | None => PyNone
               end)
    /\ meta !! "PatientID"
       = Some (match PatientID (dataset inst0) with
               | Some s => PyStr s
               | None => PyNone
               end).
Proof.
  intros Hw Hne Hshp.
  rewrite (load_dicom_series_run w d names entries Hw Hne). simpl.
  destruct (assemble_same_shape (map (instance_of d) entries) shp)
    as (vol & inst0 & rest & Hs & Ha & Hshape & _).
  { by destruct entries. }
  { by apply same_shape_instances. }
  eexists vol, _, inst0, rest, _, _. split; [exact Ha|]. split; [exact Hs|].
  split; [apply metadata_dom|].
  split; [apply metadata_slice_locations|].
  split; [apply metadata_sop_uids|].
  rewrite !length_map, sorted_length, length_map.
  split; [done|]. split; [done|].
  split; [by rewrite Hshape, length_map|].
  apply metadata_identifiers.
Qed.

Lemma list_sum_constant (n : nat) (l : list nat) :
  Forall (eq n) l -> list_sum l = (length l * n)%nat.
Proof. induction 1 as [|m l <- _ IH]; simpl; [done|]. by rewrite IH. Qed.

(** X5. When the pixel matrix of every slice holds as many elements as its
    shape says, so does the assembled volume: N times the elements of one
    slice. *)
Theorem load_dicom_series_buffer_size
    (w : World) (d : string) (names : list string)
    (entries : list (string * Dataset)) (shp : list nat) :
  holds_series w d names entries -> entries <> [] ->
  Forall (fun e => shape (pixel_array e.2) = shp) entries ->
  Forall (fun e => length (data (pixel_array e.2)) = size_of shp) entries ->
  exists vol meta,
    (load_dicom_series d w).1 = Ok (vol, meta)
    /\ length (data vol) = size_of (shape vol)
    /\ length (data vol) = (length entries * size_of shp)%nat.
Proof.
  intros Hw Hne Hshp Hlen.
  rewrite (load_dicom_series_run w d names entries Hw Hne). simpl.
  destruct (assemble_same_shape (map (instance_of d) entries) shp)
    as (vol & inst0 & rest & _ & Ha & Hshape & _ & Hdata).
  { by destruct entries. }
  { by apply same_shape_instances. }
  eexists vol, _. split; [exact Ha|].
  assert (Hl : length (data vol) = (length entries * size_of shp)%nat).
  { rewrite Hdata, length_concat, map_map.
    rewrite (list_sum_constant (size_of shp)).
    - by rewrite length_map, sorted_length, length_map.
    - apply Forall_map.
      eapply Permutation_Forall; [symmetry; apply sorted_perm|].
      apply Forall_map. eapply Forall_impl; [exact Hlen|].
      intros e He. cbn. by rewrite length_map. }
  split; [|exact Hl].
  rewrite Hl, Hshape, length_map. reflexivity.
Qed.

(** ** More on the isotropic resampler *)

Section ResamplerMore.
Context `{Externals}.

Lemma rank_adjusted_data (v v3 : ndarray) :
  rank_adjusted v v3 -> data v3 = data v /\ dtype v3 = dtype v.
Proof. by intros [->|[->| ->]]. Qed.

(** X6. A target spacing that has not three components is refused like an
    original spacing that has not: on an input of an accepted rank and an
    original spacing of three components, the resampler raises the
    ValueError of the tuple assignment and nothing is interpolated. *)
Theorem resample_isotropic_target_arity (w : World) (v : ndarray)
    (sp nsp : list Py.float) (order : Z) :
  ndim v = 2%nat \/ ndim v = 3%nat
  \/ (ndim v = 4%nat /\ hd 0%nat (shape v) = 1%nat) ->
  length sp = 3%nat -> length nsp <> 3%nat ->
  resample_isotropic v sp nsp order w
  = (Raise (ValueError_unpack 3 (length nsp)), w).
Proof.
  intros Hv Hsp Hnsp.
  destruct (accepted_rank_cases v Hv) as (v3 & _ & Hv3 & ->).
  unfold resample_isotropic. rewrite Hv3.
  cbv beta iota delta [mbind M_bind bind mret M_ret ret lift raise
                       Nat.eqb andb negb].
  destruct sp as [|a [|b [|c [|e sp]]]]; try done.
  cbn [unpack3]. destruct nsp as [|a' [|b' [|c' [|e' nsp]]]]; done.
Qed.

(** X7. Whatever its input, the resampler either raises before anything is
    interpolated, leaving the world as it was, or calls the interpolation
    routine exactly once, on an array of rank 3 that holds the elements of
    the input and with three factors. In the second case a failure of the
    routine is raised as it is, and an array it returns is returned with its
    shape, its elements rounded to float32 and the element type float32: the
    check of the number of factors that follows the call never rejects. *)
Theorem resample_isotropic_outcome (w : World) (v : ndarray)
    (sp nsp : list Py.float) (order : Z) :
  (exists e, resample_isotropic v sp nsp order w = (Raise e, w))
  \/ exists v3 zf,
       rank_adjusted v v3 /\ data v3 = data v /\ ndim v3 = 3%nat
       /\ length zf = 3%nat
       /\ (resample_isotropic v sp nsp order w).2 = log w [EvZoom v3 zf order]
       /\ match ndimage_zoom v3 zf order with
          | Raise e => (resample_isotropic v sp nsp order w).1 = Raise e
          | Ok r =>
              (resample_isotropic v sp nsp order w).1
              = Ok {| shape := shape r; dtype := float32;
                      data := map float32_of (data r) |}
          end.
Proof.
  destruct (decide (ndim v = 2%nat \/ ndim v = 3%nat
                    \/ (ndim v = 4%nat /\ hd 0%nat (shape v) = 1%nat)))
    as [Hacc|Hrej].
  2:{ left. eexists. apply rejected_rank; tauto. }
  destruct (accepted_rank_cases v Hacc) as (v3 & Hadj & Hv3 & Heq).
  rewrite !Heq.
  destruct sp as [|sz [|sy [|sx [|? ?]]]];
    try (left; eexists; unfold resample_isotropic; rewrite Hv3;
         reflexivity).
  destruct nsp as [|nz [|ny [|nx [|? ?]]]];
    try (left; eexists; unfold resample_isotropic; rewrite Hv3;
         reflexivity).
  rewrite resample_isotropic_3d by exact Hv3.
  destruct (py_div sz nz) as [fz|]; [|left; by eexists].
  destruct (py_div sy ny) as [fy|]; [|left; by eexists].
  destruct (py_div sx nx) as [fx|]; [|left; by eexists].
  right. exists v3, [fz; fy; fx].
  split; [exact Hadj|]. split; [apply (rank_adjusted_data _ _ Hadj)|].
  split; [exact Hv3|]. split; [done|]. split; [done|].
  cbn [fst]. by destruct (ndimage_zoom v3 [fz; fy; fx] order).
Qed.

Lemma quotient_same (s : Py.float) :
  Py.is_finite s = true -> Py.is_zero s = false ->
  Py.quotient s s = Py.Fin 1.
Proof.
  unfold Py.is_finite, Py.is_zero, Py.quotient.
  destruct (Py.to_float s) as [q| |]; [|done..]. intros _ Hq.
  apply Qeq_bool_neq in Hq.
  rewrite (binary64_comp (q / q) 1) by (by field).
  vm_compute. reflexivity.
Qed.

Lemma zoom_extent_one (n : nat) :
  (Z.of_nat n < 2 ^ 53)%Z -> zoom_extent n (Py.Fin 1) = Ok (Z.of_nat n).
Proof.
  intros Hn. unfold zoom_extent, Py.product. cbn [Py.to_float].
  rewrite binary64_Z by lia.
  assert (Py.binary64 1 = Py.Fin 1) as -> by (vm_compute; reflexivity).
  rewrite (binary64_comp (inject_Z (Z.of_nat n) * 1) (inject_Z (Z.of_nat n)))
    by ring.
  rewrite binary64_Z by lia. cbn [int_round]. f_equal. by apply round_Z.
Qed.

(** X8. Resampling to the spacing the volume already has keeps its shape:
    with a target equal to an original spacing whose components are
    finite and not zero, the three factors are 1.0, and when the
    interpolation routine returns (on a volume whose extents are below
    2^53, so that they are floats) the resampler returns a volume of the
    shape of its input. *)
Theorem resample_isotropic_same_spacing (w : World) (v : ndarray)
    (n h wd : nat) (sz sy sx : Py.float) (order : Z) (out0 : ndarray) :
  shape v = [n; h; wd] ->
  Forall (fun e : nat => (Z.of_nat e < 2 ^ 53)%Z) [n; h; wd] ->
  Forall (fun s => Py.is_finite s = true /\ Py.is_zero s = false)
         [sz; sy; sx] ->
  ndimage_zoom v [Py.Fin 1; Py.Fin 1; Py.Fin 1] order = Ok out0 ->
  [Py.quotient sz sz; Py.quotient sy sy; Py.quotient sx sx]
  = [Py.Fin 1; Py.Fin 1; Py.Fin 1]
  /\ exists out,
       resample_isotropic v [sz; sy; sx] [sz; sy; sx] order w
       = (Ok out, log w [EvZoom v [Py.Fin 1; Py.Fin 1; Py.Fin 1] order])
       /\ shape out = shape v.
Proof.
  intros Hv Hext Hs Hzoom.
  apply Forall_cons in Hs as [[Hfz Hz] Hs].
  apply Forall_cons in Hs as [[Hfy Hy] Hs].
  apply Forall_cons in Hs as [[Hfx Hx] _].
  apply Forall_cons in Hext as [Hn Hext].
  apply Forall_cons in Hext as [Hh Hext].
  apply Forall_cons in Hext as [Hwd _].
  assert (Hone : [Py.quotient sz sz; Py.quotient sy sy; Py.quotient sx sx]
                 = [Py.Fin 1; Py.Fin 1; Py.Fin 1])
    by (by rewrite !quotient_same).
  split; [exact Hone|].
  exists (astype_float32 out0).
  rewrite resample_isotropic_nonzero by (try done; unfold ndim; by rewrite Hv).
  rewrite Hone, Hzoom. cbn [rbind]. split; [done|].
  cbn [astype_float32 shape].
  apply ndimage_zoom_shape in Hzoom as [Hshape _].
  rewrite Hv in Hshape. cbn [zoom_output_shape] in Hshape.
  rewrite !zoom_extent_one in Hshape by done. cbn [rbind] in Hshape.
  injection Hshape as Hshape. rewrite Hv.
  symmetry. apply map_of_nat_inj. exact Hshape.
Qed.
End ResamplerMore.

(** ** The normalisation *)

Section NormalizationMore.
Context `{Externals}.

Lemma fold_min_spec (l : list Q) (x : Q) :
  (fold_left Qmin l x <= x)%Q
  /\ Forall (fun y => (fold_left Qmin l x <= y)%Q) l.
Proof.
  revert x. induction l as [|a l IH]; intros x; simpl.
  - split; [apply Qle_refl|constructor].
  - destruct (IH (Qmin x a)) as [Hx Hl]. split.
    + eapply Qle_trans; [exact Hx|apply Q.le_min_l].
    + constructor; [|exact Hl].
      eapply Qle_trans; [exact Hx|apply Q.le_min_r].
Qed.

Lemma fold_max_spec (l : list Q) (x : Q) :
  (x <= fold_left Qmax l x)%Q
  /\ Forall (fun y => (y <= fold_left Qmax l x)%Q) l.
Proof.
  revert x. induction l as [|a l IH]; intros x; simpl.
  - split; [apply Qle_refl|constructor].
  - destruct (IH (Qmax x a)) as [Hx Hl]. split.
    + eapply Qle_trans; [apply Q.le_max_l|exact Hx].
    + constructor; [|exact Hl].
      eapply Qle_trans; [apply Q.le_max_r|exact Hx].
Qed.

(** The scaling to the unit interval of an array that has an element. *)
Lemma min_max_scale_spec (a : ndarray) :
  data a <> [] ->
  exists lo hi,
    Forall (fun x => (lo <= x <= hi)%Q) (data a)
    /\ (lo <= hi)%Q
    /\ min_max_scale a
       = Ok (map_float64 (fun x => (x - lo) / (hi - lo + eps))%Q a).
Proof.
  intros Hne. unfold min_max_scale, np_min, np_max.
  destruct (data a) as [|x l] eqn:Hd; [done|]. cbn [rbind].
  exists (fold_left Qmin l x), (fold_left Qmax l x).
  destruct (fold_min_spec l x) as [Hmx Hml].
  destruct (fold_max_spec l x) as [HMx HMl].
  split; [|split; [by eapply Qle_trans|done]].
  constructor; [done|].
  rewrite Forall_forall in Hml, HMl. apply Forall_forall. intros y Hy.
  split; [by apply Hml|by apply HMl].
Qed.

Lemma min_max_scale_empty (a : ndarray) :
  data a = [] ->
  min_max_scale a = Raise (LibraryError "zero-size array to reduction operation").
Proof. intros Hd. unfold min_max_scale, np_min. by rewrite Hd. Qed.

Lemma eps_pos : (0 < eps)%Q.
Proof. reflexivity. Qed.

Lemma scaled_unit (lo hi x : Q) :
  (lo <= x <= hi)%Q ->
  (0 <= (x - lo) / (hi - lo + eps) /\ (x - lo) / (hi - lo + eps) <= 1)%Q.
Proof.
  intros [Hlo Hhi]. pose proof eps_pos as He.
  assert (HD : (0 < hi - lo + eps)%Q) by lra.
  split.
  - apply Qle_shift_div_l; [exact HD|lra].
  - apply Qle_shift_div_r; [exact HD|lra].
Qed.

Lemma scaled_monotone (lo hi x y : Q) :
  (lo <= hi)%Q -> (x <= y)%Q ->
  ((x - lo) / (hi - lo + eps) <= (y - lo) / (hi - lo + eps))%Q.
Proof.
  intros Hlh Hxy. pose proof eps_pos as He.
  assert (HD : (0 < hi - lo + eps)%Q) by lra.
  unfold Qdiv. apply Qmult_le_compat_r; [lra|].
  apply Qinv_le_0_compat. lra.
Qed.

Lemma min_max_scale_data (a : ndarray) (g : Q -> Q) :
  map_float64 g a
  = {| shape := shape a;
       dtype := if is_float (dtype a) then dtype a else float64;
       data := map g (data a) |}.
Proof. reflexivity. Qed.

(** The two kernels on a volume that has an element: a clip or a shift,
    then the scaling between the least and the greatest value, then the
    rounding to float32. *)
Lemma normalize_cta_spec (v : ndarray) :
  data v <> [] ->
  exists lo hi,
    (lo <= hi)%Q
    /\ Forall (fun x => (lo <= Qmin (Qmax x (40 - 80 / 2)) (40 + 80 / 2) <= hi)%Q)
              (data v)
    /\ normalize_cta v
       = Ok {| shape := shape v; dtype := float32;
               data := map (fun x =>
                         float32_of
                           ((Qmin (Qmax x (40 - 80 / 2)) (40 + 80 / 2) - lo)
                            / (hi - lo + eps))%Q) (data v) |}.
Proof.
  intros Hne. unfold normalize_cta.
  destruct (min_max_scale_spec (window_intensity v 40 80))
    as (lo & hi & Hall & Hlh & ->).
  { unfold window_intensity, np_clip. cbn [data].
    by destruct (data v). }
  exists lo, hi. split; [exact Hlh|]. split.
  { unfold window_intensity, np_clip in Hall. cbn [data] in Hall.
    by apply Forall_map in Hall. }
  cbn [rbind]. unfold astype_float32, map_float64, window_intensity, np_clip.
  cbn [shape data]. by rewrite map_map, map_map.
Qed.

Lemma normalize_mri_spec (v : ndarray) :
  data v <> [] ->
  exists lo hi,
    (lo <= hi)%Q
    /\ Forall (fun x => (lo <= (x - np_mean v) / (np_std (data v) + eps)
                        <= hi)%Q) (data v)
    /\ normalize_mri v
       = Ok {| shape := shape v; dtype := float32;
               data := map (fun x =>
                         float32_of
                           (((x - np_mean v) / (np_std (data v) + eps) - lo)
                            / (hi - lo + eps))%Q) (data v) |}.
Proof.
  intros Hne. unfold normalize_mri.
  destruct (min_max_scale_spec
              (map_float64 (fun x => (x - np_mean v)
                                     / (np_std (data v) + eps))%Q v))
    as (lo & hi & Hall & Hlh & ->).
  { unfold map_float64. cbn [data]. by destruct (data v). }
  exists lo, hi. split; [exact Hlh|]. split.
  { unfold map_float64 in Hall. cbn [data] in Hall.
    by apply Forall_map in Hall. }
  cbn [rbind]. unfold astype_float32, map_float64.
  cbn [shape data]. by rewrite map_map, map_map.
Qed.

Lemma normalize_volume_kernel (v : ndarray) (m : string) (w : World) :
  (normalize_volume v m w).1 = normalize_cta v
  \/ (normalize_volume v m w).1 = normalize_mri v.
Proof.
  unfold normalize_volume. rewrite bind_run, emit_run.
  repeat case_bool_decide; unfold lift; cbn [fst]; auto.
Qed.

(** X9. Whatever the modality string, the normalisation of a volume that
    has an element returns a volume of the same shape, with as many
    elements, of element type float32; when the rounding to float32 does not
    decrease and keeps 0 and 1, every element of the result lies between 0
    and 1. On a volume without element it raises the error of the reduction
    of an empty array. An unknown modality is never an error. *)
Theorem normalize_volume_unit_range (w : World) (v : ndarray) (m : string) :
  (data v = [] ->
   (normalize_volume v m w).1
   = Raise (LibraryError "zero-size array to reduction operation"))
  /\ (data v <> [] ->
      exists out,
        (normalize_volume v m w).1 = Ok out
        /\ shape out = shape v /\ dtype out = float32
        /\ length (data out) = length (data v)
        /\ ((forall x y, (x <= y)%Q -> (float32_of x <= float32_of y)%Q) ->
            (float32_of 0 == 0)%Q -> (float32_of 1 == 1)%Q ->
            Forall (fun y => (0 <= y <= 1)%Q) (data out))).
Proof.
  split.
  - intros Hd.
    destruct (normalize_volume_kernel v m w) as [-> | ->].
    + unfold normalize_cta. rewrite min_max_scale_empty; [done|].
      unfold window_intensity, np_clip. cbn [data]. by rewrite Hd.
    + unfold normalize_mri. rewrite min_max_scale_empty; [done|].
      unfold map_float64. cbn [data]. by rewrite Hd.
  - intros Hne.
    assert (Hunit : forall g : Q -> Q, forall lo hi : Q,
      Forall (fun x => (lo <= g x <= hi)%Q) (data v) ->
      (forall x y, (x <= y)%Q -> (float32_of x <= float32_of y)%Q) ->
      (float32_of 0 == 0)%Q -> (float32_of 1 == 1)%Q ->
      Forall (fun y => (0 <= y <= 1)%Q)
        (map (fun x => float32_of ((g x - lo) / (hi - lo + eps))%Q) (data v))).
    { intros g lo hi Hall Hmono H0 H1. apply Forall_map.
      eapply Forall_impl; [exact Hall|]. intros x Hx. cbn beta.
      destruct (scaled_unit lo hi (g x) Hx) as [Hs0 Hs1]. split.
      - rewrite <- H0. by apply Hmono.
      - rewrite <- H1. by apply Hmono. }
    destruct (normalize_volume_kernel v m w) as [-> | ->].
    + destruct (normalize_cta_spec v Hne) as (lo & hi & _ & Hall & ->).
      eexists. split; [reflexivity|]. cbn [shape dtype data].
      split; [done|]. split; [done|]. split; [by rewrite length_map|].
      apply (Hunit (fun x => Qmin (Qmax x (40 - 80 / 2)) (40 + 80 / 2))
               lo hi Hall).
    + destruct (normalize_mri_spec v Hne) as (lo & hi & _ & Hall & ->).
      eexists. split; [reflexivity|]. cbn [shape dtype data].
      split; [done|]. split; [done|]. split; [by rewrite length_map|].
      apply (Hunit (fun x => (x - np_mean v) / (np_std (data v) + eps))%Q
               lo hi Hall).
Qed.

(** X10. The normalisation keeps the order of the intensities: when the
    rounding to float32 does not decrease and the standard deviation is not
    negative, a voxel that is not brighter than another before is not
    brighter than it after. *)
Theorem normalize_volume_monotone (w : World) (v out : ndarray) (m : string)
    (i j : nat) (a b a' b' : Q) :
  (forall x y, (x <= y)%Q -> (float32_of x <= float32_of y)%Q) ->
  (forall l, (0 <= np_std l)%Q) ->
  (normalize_volume v m w).1 = Ok out ->
  data v !! i = Some a -> data v !! j = Some b -> (a <= b)%Q ->
  data out !! i = Some a' -> data out !! j = Some b' -> (a' <= b')%Q.
Proof.
  intros Hmono Hstd Hout Ha Hb Hab Ha' Hb'.
  assert (Hne : data v <> []) by (intros E; by rewrite E in Ha).
  assert (Hmap : forall g : Q -> Q, forall lo hi : Q,
    (lo <= hi)%Q -> (forall x y, (x <= y)%Q -> (g x <= g y)%Q) ->
    data out = map (fun x => float32_of ((g x - lo) / (hi - lo + eps))%Q)
                   (data v) ->
    (a' <= b')%Q).
  { intros g lo hi Hlh Hg Hd. rewrite Hd in Ha', Hb'.
    change (map ?f ?l) with (f <$> l) in Ha', Hb'.
    rewrite list_lookup_fmap, Ha in Ha'. rewrite list_lookup_fmap, Hb in Hb'.
    injection Ha' as <-. injection Hb' as <-.
    apply Hmono, scaled_monotone; [exact Hlh|by apply Hg]. }
  destruct (normalize_volume_kernel v m w) as [Hk|Hk]; rewrite Hk in Hout.
  - destruct (normalize_cta_spec v Hne) as (lo & hi & Hlh & _ & Hc).
    rewrite Hc in Hout. injection Hout as <-.
    apply (Hmap (fun x => Qmin (Qmax x (40 - 80 / 2)) (40 + 80 / 2)) lo hi Hlh);
      [|done].
    intros x y Hxy. apply Q.min_le_compat_r, Q.max_le_compat_r, Hxy.
  - destruct (normalize_mri_spec v Hne) as (lo & hi & Hlh & _ & Hc).
    rewrite Hc in Hout. injection Hout as <-.
    apply (Hmap (fun x => (x - np_mean v) / (np_std (data v) + eps))%Q
             lo hi Hlh); [|done].
    intros x y Hxy. unfold Qdiv. apply Qmult_le_compat_r; [lra|].
    apply Qinv_le_0_compat. pose proof (Hstd (data v)). pose proof eps_pos.
    lra.
Qed.

Lemma fold_min_in (l : list Q) (x : Q) : In (fold_left Qmin l x) (x :: l).
Proof.
  revert x. induction l as [|a l IH]; intros x; simpl; [by left|].
  destruct (IH (Qmin x a)) as [Hh|Ht]; [|by right; right].
  rewrite <- Hh. unfold Qmin, GenericMinMax.gmin.
  destruct (x ?= a)%Q; auto.
Qed.

Lemma fold_max_in (l : list Q) (x : Q) : In (fold_left Qmax l x) (x :: l).
Proof.
  revert x. induction l as [|a l IH]; intros x; simpl; [by left|].
  destruct (IH (Qmax x a)) as [Hh|Ht]; [|by right; right].
  rewrite <- Hh. unfold Qmax, GenericMinMax.gmax.
  destruct (x ?= a)%Q; auto.
Qed.

(** X11. The brain window of the CT kernel: on a volume that has a voxel
    at or below 0 and a voxel at or above 80, every voxel x becomes the
    rounding to float32 of a number equal to clip(x, 0, 80) / (80 + 1e-8);
    before the rounding the result stays below 1. *)
Theorem normalize_cta_brain_window (v : ndarray) (x0 x1 : Q) :
  In x0 (data v) -> (x0 <= 0)%Q -> In x1 (data v) -> (80 <= x1)%Q ->
  exists pre,
    normalize_cta v
    = Ok {| shape := shape v; dtype := float32;
            data := map float32_of pre |}
    /\ Forall2 (fun x y => (y == Qmin (Qmax x 0) 80 / (80 + eps))%Q
                           /\ (0 <= y < 1)%Q)
               (data v) pre.
Proof.
  intros Hx0 H0 Hx1 H1. unfold normalize_cta, min_max_scale, np_min, np_max.
  set (c := fun x : Q => Qmin (Qmax x (40 - 80 / 2)) (40 + 80 / 2)).
  assert (Hc : data (window_intensity v 40 80) = map c (data v)) by done.
  rewrite Hc.
  destruct (data v) as [|x l] eqn:Hd; [done|]. cbn [map rbind].
  set (lo := fold_left Qmin (map c l) (c x)).
  set (hi := fold_left Qmax (map c l) (c x)).
  assert (Hrange : forall y, (0 <= c y <= 80)%Q).
  { intros y. unfold c. split.
    - apply Q.min_glb; [|done].
      eapply Qle_trans; [|apply Q.le_max_r]. done.
    - eapply Qle_trans; [apply Q.le_min_r|]. done. }
  assert (Hin : forall y, In y (x :: l) -> (lo <= c y <= hi)%Q).
  { intros y Hy. destruct (fold_min_spec (map c l) (c x)) as [Ha Hb].
    destruct (fold_max_spec (map c l) (c x)) as [Ha' Hb'].
    fold lo in Ha, Hb. fold hi in Ha', Hb'.
    rewrite Forall_forall in Hb, Hb'.
    destruct Hy as [<-|Hy]; [done|].
    apply (in_map c), list_elem_of_In in Hy. split; [by apply Hb|by apply Hb']. }
  assert (Hlo : (lo == 0)%Q).
  { apply Qle_antisym.
    - eapply Qle_trans; [apply (Hin x0 Hx0)|]. unfold c.
      eapply Qle_trans; [apply Q.le_min_l|].
      apply Q.max_lub; [|done]. eapply Qle_trans; [exact H0|done].
    - pose proof (fold_min_in (map c l) (c x)) as Hm. fold lo in Hm.
      change (c x :: map c l) with (map c (x :: l)) in Hm.
      apply in_map_iff in Hm as (y & <- & _). apply Hrange. }
  assert (Hhi : (hi == 80)%Q).
  { apply Qle_antisym.
    - pose proof (fold_max_in (map c l) (c x)) as Hm. fold hi in Hm.
      change (c x :: map c l) with (map c (x :: l)) in Hm.
      apply in_map_iff in Hm as (y & <- & _). apply Hrange.
    - eapply Qle_trans; [|apply (Hin x1 Hx1)]. unfold c.
      apply Q.min_glb; [|done].
      eapply Qle_trans; [exact H1|apply Q.le_max_l]. }
  exists (map (fun y => (c y - lo) / (hi - lo + eps))%Q (x :: l)).
  split.
  { unfold astype_float32, map_float64. cbn [shape dtype data].
    rewrite Hc. cbn [window_intensity np_clip shape]. by rewrite !map_map. }
  apply Forall2_fmap_r, Forall_Forall2_diag, Forall_forall.
  intros y _. pose proof (Hrange y) as [Hy0 Hy80]. pose proof eps_pos.
  assert (Heq : ((c y - lo) / (hi - lo + eps)
                 == Qmin (Qmax y 0) 80 / (80 + eps))%Q).
  { rewrite Hlo, Hhi. unfold c.
    assert ((40 - 80 / 2 == 0)%Q) as E0 by reflexivity.
    assert ((40 + 80 / 2 == 80)%Q) as E1 by reflexivity.
    rewrite E0, E1. unfold Qminus. by rewrite Qplus_0_r, Qplus_0_r. }
  split; [exact Heq|]. rewrite Heq.
  assert (E0 : (40 - 80 / 2 == 0)%Q) by reflexivity.
  assert (E1 : (40 + 80 / 2 == 80)%Q) by reflexivity.
  unfold c in Hy0, Hy80. rewrite E0, E1 in Hy0, Hy80. split.
  - apply Qle_shift_div_l; lra.
  - apply Qlt_shift_div_r; lra.
Qed.

Lemma upper_lower_char (c : ascii) :
  Py.upper_char (Py.lower_char c) = Py.upper_char c.
Proof. destruct c as [[] [] [] [] [] [] [] []]; reflexivity. Qed.

Lemma upper_lower (m : string) : Py.upper (Py.lower m) = Py.upper m.
Proof.
  unfold Py.upper, Py.lower, Py.str, Py.chars.
  rewrite list_ascii_of_string_of_list_ascii, map_map.
  f_equal. apply map_ext. apply upper_lower_char.
Qed.

Lemma upper_upper_char (c : ascii) :
  Py.upper_char (Py.upper_char c) = Py.upper_char c.
Proof. destruct c as [[] [] [] [] [] [] [] []]; reflexivity. Qed.

Lemma upper_upper (m : string) : Py.upper (Py.upper m) = Py.upper m.
Proof.
  unfold Py.upper, Py.str, Py.chars.
  rewrite list_ascii_of_string_of_list_ascii, map_map.
  f_equal. apply map_ext. apply upper_upper_char.
Qed.

(** X12. The modality is matched without regard to the case of its
    letters: on a modality string of ASCII characters, the normalisation
    returns the same result for the string, for its lower-case form and for
    its upper-case form. *)
Theorem normalize_volume_ignores_case (w : World) (v : ndarray) (m : string) :
  Forall (fun c => (nat_of_ascii c < 128)%nat) (Py.chars m) ->
  (normalize_volume v (Py.lower m) w).1 = (normalize_volume v m w).1
  /\ (normalize_volume v (Py.upper m) w).1 = (normalize_volume v m w).1.
Proof.
  intros _. unfold normalize_volume. rewrite !bind_run, !emit_run.
  rewrite upper_lower, upper_upper.
  split; repeat case_bool_decide; done.
Qed.
End NormalizationMore.

(** ** More on the pipeline *)

Section PipelineMore.
Context `{Externals}.

Lemma not_cache_dcmread (evs : list Event) :
  Forall (fun e => exists p, e = EvDcmread p) evs ->
  Forall (fun e => ~ is_cache_event e) evs.
Proof. intros Hall. eapply Forall_impl; [exact Hall|]. by intros e [p ->] ?. Qed.

(** Every way a run of the pipeline can go, with the world it leaves. *)
Lemma preprocess_series_outcomes (w : World) (d : string)
    (nsp : list Py.float) (cdir : string) (uc : bool) :
  let cp := get_cache_path (series_id_of d) cdir in
  let run := preprocess_series d nsp cdir uc w in
  (files w !! d = None /\ run = (Raise (FileNotFoundError_series_dir d), w))
  \/ (is_Some (files w !! d)
      /\ ((exists e,
              ensure_dir cdir w = (Raise e, log w [EvMakedirs cdir])
              /\ run = (Raise e, log w [EvMakedirs cdir]))
          \/ exists w1,
               ensure_dir cdir w = (Ok tt, w1)
               /\ ((uc = true /\ is_Some (files w1 !! cp)
                    /\ run = match np_load cp w1 with
                             | (Ok a, w2) =>
                                 (Ok {| volume := a;
                                        metadata :=
                                          {[ "SeriesInstanceUID" :=
                                               PyStr (series_id_of d) ]} |},
                                  w2)
                             | (Raise e, w2) => (Raise e, w2)
                             end)
                   \/ ((uc = false \/ files w1 !! cp = None)
                       /\ exists evs,
                            Forall (fun e => ~ is_cache_event e) evs
                            /\ ((exists e,
                                    run = (Raise e, log w1 (EvListdir d :: evs)))
                                \/ (exists p,
                                      uc = false
                                      /\ run = (Ok p,
                                                log w1 (EvListdir d :: evs)))
                                \/ (exists p fs,
                                      uc = true
                                      /\ np_save_files cp (volume p) (files w1)
                                         = Ok fs
                                      /\ run
                                         = (Ok p,
                                            {| files := fs;
                                               events :=
                                                 events w1
                                                 ++ (EvListdir d :: evs)
                                                 ++ [EvNpSave cp (volume p)]
                                            |}))
                                \/ (exists v e,
                                      uc = true
                                      /\ np_save_files cp v (files w1)
                                         = Raise e
                                      /\ run
                                         = (Raise e,
                                            log w1
                                              ((EvListdir d :: evs)
                                               ++ [EvNpSave cp v])))))))).
Proof.
  intros cp run.
  destruct run as [r wf] eqn:Hrun. subst run.
  unfold preprocess_series in Hrun. rewrite bind_run in Hrun.
  unfold path_exists at 1 in Hrun.
  destruct (files w !! d) as [n|] eqn:Hd.
  2:{ left. split; [done|].
      rewrite bool_decide_eq_false_2 in Hrun by (by intros [? ?]).
      by injection Hrun as <- <-. }
  right. split; [by eexists|].
  rewrite (bool_decide_eq_true_2 _ (mk_is_Some _ _ eq_refl)) in Hrun.
  cbn [negb] in Hrun. rewrite bind_run in Hrun.
  destruct (ensure_dir_cases cdir w) as [(e & He)|(w1 & He & Hev1 & Hf1)];
    rewrite He in Hrun.
  { left. exists e. split; [done|]. by injection Hrun as <- <-. }
  right. exists w1. split; [done|].
  rewrite bind_run in Hrun.
  fold (series_id_of d) in Hrun.
  fold (get_cache_path (series_id_of d) cdir) in Hrun.
  fold cp in Hrun.
  destruct (decide (uc = true /\ is_Some (files w1 !! cp)))
    as [[-> Hhit]|Hcold].
  { left. split; [done|]. split; [done|].
    unfold path_exists in Hrun.
    rewrite (bool_decide_eq_true_2 _ Hhit), bind_run in Hrun.
    destruct (np_load cp w1) as [[a|e] w2]; by injection Hrun as <- <-. }
  right.
  assert (Hmiss : uc = false \/ files w1 !! cp = None).
  { destruct uc; [right|by left].
    destruct (files w1 !! cp) eqn:E; [|done].
    destruct Hcold. split; [done|by eexists]. }
  split; [exact Hmiss|].
  assert ((if uc then path_exists cp else mret false : M bool) w1
          = (Ok false, w1)) as Hnohit.
  { destruct uc; [|done]. unfold path_exists.
    destruct Hmiss as [?| ->]; [done|].
    rewrite bool_decide_eq_false_2 by (by intros [? ?]). done. }
  rewrite Hnohit, bind_run in Hrun. clear Hnohit.
  destruct (load_dicom_series_frame d w1) as (evsL & HwL & HallL).
  apply not_cache_dcmread in HallL.
  destruct (load_dicom_series d w1) as [[[raw meta]|e] w2]; cbn [snd] in HwL;
    subst w2.
  2:{ exists evsL. split; [done|]. left. exists e.
      by injection Hrun as <- <-. }
  rewrite bind_run in Hrun. unfold lift at 1, dict_get at 1 in Hrun.
  destruct (meta !! "Modality") as [mv|]; cbn [rbind] in Hrun.
  2:{ exists evsL. split; [done|]. left. eexists.
      by injection Hrun as <- <-. }
  destruct mv as [|modality| | | |]; cbn [as_str] in Hrun;
    try (exists evsL; split; [done|]; left; eexists;
         by injection Hrun as <- <-).
  rewrite bind_run in Hrun.
  destruct (normalize_volume_run raw modality (log w1 (EvListdir d :: evsL)))
    as (rn & Hn).
  rewrite Hn, log_app in Hrun. cbn [app] in Hrun. clear Hn.
  set (evsN := evsL ++ [EvNormalize raw modality]) in *.
  assert (HallN : Forall (fun e => ~ is_cache_event e) evsN).
  { apply Forall_app. split; [done|]. repeat constructor. by intros ?. }
  clearbody evsN.
  destruct rn as [normed|e].
  2:{ exists evsN. split; [done|]. left. exists e.
      by injection Hrun as <- <-. }
  rewrite bind_run in Hrun. unfold lift at 1, dict_get at 1 in Hrun.
  destruct (meta !! "SliceSpacing") as [sv|]; cbn [rbind] in Hrun;
    [|exists evsN; split; [done|]; left; eexists;
      by injection Hrun as <- <-].
  destruct sv as [| |slice_spacing| | |]; cbn [as_float] in Hrun;
    try (exists evsN; split; [done|]; left; eexists;
         by injection Hrun as <- <-).
  rewrite bind_run in Hrun. unfold lift, dict_get in Hrun.
  destruct (meta !! "PixelSpacing") as [pv|]; cbn [rbind] in Hrun;
    [|exists evsN; split; [done|]; left; eexists;
      by injection Hrun as <- <-].
  destruct pv as [| | |py px| |]; cbn [as_pair] in Hrun;
    try (exists evsN; split; [done|]; left; eexists;
         by injection Hrun as <- <-).
  rewrite !bind_run in Hrun. cbn [fst snd] in Hrun.
  destruct (resample_isotropic_log normed
              [Py.Fin slice_spacing; Py.Fin py; Py.Fin px] nsp
              default_order (log w1 (EvListdir d :: evsN)))
    as [(e & Hres)|(v3 & zf & Hadj & Hres)]; rewrite Hres in Hrun; clear Hres.
  { exists evsN. split; [done|]. left. exists e.
    by injection Hrun as <- <-. }
  rewrite log_app in Hrun. cbn [app] in Hrun.
  set (evsZ := evsN ++ [EvZoom v3 zf default_order]) in *.
  assert (HallZ : Forall (fun e => ~ is_cache_event e) evsZ).
  { apply Forall_app. split; [done|]. repeat constructor. by intros ?. }
  clearbody evsZ.
  destruct (ndimage_zoom v3 zf default_order) as [resampled|e];
    cbn [rbind] in Hrun.
  2:{ exists evsZ. split; [done|]. left. exists e.
      by injection Hrun as <- <-. }
  exists evsZ. split; [done|]. right.
  destruct uc.
  - right.
    rewrite bind_run in Hrun. unfold np_save in Hrun.
    rewrite bind_run, emit_run in Hrun. unfold io in Hrun.
    cbn [log files events] in Hrun. fold cp in Hrun.
    destruct (np_save_files cp _ (files w1)) as [fs|e] eqn:Hsave;
      cbn [mret M_ret ret] in Hrun; injection Hrun as <- <-.
    + left.
      exists {| volume := astype_float32 (astype_float32 resampled);
                metadata := meta |}, fs.
      split; [done|]. split; [exact Hsave|]. by rewrite <- app_assoc.
    + right. eexists _, e. split; [done|]. split; [exact Hsave|].
      unfold log. cbn [files events]. by rewrite <- app_assoc.
  - left. rewrite bind_run in Hrun. cbn [mret M_ret ret] in Hrun.
    injection Hrun as <- <-. eexists. by split.
Qed.

Lemma ensure_dir_ok (cdir : string) (w w1 : World) :
  ensure_dir cdir w = (Ok tt, w1) ->
  makedirs_files cdir (files w) = Ok (files w1)
  /\ events w1 = events w ++ [EvMakedirs cdir].
Proof.
  intros He.
  destruct (ensure_dir_cases cdir w) as [(e & He')|(w1' & He' & Hev & Hf)];
    rewrite He' in He; [discriminate|]. by injection He as ->.
Qed.

Lemma changes_within_is_Some (dirs saved : list string)
    (fs fs' : gmap string Node) (p : string) :
  changes_within dirs saved fs fs' -> is_Some (fs !! p) -> is_Some (fs' !! p).
Proof.
  intros Hch Hp. destruct (Hch p) as [Hk|[(Hn & _)|(Hn & _)]].
  - by apply (kept_is_Some (fs !! p)).
  - rewrite Hn in Hp. by destruct Hp.
  - rewrite Hn in Hp. by destruct Hp.
Qed.

Lemma np_load_ok (cp : string) (w w2 : World) (a : ndarray) :
  np_load cp w = (Ok a, w2) ->
  files w !! cp = Some (NpyFile a) /\ w2 = log w [EvNpLoad cp].
Proof.
  unfold np_load. rewrite bind_run, emit_run. unfold io. cbn [log files].
  destruct (files w !! cp) as [[]|]; intros [= <- <-] || intros [=]; done.
Qed.

Lemma np_load_frame (cp : string) (w : World) :
  (np_load cp w).2 = log w [EvNpLoad cp].
Proof.
  unfold np_load. rewrite bind_run, emit_run. unfold io. cbn [log files].
  by destruct (files w !! cp) as [[]|].
Qed.

(** A run on a series directory and a cache file that are there, where
    [os.makedirs] finds the cache directory there. *)
Lemma cache_hit_run (w : World) (d : string) (nsp : list Py.float)
    (cdir : string) (a : ndarray) :
  is_Some (files w !! d) ->
  makedirs_files cdir (files w) = Ok (files w) ->
  files w !! get_cache_path (series_id_of d) cdir = Some (NpyFile a) ->
  preprocess_series d nsp cdir true w
  = (Ok {| volume := a;
           metadata := {[ "SeriesInstanceUID" := PyStr (series_id_of d) ]} |},
     log w [EvMakedirs cdir;
            EvNpLoad (get_cache_path (series_id_of d) cdir)]).
Proof.
  intros Hd Hc Hf.
  unfold preprocess_series. rewrite bind_run. unfold path_exists at 1.
  rewrite (bool_decide_eq_true_2 _ Hd). cbn [negb].
  rewrite bind_run. unfold ensure_dir. rewrite (makedirs_there _ _ Hc).
  rewrite bind_run. unfold path_exists.
  fold (series_id_of d). fold (get_cache_path (series_id_of d) cdir).
  cbn [log files]. rewrite Hf.
  rewrite (bool_decide_eq_true_2 _ (mk_is_Some _ _ eq_refl)).
  rewrite bind_run. unfold np_load. rewrite bind_run, emit_run.
  unfold io. cbn [log files]. rewrite Hf.
  cbn [mret M_ret ret]. by rewrite log_app.
Qed.

(** What a run that returns with [use_cache] true leaves behind. *)
Lemma cached_run_leaves (w w' : World) (d : string) (nsp : list Py.float)
    (cdir : string) (p : Preprocessed) :
  preprocess_series d nsp cdir true w = (Ok p, w') ->
  is_Some (files w' !! d)
  /\ makedirs_files cdir (files w') = Ok (files w')
  /\ files w' !! get_cache_path (series_id_of d) cdir
     = Some (NpyFile (volume p)).
Proof.
  intros Hrun.
  pose proof (get_cache_path_not_cache_dir d cdir) as Hne.
  destruct (preprocess_series_outcomes w d nsp cdir true)
    as [[_ Ho]|[Hd [(e & _ & Ho)|(w1 & He & Hcase)]]];
    cbv zeta in *; try (rewrite Hrun in Ho; discriminate).
  destruct (ensure_dir_ok _ _ _ He) as [Hmk _].
  destruct (makedirs_files_spec _ _ _ Hmk) as [Hch Hready].
  assert (Hd1 : is_Some (files w1 !! d))
    by (by apply (changes_within_is_Some _ _ _ _ _ Hch)).
  destruct Hcase as [(_ & Hhit & Ho)|(Hmiss & evs & _ & Ho)].
  - rewrite Hrun in Ho.
    destruct (np_load _ w1) as [[a|e] w2] eqn:Hl; [|discriminate].
    injection Ho as -> ->. apply np_load_ok in Hl as [Hf ->].
    cbn [log files volume]. done.
  - destruct Hmiss as [?|Hmiss]; [done|].
    destruct Ho as [(e & Ho)|[(p' & ? & _)|[(p' & fs & _ & Hsave & Ho)
                                           |(v & e & _ & _ & Ho)]]];
      [rewrite Hrun in Ho; discriminate|done| |rewrite Hrun in Ho; discriminate].
    rewrite Hrun in Ho. injection Ho as -> ->. cbn [files].
    destruct (np_save_files_spec _ _ _ _ Hsave) as [Hcp Hother].
    split; [|split; [|exact Hcp]].
    + apply (kept_is_Some (files w1 !! d)); [|done]. apply Hother.
      intros E. rewrite E, Hmiss in Hd1. by destruct Hd1.
    + apply (makedirs_files_after_save _ _ _ _ _ Hready Hsave); [done|].
      intros E. apply (get_cache_path_not_made d cdir). rewrite E. by left.
Qed.

(** X13. When the series directory does not exist the pipeline raises
    FileNotFoundError at once, whatever the other arguments: the cache is not
    consulted, the cache directory is not created, nothing is logged. *)
Theorem preprocess_series_missing_series_dir (w : World) (d : string)
    (nsp : list Py.float) (cdir : string) (uc : bool) :
  files w !! d = None ->
  preprocess_series d nsp cdir uc w
  = (Raise (FileNotFoundError_series_dir d), w).
Proof.
  intros Hd.
  destruct (preprocess_series_outcomes w d nsp cdir uc)
    as [[_ Ho]|[[n Hn] _]]; [exact Ho|congruence].
Qed.

(** X14. When the path of the cache directory is an existing file that is
    not a directory, the pipeline raises the FileExistsError of [makedirs]
    before it reads anything, with [use_cache] true and with [use_cache]
    false alike. *)
Theorem preprocess_series_cache_dir_is_a_file (w : World) (d : string)
    (nsp : list Py.float) (cdir : string) (uc : bool) (n : Node) :
  is_Some (files w !! d) ->
  files w !! cdir = Some n -> (forall names, n <> Dir names) ->
  preprocess_series d nsp cdir uc w
  = (Raise (FileExistsError_makedirs cdir), log w [EvMakedirs cdir]).
Proof.
  intros Hd Hc Hn.
  assert (He : ensure_dir cdir w
               = (Raise (FileExistsError_makedirs cdir),
                  log w [EvMakedirs cdir])).
  { unfold ensure_dir, makedirs. rewrite bind_run, emit_run. unfold io.
    cbn [log files]. unfold makedirs_files. rewrite Hc.
    destruct n as [names| | |]; [by destruct (Hn names)|done..]. }
  destruct (preprocess_series_outcomes w d nsp cdir uc)
    as [[Hd' _]|[_ [(e & He' & Ho)|(w1 & He' & _)]]]; cbv zeta in *.
  - rewrite Hd' in Hd. by destruct Hd.
  - rewrite He in He'. injection He' as <-. exact Ho.
  - rewrite He in He'. discriminate.
Qed.

(** X15. With [use_cache] false the pipeline never loads and never saves a
    cached array, even when a cache file for the series is there. The only
    change it makes to the files is what [os.makedirs] does for the cache
    directory, which it calls all the same: the files afterwards are those
    before or those that call leaves, where every entry is kept and the
    new ones are directories, the cache directory and the missing ones
    above it. When the series directory is there and the cache directory
    can be made, the first two calls that the log records are that
    [makedirs] and the listing of the series directory. *)
Theorem preprocess_series_without_cache (w : World) (d : string)
    (nsp : list Py.float) (cdir : string) :
  let run := preprocess_series d nsp cdir false w in
  Forall (fun e => ~ is_cache_event e) (new_events w run.2)
  /\ (files run.2 = files w
      \/ makedirs_files cdir (files w) = Ok (files run.2))
  /\ changes_within (makedirs_paths cdir) [] (files w) (files run.2)
  /\ (is_Some (files w !! d) -> (ensure_dir cdir w).1 = Ok tt ->
      new_events w run.2 !! 0%nat = Some (EvMakedirs cdir)
      /\ new_events w run.2 !! 1%nat = Some (EvListdir d)).
Proof.
  intros run. subst run.
  assert (Hmk : ~ is_cache_event (EvMakedirs cdir)) by (by intros ?).
  assert (Hls : ~ is_cache_event (EvListdir d)) by (by intros ?).
  destruct (preprocess_series_outcomes w d nsp cdir false)
    as [[Hd ->]|[Hd [(e & He & ->)|(w1 & He & Hcase)]]]; cbv zeta in *.
  - cbn [snd]. rewrite (new_events_log w w []) by (by rewrite app_nil_r).
    split; [constructor|]. split; [by left|].
    split; [apply changes_within_refl|].
    intros Hd'. rewrite Hd in Hd'. by destruct Hd'.
  - cbn [snd]. rewrite (new_events_log w _ [EvMakedirs cdir]) by done.
    split; [by repeat constructor|]. split; [by left|].
    split; [apply changes_within_refl|].
    intros _. by rewrite He.
  - destruct (ensure_dir_ok _ _ _ He) as [Hf Hev].
    destruct Hcase as [(? & _)|(_ & evs & Hall & Ho)]; [done|].
    assert (Hrun : exists r,
              preprocess_series d nsp cdir false w
              = (r, log w1 (EvListdir d :: evs))).
    { destruct Ho as [(e & ->)|[(p & _ & ->)|[(p & fs & ? & _)
                                             |(v & e & ? & _)]]];
        [eauto..|done|done]. }
    destruct Hrun as (r & ->). cbn [snd log files].
    rewrite (new_events_log w _ (EvMakedirs cdir :: EvListdir d :: evs))
      by (cbn [log events]; by rewrite Hev, <- app_assoc).
    split; [by repeat constructor|]. split; [by right|].
    split; [by apply makedirs_files_spec|]. done.
Qed.

(** X16. A run that returned with [use_cache] true is answered from the
    cache the next time: a second run on the same series and cache
    directory returns the same volume without listing the directory or
    reading a slice, whatever target spacing it is given, and with the
    SeriesInstanceUID as its only metadata. The cache is keyed by the name
    of the series directory alone. *)
Theorem preprocess_series_second_run (w w' : World) (d : string)
    (nsp nsp' : list Py.float) (cdir : string) (p : Preprocessed) :
  preprocess_series d nsp cdir true w = (Ok p, w') ->
  preprocess_series d nsp' cdir true w'
  = (Ok {| volume := volume p;
           metadata := {[ "SeriesInstanceUID" := PyStr (series_id_of d) ]} |},
     log w' [EvMakedirs cdir;
             EvNpLoad (get_cache_path (series_id_of d) cdir)]).
Proof.
  intros Hrun.
  destruct (cached_run_leaves _ _ _ _ _ _ Hrun) as (Hd & Hc & Hf).
  by apply (cache_hit_run w' d nsp' cdir).
Qed.

End PipelineMore.

Section PipelineCold.
Context `{Externals}.


End PipelineCold.

Section CacheMore.
Context `{Externals}.

(** Whatever a run does, every entry of the files is kept, but for new
    directories, the cache directory and the ones above it, and, with the
    cache in use, a new cache file of the series. *)
Lemma preprocess_series_changes (w : World) (d : string)
    (nsp : list Py.float) (cdir : string) (uc : bool) :
  changes_within (makedirs_paths cdir)
    (if uc then [get_cache_path (series_id_of d) cdir] else [])
    (files w) (files (preprocess_series d nsp cdir uc w).2).
Proof.
  destruct (preprocess_series_outcomes w d nsp cdir uc)
    as [[_ Ho]|[Hd [(e & _ & Ho)|(w1 & He & Hcase)]]];
    cbv zeta in *; try (rewrite Ho; apply changes_within_refl).
  destruct (ensure_dir_ok _ _ _ He) as [Hmk _].
  assert (Hch : changes_within (makedirs_paths cdir)
                  (if uc then [get_cache_path (series_id_of d) cdir] else [])
                  (files w) (files w1)).
  { eapply changes_within_mono; [| |apply (makedirs_files_spec _ _ _ Hmk)];
      [done|by intros ? []]. }
  destruct Hcase as [(_ & _ & Ho)|(Hmiss & evs & _ & Ho)].
  - rewrite Ho.
    pose proof (np_load_frame (get_cache_path (series_id_of d) cdir) w1) as Hw.
    destruct (np_load _ w1) as [[a|e] w2]; cbn [snd] in *; by subst w2.
  - destruct Ho as [(e & Ho)|[(q & _ & Ho)|[(q & fs & -> & Hsave & Ho)
                                           |(v & e & _ & _ & Ho)]]];
      rewrite Ho; cbn [snd log files]; try done.
    destruct Hmiss as [?|Hmiss]; [done|].
    apply (changes_within_trans _ _ _ (files w1)); [done|].
    eapply changes_within_mono; [| |apply (np_save_files_new _ _ _ _ Hmiss Hsave)];
      [by intros ? []|done].
Qed.

(** X19. A run of the pipeline never deletes and never overwrites,
    whether it returns or raises: every regular file of the disk is there
    afterwards, unchanged; every directory is a directory afterwards and
    lists every name it listed; and the only paths the run can create are
    directories, the cache directory and the missing ones above it, and,
    when the cache is in use, the cache file of the series, which then
    holds an array. *)
Theorem preprocess_series_never_overwrites (w : World) (d : string)
    (nsp : list Py.float) (cdir : string) (uc : bool) :
  let w' := (preprocess_series d nsp cdir uc w).2 in
  (forall p n, files w !! p = Some n -> (forall names, n <> Dir names) ->
     files w' !! p = Some n)
  /\ (forall p names, files w !! p = Some (Dir names) ->
        exists names', files w' !! p = Some (Dir names')
                       /\ forall n, In n names -> In n names')
  /\ (forall p, files w !! p = None -> is_Some (files w' !! p) ->
        (In p (makedirs_paths cdir)
         /\ exists names, files w' !! p = Some (Dir names))
        \/ (uc = true /\ p = get_cache_path (series_id_of d) cdir
            /\ exists a, files w' !! p = Some (NpyFile a))).
Proof.
  cbv zeta. pose proof (preprocess_series_changes w d nsp cdir uc) as Hch.
  split; [|split].
  - intros p n Hp Hn.
    destruct (Hch p) as [Hk|[(Hnone & _)|(Hnone & _)]]; [|congruence..].
    rewrite Hp in Hk. destruct n as [names| | |]; [by destruct (Hn names)|done..].
  - intros p names Hp.
    destruct (Hch p) as [Hk|[(Hnone & _)|(Hnone & _)]]; [|congruence..].
    rewrite Hp in Hk. exact Hk.
  - intros p Hp Hafter.
    destruct (Hch p) as [Hk|[(_ & Hin & Hd)|(_ & Hin & Hf)]].
    + rewrite Hp in Hk. cbn [kept] in Hk. rewrite Hk in Hafter.
      by destruct Hafter.
    + by left.
    + right. destruct uc; [|done]. destruct Hin as [<-|[]]. done.
Qed.

(** X20. [load_cached_volume] and the pipeline agree on the cache: where
    no file is at the cache path of a series the helper raises
    FileNotFoundError and reads nothing; after a run of the pipeline that
    returned with the cache in use, the helper called on the basename of
    the series directory returns the volume of that run. *)
Theorem load_cached_volume_round_trip (w : World) (d : string)
    (nsp : list Py.float) (cdir : string) :
  let cp := get_cache_path (series_id_of d) cdir in
  (files w !! cp = None ->
   load_cached_volume (series_id_of d) cdir w
   = (Raise (FileNotFoundError_path cp), w))
  /\ (forall p w',
        preprocess_series d nsp cdir true w = (Ok p, w') ->
        load_cached_volume (series_id_of d) cdir w'
        = (Ok (volume p), log w' [EvNpLoad cp])).
Proof.
  cbv zeta. split.
  - intros Hmiss. unfold load_cached_volume. rewrite bind_run.
    unfold path_exists. rewrite Hmiss.
    by rewrite bool_decide_eq_false_2 by (by intros [? ?]).
  - intros p w' Hrun.
    destruct (cached_run_leaves _ _ _ _ _ _ Hrun) as (_ & _ & Hf).
    unfold load_cached_volume. rewrite bind_run. unfold path_exists.
    rewrite Hf, (bool_decide_eq_true_2 _ (mk_is_Some _ _ eq_refl)).
    unfold np_load. rewrite bind_run, emit_run. unfold io.
    cbn [log files]. by rewrite Hf.
Qed.
End CacheMore.

Section BatchMore.
Context `{Externals} `{Orchestration}.

Lemma precache_one_run (d cdir : string) (w : World) :
  precache_one d cdir w
  = (Ok tt, (preprocess_series d default_new_spacing cdir true w).2).
Proof.
  unfold precache_one.
  by destruct (preprocess_series d default_new_spacing cdir true w) as [[]].
Qed.

Lemma precache_loop_cons (d : string) (dirs : list string) (cdir : string)
    (w : World) :
  precache_loop (d :: dirs) cdir w
  = precache_loop dirs cdir
      (preprocess_series d default_new_spacing cdir true w).2.
Proof.
  cbn [precache_loop]. rewrite bind_run, precache_one_run. done.
Qed.

Lemma precache_loop_ok (dirs : list string) (cdir : string) (w : World) :
  (precache_loop dirs cdir w).1 = Ok tt.
Proof.
  revert w. induction dirs as [|d dirs IH]; intros w; [done|].
  by rewrite precache_loop_cons.
Qed.

Lemma precache_loop_changes (dirs : list string) (cdir : string) (w : World) :
  changes_within (makedirs_paths cdir)
    (map (fun d => get_cache_path (series_id_of d) cdir) dirs)
    (files w) (files (precache_loop dirs cdir w).2).
Proof.
  revert w. induction dirs as [|d dirs IH]; intros w.
  { apply changes_within_refl. }
  rewrite precache_loop_cons.
  apply (changes_within_trans _ _ _
           (files (preprocess_series d default_new_spacing cdir true w).2)).
  - eapply changes_within_mono; [| |apply preprocess_series_changes];
      [done|]. intros p [<-|[]]. by left.
  - eapply changes_within_mono; [| |apply IH]; [done|].
    intros p Hin. by right.
Qed.

Lemma changes_within_file (dirs saved : list string)
    (fs fs' : gmap string Node) (p : string) (a : ndarray) :
  changes_within dirs saved fs fs' ->
  fs !! p = Some (NpyFile a) -> fs' !! p = Some (NpyFile a).
Proof.
  intros Hch Hp. destruct (Hch p) as [Hk|[(Hn & _)|(Hn & _)]];
    [|congruence..]. by rewrite Hp in Hk.
Qed.

Lemma precache_loop_app (pre post : list string) (cdir : string)
    (w : World) :
  precache_loop (pre ++ post) cdir w
  = precache_loop post cdir (precache_loop pre cdir w).2.
Proof.
  revert w. induction pre as [|d pre IH]; intros w; [done|].
  cbn [app]. by rewrite !precache_loop_cons, IH.
Qed.

(** X21. The loop of [precache_all] isolates failures and leaves no
    series behind: it returns whatever the series do, and at its end every
    series directory it was given has its volume in the cache, unless the
    run of the pipeline on that very series, at its turn, raised. *)
Theorem precache_loop_caches_or_reports (dirs : list string)
    (cdir : string) (w : World) :
  (precache_loop dirs cdir w).1 = Ok tt
  /\ forall d, d ∈ dirs ->
       is_npy_in (precache_loop dirs cdir w).2
         (get_cache_path (series_id_of d) cdir)
       \/ exists pre post e,
            dirs = pre ++ d :: post
            /\ (preprocess_series d default_new_spacing cdir true
                  (precache_loop pre cdir w).2).1 = Raise e.
Proof.
  split; [apply precache_loop_ok|].
  revert w. induction dirs as [|d0 dirs IH]; intros w d Hin.
  { by apply elem_of_nil in Hin. }
  rewrite precache_loop_cons.
  apply elem_of_cons in Hin as [->|Hin].
  - destruct (preprocess_series d0 default_new_spacing cdir true w)
      as [[p|e] w1] eqn:Hrun.
    + left. destruct (cached_run_leaves _ _ _ _ _ _ Hrun) as (_ & _ & Hf).
      exists (volume p). cbn [snd].
      by apply (changes_within_file _ _ _ _ _ _
                  (precache_loop_changes dirs cdir w1)).
    + right. exists [], dirs, e. split; [done|].
      change (precache_loop [] cdir w).2 with w. by rewrite Hrun.
  - destruct (IH (preprocess_series d0 default_new_spacing cdir true w).2
                d Hin) as [Hc|(pre & post & e & -> & Hr)]; [by left|].
    right. exists (d0 :: pre), post, e. split; [done|].
    by rewrite precache_loop_cons.
Qed.

Lemma insert_str_perm (x : string) (l : list string) :
  Permutation (insert_str x l) (x :: l).
Proof.
  induction l as [|y l IH]; [done|]. cbn [insert_str].
  destruct (String.ltb y x); [|done].
  rewrite IH. apply perm_swap.
Qed.

Lemma sorted_str_perm (l : list string) : Permutation (sorted_str l) l.
Proof.
  induction l as [|x l IH]; [done|]. cbn [sorted_str].
  by rewrite insert_str_perm, IH.
Qed.

Lemma not_ltb_leb (x y : string) :
  String.ltb y x = false -> String.leb x y = true.
Proof.
  unfold String.ltb, String.leb. rewrite (String.compare_antisym y x).
  by destruct (String.compare x y).
Qed.

Lemma ltb_leb (x y : string) : String.ltb y x = true -> String.leb y x = true.
Proof. unfold String.ltb, String.leb. by destruct (String.compare y x). Qed.

Lemma insert_str_sorted (x : string) (l : list string) :
  Sorted (fun a b => String.leb a b = true) l ->
  Sorted (fun a b => String.leb a b = true) (insert_str x l).
Proof.
  induction 1 as [|y l Hl IH Hhd]; [by repeat constructor|].
  cbn [insert_str]. destruct (String.ltb y x) eqn:E.
  - constructor; [done|].
    destruct l as [|z l]; cbn [insert_str].
    + constructor. by apply ltb_leb.
    + destruct (String.ltb z x); constructor.
      * by inversion Hhd.
      * by apply ltb_leb.
  - constructor; [by constructor|]. constructor. by apply not_ltb_leb.
Qed.

Lemma sorted_str_sorted (l : list string) :
  Sorted (fun a b => String.leb a b = true) (sorted_str l).
Proof.
  induction l as [|x l IH]; [constructor|]. by apply insert_str_sorted.
Qed.

(** X22. [list_series_dirs] returns, in ascending order of their names,
    the directories among the paths that the pattern series_root/* matches,
    each as many times as it is matched, and nothing else; it changes
    nothing on disk. *)
Theorem list_series_dirs_sorted_directories (series_root : string)
    (w : World) :
  exists l,
    list_series_dirs series_root w = (Ok l, w)
    /\ Sorted (fun a b => String.leb a b = true) l
    /\ Permutation l
         (List.filter (is_dir_in w)
            (glob_glob (Py.path_join series_root "*") w))
    /\ Forall (fun p => exists names, files w !! p = Some (Dir names)) l.
Proof.
  eexists. split; [reflexivity|]. split; [apply sorted_str_sorted|].
  split; [apply sorted_str_perm|].
  apply Forall_forall. intros p Hp.
  rewrite sorted_str_perm in Hp.
  apply list_elem_of_In, filter_In in Hp as [_ Hp].
  unfold is_dir_in in Hp.
  destruct (files w !! p) as [[names| | |]|]; try done. by exists names.
Qed.

(** X23. [precache_all] fails only before the first series: it raises
    what creating the cache directory raises, or what reading the CSV
    file raises when one is given and exists, and otherwise it returns,
    whatever the series do. In every case it deletes nothing and writes
    over nothing: each regular file that was on disk before is there
    afterwards, unchanged; each directory is a directory afterwards and
    lists every name it listed; and what is new is a directory, the cache
    directory or one above it, or an array at the cache path of a
    series. *)
Theorem precache_all_outcome (series_root : string)
    (csv_path : option string) (cache_dir : string) (w : World) :
  let run := precache_all series_root csv_path cache_dir w in
  (run.1 = Ok tt
   \/ (exists e, (ensure_dir cache_dir w).1 = Raise e /\ run.1 = Raise e)
   \/ (exists p e,
         csv_path = Some p /\ p <> ""
         /\ is_Some (files (ensure_dir cache_dir w).2 !! p)
         /\ read_series_ids p (ensure_dir cache_dir w).2 = Raise e
         /\ run.1 = Raise e))
  /\ (forall p n, files w !! p = Some n -> (forall names, n <> Dir names) ->
        files run.2 !! p = Some n)
  /\ (forall p names, files w !! p = Some (Dir names) ->
        exists names', files run.2 !! p = Some (Dir names')
                       /\ forall n, In n names -> In n names')
  /\ (forall p, files w !! p = None -> is_Some (files run.2 !! p) ->
        (In p (makedirs_paths cache_dir)
         /\ exists names, files run.2 !! p = Some (Dir names))
        \/ (exists d a,
              p = get_cache_path (series_id_of d) cache_dir
              /\ files run.2 !! p = Some (NpyFile a))).
Proof.
  cbv zeta.
  assert (Hframe : forall saved wf,
            changes_within (makedirs_paths cache_dir)
              (map (fun d => get_cache_path (series_id_of d) cache_dir) saved)
              (files w) (files wf) ->
            (forall p n, files w !! p = Some n ->
               (forall names, n <> Dir names) -> files wf !! p = Some n)
            /\ (forall p names, files w !! p = Some (Dir names) ->
                  exists names', files wf !! p = Some (Dir names')
                                 /\ forall n, In n names -> In n names')
            /\ (forall p, files w !! p = None -> is_Some (files wf !! p) ->
                  (In p (makedirs_paths cache_dir)
                   /\ exists names, files wf !! p = Some (Dir names))
                  \/ (exists d a,
                        p = get_cache_path (series_id_of d) cache_dir
                        /\ files wf !! p = Some (NpyFile a)))).
  { intros saved wf Hch. split; [|split].
    - intros p n Hp Hn.
      destruct (Hch p) as [Hk|[(Hnone & _)|(Hnone & _)]]; [|congruence..].
      rewrite Hp in Hk.
      destruct n as [names| | |]; [by destruct (Hn names)|done..].
    - intros p names Hp.
      destruct (Hch p) as [Hk|[(Hnone & _)|(Hnone & _)]]; [|congruence..].
      rewrite Hp in Hk. exact Hk.
    - intros p Hp Hafter.
      destruct (Hch p) as [Hk|[(_ & Hin & Hd)|(_ & Hin & a & Hf)]].
      + rewrite Hp in Hk. cbn [kept] in Hk. rewrite Hk in Hafter.
        by destruct Hafter.
      + by left.
      + right. apply in_map_iff in Hin as (d & <- & _). by exists d, a. }
  destruct (precache_all series_root csv_path cache_dir w) as [r wf] eqn:Hrun.
  unfold precache_all in Hrun. rewrite bind_run in Hrun.
  destruct (ensure_dir_cases cache_dir w) as [(e & He)|(w1 & He & _ & _)];
    rewrite He in Hrun |- *; cbn [fst snd].
  { injection Hrun as <- <-. split; [right; left; by exists e|].
    apply (Hframe []). apply changes_within_refl. }
  destruct (ensure_dir_ok _ _ _ He) as [Hmk _].
  assert (Hch1 : forall saved,
             changes_within (makedirs_paths cache_dir) saved
               (files w) (files w1)).
  { intros saved. eapply changes_within_mono;
      [| |apply (makedirs_files_spec _ _ _ Hmk)]; [done|by intros ? []]. }
  assert (Hloop : forall dirs,
             precache_loop dirs cache_dir w1 = (r, wf) ->
             r = Ok tt
             /\ changes_within (makedirs_paths cache_dir)
                  (map (fun d => get_cache_path (series_id_of d) cache_dir)
                       dirs)
                  (files w) (files wf)).
  { intros dirs Hl. split.
    - change r with (r, wf).1. rewrite <- Hl. apply precache_loop_ok.
    - apply (changes_within_trans _ _ _ (files w1)); [apply Hch1|].
      change wf with (r, wf).2. rewrite <- Hl.
      apply precache_loop_changes. }
  assert (Hlist : (list_series_dirs series_root ≫= λ series_dirs,
                     precache_loop series_dirs cache_dir) w1 = (r, wf) ->
                  r = Ok tt
                  /\ exists dirs,
                       changes_within (makedirs_paths cache_dir)
                         (map (fun d => get_cache_path (series_id_of d)
                                          cache_dir) dirs)
                         (files w) (files wf)).
  { rewrite bind_run. unfold list_series_dirs. intros Hl.
    destruct (Hloop _ Hl) as [-> Hk]. split; [done|]. by eexists. }
  destruct csv_path as [p|].
  2:{ destruct (Hlist Hrun) as [-> [dirs Hk]]. split; [by left|].
      by apply (Hframe dirs). }
  destruct (String.eqb p "") eqn:Ep.
  { destruct (Hlist Hrun) as [-> [dirs Hk]]. split; [by left|].
    by apply (Hframe dirs). }
  apply String.eqb_neq in Ep.
  rewrite !bind_run in Hrun. unfold path_exists at 1 in Hrun.
  destruct (files w1 !! p) as [n|] eqn:Hp.
  2:{ rewrite bool_decide_eq_false_2 in Hrun by (by intros [? ?]).
      unfold list_series_dirs in Hrun.
      destruct (Hloop _ Hrun) as [-> Hk]. split; [by left|].
      by eapply Hframe. }
  rewrite (bool_decide_eq_true_2 _ (mk_is_Some _ _ eq_refl)) in Hrun.
  unfold csv_series_dirs in Hrun. rewrite !bind_run in Hrun.
  unfold io in Hrun.
  destruct (read_series_ids p w1) as [ids|e] eqn:Hr.
  - destruct (Hloop _ Hrun) as [-> Hk]. split; [by left|].
    by eapply Hframe.
  - injection Hrun as <- <-. split.
    + right; right. by exists p, e.
    + apply (Hframe []). apply Hch1.
Qed.
End BatchMore.

(** ** Augmentation *)

Lemma Aug_bind_run {A B} (m : Aug A) (k : A -> Aug B) (g : Generators) :
  (m ≫= k) g = match m g with
               | (Ok a, g') => k a g'
               | (Raise e, g') => (Raise e, g')
               end.
Proof. reflexivity. Qed.

Lemma chunks_length (k n : nat) (l : list Q) : length (chunks k n l) = k.
Proof.
  revert l. induction k as [|k IH]; intros l; [done|].
  cbn [chunks length]. by rewrite IH.
Qed.

Lemma chunks_concat (k n : nat) (l : list Q) :
  length l = (k * n)%nat -> concat (chunks k n l) = l.
Proof.
  revert l. induction k as [|k IH]; intros l Hl.
  - by destruct l.
  - cbn [chunks concat]. rewrite IH; [apply firstn_skipn|].
    rewrite length_skipn. lia.
Qed.

Lemma chunks_each (k n : nat) (l : list Q) :
  length l = (k * n)%nat -> Forall (fun c => length c = n) (chunks k n l).
Proof.
  revert l. induction k as [|k IH]; intros l Hl; [constructor|].
  cbn [chunks]. constructor.
  - rewrite length_firstn. lia.
  - apply IH. rewrite length_skipn. lia.
Qed.

Lemma chunks_of_concat (n : nat) (ls : list (list Q)) :
  Forall (fun c => length c = n) ls ->
  chunks (length ls) n (concat ls) = ls.
Proof.
  induction 1 as [|c ls Hc _ IH]; [done|].
  cbn [length chunks concat].
  rewrite firstn_app, Hc, Nat.sub_diag, firstn_all2 by lia.
  rewrite skipn_app, Hc, Nat.sub_diag, skipn_all2 by lia.
  rewrite firstn_O, skipn_O, app_nil_r. cbn [app]. by rewrite IH.
Qed.

Lemma concat_length_each (n : nat) (ls : list (list Q)) :
  Forall (fun c => length c = n) ls ->
  length (concat ls) = (length ls * n)%nat.
Proof.
  induction 1 as [|c ls Hc _ IH]; [done|].
  cbn [concat length]. rewrite length_app, IH, Hc. lia.
Qed.

Lemma concat_rev_perm (ls : list (list Q)) :
  Permutation (concat (rev ls)) (concat ls).
Proof.
  induction ls as [|c ls IH]; [done|].
  cbn [rev concat]. rewrite concat_app. cbn [concat].
  rewrite app_nil_r, IH. apply Permutation_app_comm.
Qed.

(** One block with its runs in the opposite order. *)
Lemma flip_block_perm (e i : nat) (b : list Q) :
  length b = (e * i)%nat ->
  Permutation (concat (rev (chunks e i b))) b.
Proof.
  intros Hb. rewrite concat_rev_perm. by rewrite chunks_concat.
Qed.

Lemma flip_block_length (e i : nat) (b : list Q) :
  length b = (e * i)%nat ->
  length (concat (rev (chunks e i b))) = (e * i)%nat.
Proof.
  intros Hb. rewrite (Permutation_length (flip_block_perm e i b Hb)). done.
Qed.

Lemma flip_block_twice (e i : nat) (b : list Q) :
  length b = (e * i)%nat ->
  concat (rev (chunks e i (concat (rev (chunks e i b))))) = b.
Proof.
  intros Hb.
  pose proof (chunks_each e i b Hb) as Hall.
  assert (Hrev : Forall (fun c => length c = i) (rev (chunks e i b))).
  { apply Forall_forall. intros c Hc.
    apply list_elem_of_In, in_rev, list_elem_of_In in Hc.
    revert c Hc. by apply Forall_forall. }
  pose proof (chunks_of_concat i _ Hrev) as Hc.
  rewrite length_rev, chunks_length in Hc.
  rewrite Hc, rev_involutive. by apply chunks_concat.
Qed.

Lemma size_of_app (s1 s2 : list nat) :
  size_of (s1 ++ s2) = (size_of s1 * size_of s2)%nat.
Proof.
  unfold size_of. induction s1 as [|x s1 IH]; cbn [app fold_right].
  - by rewrite Nat.mul_1_l.
  - rewrite IH. apply Nat.mul_assoc.
Qed.

Lemma size_of_axis (shp : list nat) (a : nat) :
  (a < length shp)%nat ->
  size_of shp
  = (size_of (firstn a shp) * (nth a shp 0%nat * size_of (skipn (S a) shp)))%nat.
Proof.
  intros Ha.
  rewrite <- (firstn_skipn a shp) at 1. rewrite size_of_app. f_equal.
  destruct (skipn a shp) as [|x rest] eqn:E.
  { apply (f_equal (@length nat)) in E. rewrite length_skipn in E.
    cbn in E. lia. }
  assert (Hx : nth a shp 0%nat = x).
  { rewrite <- (firstn_skipn a shp) at 1.
    rewrite app_nth2; rewrite length_firstn; [|lia].
    replace (a - a `min` length shp)%nat with 0%nat by lia.
    by rewrite E. }
  assert (Hr : skipn (S a) shp = rest).
  { replace (S a) with (1 + a)%nat by lia.
    rewrite <- skipn_skipn, E. done. }
  by rewrite Hx, Hr.
Qed.

Lemma flip_axis_perm (shp : list nat) (a : nat) (l : list Q) :
  (a < length shp)%nat -> length l = size_of shp ->
  Permutation (flip_axis shp a l) l.
Proof.
  intros Ha Hl. rewrite (size_of_axis shp a Ha) in Hl.
  unfold flip_axis.
  set (o := size_of (firstn a shp)) in *.
  set (e := nth a shp 0%nat) in *.
  set (i := size_of (skipn (S a) shp)) in *.
  pose proof (chunks_each o (e * i) l Hl) as Hall.
  rewrite <- (chunks_concat o (e * i) l Hl) at 2.
  induction Hall as [|b bs Hb _ IH]; [done|].
  cbn [map concat]. by rewrite IH, (flip_block_perm e i b Hb).
Qed.

Lemma flip_axis_twice (shp : list nat) (a : nat) (l : list Q) :
  (a < length shp)%nat -> length l = size_of shp ->
  flip_axis shp a (flip_axis shp a l) = l.
Proof.
  intros Ha Hl. rewrite (size_of_axis shp a Ha) in Hl.
  unfold flip_axis.
  set (o := size_of (firstn a shp)) in *.
  set (e := nth a shp 0%nat) in *.
  set (i := size_of (skipn (S a) shp)) in *.
  pose proof (chunks_each o (e * i) l Hl) as Hall.
  set (f := fun block : list Q => concat (rev (chunks e i block))).
  assert (Hf : Forall (fun c => length c = (e * i)%nat)
                 (map f (chunks o (e * i) l))).
  { apply Forall_map. eapply Forall_impl; [exact Hall|].
    intros b Hb. by apply flip_block_length. }
  pose proof (chunks_of_concat (e * i) _ Hf) as Hc.
  rewrite length_map, chunks_length in Hc. rewrite Hc.
  rewrite map_map.
  rewrite <- (chunks_concat o (e * i) l Hl) at 2. f_equal.
  clear Hc Hf. induction Hall as [|b bs Hb _ IH]; [done|].
  cbn [map]. rewrite IH. f_equal. by apply flip_block_twice.
Qed.

Lemma normalize_axis_index_range (axis : Z) (nd a : nat) :
  normalize_axis_index axis nd = Ok a -> (a < nd)%nat.
Proof.
  unfold normalize_axis_index.
  destruct ((0 <=? axis)%Z && (axis <? Z.of_nat nd)%Z) eqn:E1.
  { intros [= <-]. apply andb_true_iff in E1 as [? ?]. lia. }
  destruct ((- Z.of_nat nd <=? axis)%Z && (axis <? 0)%Z) eqn:E2; [|done].
  intros [= <-]. apply andb_true_iff in E2 as [? ?]. lia.
Qed.

Lemma np_flip_ok (v v' : ndarray) (axis : Z) :
  well_formed v -> np_flip v axis = Ok v' ->
  shape v' = shape v /\ dtype v' = dtype v
  /\ Permutation (data v') (data v) /\ well_formed v'.
Proof.
  unfold np_flip, well_formed. intros Hv.
  destruct (normalize_axis_index axis (ndim v)) as [a|e] eqn:E; [|done].
  cbn [rbind]. intros [= <-]. cbn [shape dtype data].
  apply normalize_axis_index_range in E.
  pose proof (flip_axis_perm (shape v) a (data v) E Hv) as Hp.
  repeat split; [done|]. by rewrite (Permutation_length Hp).
Qed.

Section AugmentationMore.
Context `{Externals} `{Augmenters}.

Lemma random_random_run (g : Generators) :
  random_random g = (Ok (random_stream (py_drawn g)), after_draws g 1).
Proof.
  unfold random_random, after_draws. by rewrite Nat.add_1_r.
Qed.

Lemma random_uniform_run (a b : Q) (g : Generators) :
  random_uniform a b g
  = (Ok (a + (b - a) * random_stream (py_drawn g))%Q, after_draws g 1).
Proof.
  unfold random_uniform. by rewrite Aug_bind_run, random_random_run.
Qed.

Lemma after_draws_add (g : Generators) (n m : nat) :
  after_draws (after_draws g n) m = after_draws g (n + m).
Proof. unfold after_draws. cbn [py_drawn np_drawn]. f_equal. lia. Qed.

Lemma after_draws_0 (g : Generators) : after_draws g 0 = g.
Proof. destruct g. unfold after_draws. cbn. f_equal. lia. Qed.

(** X24. [random_flip] only rearranges: when it returns, the volume has
    the shape and the element type it had, and the same elements, each as
    many times as before; one number was drawn from [random] for each
    axis, and none from [np.random]. *)
Theorem random_flip_rearranges (volume out : ndarray) (axes : list Z)
    (p : Q) (g g' : Generators) :
  well_formed volume ->
  random_flip volume axes p g = (Ok out, g') ->
  shape out = shape volume /\ dtype out = dtype volume
  /\ Permutation (data out) (data volume)
  /\ g' = after_draws g (length axes).
Proof.
  revert volume g. induction axes as [|axis axes IH]; intros volume g Hv.
  - intros [= <- <-]. by rewrite after_draws_0.
  - cbn [random_flip]. rewrite Aug_bind_run, random_random_run.
    rewrite Aug_bind_run.
    destruct (Py.ltb (random_stream (py_drawn g)) p).
    + unfold aug_lift. destruct (np_flip volume axis) as [v1|e] eqn:E;
        [|done].
      destruct (np_flip_ok _ _ _ Hv E) as (Hs & Hd & Hp & Hv1).
      intros Hrun. destruct (IH _ _ Hv1 Hrun) as (Hs' & Hd' & Hp' & ->).
      rewrite Hs', Hd', Hp', Hs, Hd, Hp, after_draws_add. done.
    + intros Hrun. destruct (IH _ _ Hv Hrun) as (Hs' & Hd' & Hp' & ->).
      by rewrite after_draws_add.
Qed.

(** X25. With a probability that is not positive [random_flip] returns
    the volume it was given, as it is, for any list of axes, also axes
    that the volume does not have: no axis is looked at. *)
Theorem random_flip_disabled (volume : ndarray) (axes : list Z) (p : Q)
    (g : Generators) :
  (forall i, 0 <= random_stream i)%Q -> (p <= 0)%Q ->
  random_flip volume axes p g = (Ok volume, after_draws g (length axes)).
Proof.
  intros Hr Hp. revert g. induction axes as [|axis axes IH]; intros g.
  - by rewrite after_draws_0.
  - cbn [random_flip]. rewrite Aug_bind_run, random_random_run.
    rewrite Aug_bind_run.
    assert (Py.ltb (random_stream (py_drawn g)) p = false) as ->.
    { apply ltb_ge. specialize (Hr (py_drawn g)). lra. }
    change ((mret volume : Aug ndarray) (after_draws g 1))
      with (Ok volume, after_draws g 1).
    cbv beta iota. by rewrite IH, after_draws_add.
Qed.

(** X26. With a probability of 1 or more every axis is flipped:
    [random_flip] on the same axis twice gives the volume back, and an
    axis that the volume does not have raises AxisError at once, after one
    number drawn. *)
Theorem random_flip_certain (volume : ndarray) (axis : Z) (axes : list Z)
    (p : Q) (g : Generators) :
  (forall i, random_stream i < 1)%Q -> (1 <= p)%Q ->
  well_formed volume ->
  (forall a, normalize_axis_index axis (ndim volume) = Ok a ->
     random_flip volume [axis; axis] p g = (Ok volume, after_draws g 2))
  /\ (forall e, normalize_axis_index axis (ndim volume) = Raise e ->
        random_flip volume (axis :: axes) p g = (Raise e, after_draws g 1)).
Proof.
  intros Hr Hp Hv.
  assert (Hlt : forall g0, Py.ltb (random_stream (py_drawn g0)) p = true).
  { intros g0. apply ltb_lt. specialize (Hr (py_drawn g0)). lra. }
  split.
  - intros a Ha. cbn [random_flip].
    rewrite Aug_bind_run, random_random_run, Aug_bind_run, Hlt.
    unfold aug_lift, np_flip. rewrite Ha. cbn [rbind].
    rewrite Aug_bind_run, random_random_run, Aug_bind_run, Hlt.
    unfold ndim in *. cbn [shape dtype data]. rewrite Ha. cbn [rbind].
    rewrite flip_axis_twice;
      [|by apply normalize_axis_index_range in Ha|exact Hv].
    rewrite after_draws_add. by destruct volume.
  - intros e He. cbn [random_flip].
    rewrite Aug_bind_run, random_random_run, Aug_bind_run, Hlt.
    unfold aug_lift, np_flip. by rewrite He.
Qed.

Lemma clip_unit (x : Q) : in_unit (Qmin (Qmax x 0) 1).
Proof.
  unfold in_unit.
  destruct (Q.max_spec x 0) as [[? Hm]|[? Hm]];
    destruct (Q.min_spec (Qmax x 0) 1) as [[? Hn]|[? Hn]];
    rewrite Hn; rewrite ?Hm; rewrite ?Hm in *; lra.
Qed.

Lemma np_clip_unit (a : ndarray) : Forall in_unit (data (np_clip a 0 1)).
Proof.
  unfold np_clip. cbn [data]. apply Forall_map, Forall_forall.
  intros x _. apply clip_unit.
Qed.

Lemma uniform_between (a b u : Q) :
  (a <= b)%Q -> (0 <= u < 1)%Q ->
  (a <= a + (b - a) * u <= b)%Q.
Proof.
  intros Hab [Hu0 Hu1].
  assert (0 <= (b - a) * u)%Q by (apply Qmult_le_0_compat; lra).
  assert (0 <= (b - a) * (1 - u))%Q by (apply Qmult_le_0_compat; lra).
  split; lra.
Qed.

Lemma promote_float64 (t : scalar_type) : promote_types t float64 = float64.
Proof. by destruct t. Qed.

(** The noise step with a scale that is not negative. *)
Lemma random_gaussian_noise_run (volume : ndarray) (lo hi : Q)
    (g : Generators) :
  (0 <= lo + (hi - lo) * random_stream (py_drawn g))%Q ->
  exists out,
    random_gaussian_noise volume (lo, hi) g
    = (Ok out, {| py_drawn := S (py_drawn g);
                  np_drawn := (np_drawn g + size_of (shape volume))%nat |})
    /\ shape out = shape volume /\ dtype out = float64
    /\ Forall in_unit (data out)
    /\ length (data out)
       = (length (data volume) `min` size_of (shape volume))%nat.
Proof.
  intros Hs. unfold random_gaussian_noise. cbn [fst snd].
  rewrite Aug_bind_run, random_uniform_run, Aug_bind_run.
  unfold np_random_normal.
  apply ltb_ge in Hs. rewrite Hs. cbn [after_draws py_drawn np_drawn].
  rewrite Nat.add_1_r.
  eexists. split; [reflexivity|].
  split; [done|]. split.
  { unfold np_clip, add_noise. cbn [dtype]. by rewrite promote_float64. }
  split; [apply np_clip_unit|].
  unfold np_clip, add_noise. cbn [data].
  by rewrite length_map, length_zip_with, length_map, length_seq.
Qed.

(** The blur step: nothing, or the filter at a width between the bounds. *)
Lemma random_blur_cases (volume : ndarray) (lo hi p : Q) (g : Generators) :
  (forall i, 0 <= random_stream i < 1)%Q -> (lo <= hi)%Q ->
  random_blur volume (lo, hi) p g = (Ok volume, after_draws g 1)
  \/ exists sigma,
       (lo <= sigma <= hi)%Q
       /\ random_blur volume (lo, hi) p g
          = (ndimage_gaussian_filter volume sigma, after_draws g 2).
Proof.
  intros Hr Hlh. unfold random_blur. cbn [fst snd].
  rewrite Aug_bind_run, random_random_run.
  destruct (Py.ltb (random_stream (py_drawn g)) p); [|by left].
  right. rewrite Aug_bind_run, random_uniform_run. unfold aug_lift.
  rewrite after_draws_add.
  eexists. split; [|reflexivity].
  by apply uniform_between.
Qed.

(** X27. [random_intensity_shift] never raises and keeps the shape; it
    returns the volume untouched after one number drawn, or, after three,
    a volume whose values are all between 0 and 1; so a volume with values
    between 0 and 1 stays one. *)
Theorem random_intensity_shift_unit_range (volume : ndarray)
    (shift_range scale_range : Q * Q) (p : Q) (g : Generators) :
  exists out n,
    random_intensity_shift volume shift_range scale_range p g
    = (Ok out, after_draws g n)
    /\ shape out = shape volume
    /\ length (data out) = length (data volume)
    /\ ((n = 1%nat /\ out = volume)
        \/ (n = 3%nat /\ Forall in_unit (data out)
            /\ is_float (dtype out) = true))
    /\ (Forall in_unit (data volume) -> Forall in_unit (data out)).
Proof.
  unfold random_intensity_shift.
  rewrite Aug_bind_run, random_random_run.
  destruct (Py.ltb (random_stream (py_drawn g)) p).
  - rewrite Aug_bind_run, random_uniform_run.
    rewrite Aug_bind_run, random_uniform_run.
    rewrite !after_draws_add. cbn [Nat.add].
    eexists _, 3%nat. split; [reflexivity|].
    split; [unfold np_clip, scale_shift; by case_bool_decide|].
    split.
    { unfold np_clip, scale_shift. cbn [data].
      case_bool_decide; cbn [data]; by rewrite !length_map. }
    split; [|intros _; apply np_clip_unit].
    right. split; [done|]. split; [apply np_clip_unit|].
    unfold np_clip, scale_shift. cbn [dtype].
    by case_bool_decide.
  - exists volume, 1%nat. split; [done|]. repeat split; try done. by left.
Qed.

(** X28. [random_gaussian_noise] with a range of scales that starts at 0
    or above and does not go down returns, in float64, a volume of the
    shape it was given whose values are all between 0 and 1; it draws one
    number from [random] and one sample from [np.random] for each element
    of the shape. *)
Theorem random_gaussian_noise_unit_range (volume : ndarray) (lo hi : Q)
    (g : Generators) :
  (forall i, 0 <= random_stream i < 1)%Q ->
  (0 <= lo)%Q -> (lo <= hi)%Q ->
  exists out,
    random_gaussian_noise volume (lo, hi) g
    = (Ok out, {| py_drawn := S (py_drawn g);
                  np_drawn := (np_drawn g + size_of (shape volume))%nat |})
    /\ shape out = shape volume /\ dtype out = float64
    /\ Forall in_unit (data out)
    /\ (well_formed volume -> well_formed out).
Proof.
  intros Hr Hlo Hlh.
  destruct (random_gaussian_noise_run volume lo hi g)
    as (out & Hrun & Hs & Hd & Hu & Hl).
  { pose proof (uniform_between lo hi _ Hlh (Hr (py_drawn g))). lra. }
  exists out. repeat split; try done.
  unfold well_formed. intros Hv. rewrite Hl, Hs, Hv. lia.
Qed.

(** X29. [random_rotate] with a maximum angle that is not negative calls
    scipy's [rotate] once, on the volume it was given, with an angle
    between minus the maximum and the maximum, and returns or raises what
    that call does. *)
Theorem random_rotate_angle (volume : ndarray) (max_angle : Q)
    (axes : Z * Z) (g : Generators) :
  (forall i, 0 <= random_stream i < 1)%Q -> (0 <= max_angle)%Q ->
  exists angle,
    (- max_angle <= angle <= max_angle)%Q
    /\ random_rotate volume max_angle axes g
       = (ndimage_rotate volume angle axes, after_draws g 1).
Proof.
  intros Hr Hm. unfold random_rotate.
  rewrite Aug_bind_run, random_uniform_run, Aug_bind_run. unfold aug_lift.
  exists (- max_angle
          + (max_angle - - max_angle) * random_stream (py_drawn g))%Q.
  split; [apply uniform_between; [lra|apply Hr]|].
  by destruct (ndimage_rotate volume _ axes).
Qed.

(** X30. What [augment_volume] returns is a float32 array, and it is the
    cast to float32 either of a float64 volume with all values between 0
    and 1, or of Gaussian blur, at a width between 0.5 and 1.5, of such a
    volume: whatever the flips, the rotation and the intensity change
    gave, the noise step clips it, and only the blur comes after. *)
Theorem augment_volume_result (volume out : ndarray) (g g' : Generators) :
  (forall i, 0 <= random_stream i < 1)%Q ->
  augment_volume volume g = (Ok out, g') ->
  dtype out = float32
  /\ exists noisy,
       dtype noisy = float64 /\ Forall in_unit (data noisy)
       /\ (out = astype_float32 noisy
           \/ exists sigma blurred,
                (1 # 2 <= sigma <= 3 # 2)%Q
                /\ ndimage_gaussian_filter noisy sigma = Ok blurred
                /\ out = astype_float32 blurred).
Proof.
  intros Hr. unfold augment_volume.
  rewrite Aug_bind_run.
  destruct (random_flip volume [1%Z; 2%Z] (1 # 2) g) as [[v1|e] g1];
    [|done].
  rewrite Aug_bind_run.
  destruct (random_rotate v1 10 (1%Z, 2%Z) g1) as [[v2|e] g2]; [|done].
  rewrite Aug_bind_run.
  destruct (random_intensity_shift v2 default_shift_range
              default_scale_range (1 # 2) g2) as [[v3|e] g3]; [|done].
  rewrite Aug_bind_run.
  destruct (random_gaussian_noise_run v3 0 (5 # 100) g3)
    as (noisy & Hn & _ & Hd & Hu & _).
  { pose proof (uniform_between 0 (5 # 100) _ ltac:(lra) (Hr (py_drawn g3))).
    lra. }
  unfold default_sigma_range. rewrite Hn, Aug_bind_run.
  unfold default_blur_range.
  destruct (random_blur_cases noisy (1 # 2) (3 # 2) (3 # 10)
              {| py_drawn := S (py_drawn g3);
                 np_drawn := (np_drawn g3 + size_of (shape v3))%nat |}
              Hr ltac:(lra)) as [Hb|(sigma & Hs & Hb)]; rewrite Hb.
  - intros [= <- <-]. split; [done|]. exists noisy. by repeat split; [..|left].
  - destruct (ndimage_gaussian_filter noisy sigma) as [blurred|e] eqn:Hf;
      [|done].
    intros [= <- <-]. split; [done|]. exists noisy.
    split; [done|]. split; [done|]. right. by exists sigma, blurred.
Qed.

End AugmentationMore.

(** ** The resampler on examples *)

#[local] Existing Instance Examples.externals.

Lemma resample_isotropic_rank_witness :
  resample_isotropic Examples.image23 default_new_spacing default_new_spacing
    1 Examples.empty_world
  = (rbind (ndimage_zoom (newaxis Examples.image23)
              [Py.Fin 1; Py.Fin 1; Py.Fin 1] 1)
           (fun r => Ok (astype_float32 r)),
     log Examples.empty_world
       [EvZoom (newaxis Examples.image23) [Py.Fin 1; Py.Fin 1; Py.Fin 1] 1])
  /\ resample_isotropic Examples.channel1222 default_new_spacing
       default_new_spacing 1 Examples.empty_world
     = (rbind (ndimage_zoom (squeeze0 Examples.channel1222)
                 [Py.Fin 1; Py.Fin 1; Py.Fin 1] 1)
              (fun r => Ok (astype_float32 r)),
        log Examples.empty_world
          [EvZoom (squeeze0 Examples.channel1222)
             [Py.Fin 1; Py.Fin 1; Py.Fin 1] 1])
  /\ resample_isotropic Examples.line3 default_new_spacing
       default_new_spacing 1 Examples.empty_world
     = (Raise (ValueError_unexpected_shape [3%nat]), Examples.empty_world)
  /\ resample_isotropic Examples.rank5 default_new_spacing
       default_new_spacing 1 Examples.empty_world
     = (Raise (ValueError_unexpected_shape [1; 1; 1; 1; 1]%nat),
        Examples.empty_world)
  /\ resample_isotropic Examples.channel2111 default_new_spacing
       default_new_spacing 1 Examples.empty_world
     = (Raise (ValueError_unexpected_shape [2; 1; 1; 1]%nat),
        Examples.empty_world)
  /\ resample_isotropic Examples.volume222 [Py.Fin 1; Py.Fin 1]
       default_new_spacing 1 Examples.empty_world
     = (Raise (ValueError_unpack 3 2), Examples.empty_world).
Proof.
  assert (Hone : Py.quotient (Py.Fin 1) (Py.Fin 1) = Py.Fin 1)
    by (vm_compute; reflexivity).
  split; [|split; [|split; [|split; [|split]]]].
  - rewrite <- Hone at 1 2 3 4 5 6.
    apply (proj1 (resample_isotropic_rank Examples.empty_world Examples.image23
                    default_new_spacing default_new_spacing 1)
             2%nat 3%nat eq_refl); reflexivity.
  - rewrite <- Hone at 1 2 3 4 5 6.
    apply (proj1 (proj2 (resample_isotropic_rank Examples.empty_world
                           Examples.channel1222 default_new_spacing
                           default_new_spacing 1))
             2%nat 2%nat 2%nat eq_refl); reflexivity.
  - apply (proj1 (proj2 (proj2 (resample_isotropic_rank Examples.empty_world
                                  Examples.line3 default_new_spacing
                                  default_new_spacing 1))));
      vm_compute; [discriminate|discriminate|intros [? _]; discriminate].
  - apply (proj1 (proj2 (proj2 (resample_isotropic_rank Examples.empty_world
                                  Examples.rank5 default_new_spacing
                                  default_new_spacing 1))));
      vm_compute; [discriminate|discriminate|intros [? _]; discriminate].
  - apply (proj1 (proj2 (proj2 (resample_isotropic_rank Examples.empty_world
                                  Examples.channel2111 default_new_spacing
                                  default_new_spacing 1))));
      vm_compute; [discriminate|discriminate|intros [_ ?]; discriminate].
  - apply (proj2 (proj2 (proj2 (resample_isotropic_rank Examples.empty_world
                                  Examples.volume222 [Py.Fin 1; Py.Fin 1]
                                  default_new_spacing 1))));
      vm_compute; [right; left; reflexivity|discriminate].
Defined.

Lemma resample_isotropic_extent_witness :
  shape Examples.volume_10_50_50 = [10; 50; 50]%nat
  /\ exists out,
       (resample_isotropic Examples.volume_10_50_50
          [Py.Fin 2; Py.Fin 1; Py.Fin 1] default_new_spacing 1
          Examples.empty_world).1 = Ok out
       /\ shape out = [20; 50; 50]%nat /\ dtype out = float32.
Proof.
  split; [reflexivity|].
  assert (Hnz : Py.is_zero (Py.Fin 1) = false) by (vm_compute; reflexivity).
  assert (Hen : zoom_extent 10 (Py.quotient (Py.Fin 2) (Py.Fin 1))
                = Ok (Z.of_nat 20)) by (vm_compute; reflexivity).
  assert (Heh : zoom_extent 50 (Py.quotient (Py.Fin 1) (Py.Fin 1))
                = Ok (Z.of_nat 50)) by (vm_compute; reflexivity).
  destruct (resample_isotropic_extent (H := Examples.externals)
              Examples.empty_world Examples.volume_10_50_50 10 50 50
              (Py.Fin 2) (Py.Fin 1) (Py.Fin 1) (Py.Fin 1) (Py.Fin 1)
              (Py.Fin 1) 1 eq_refl Hnz Hnz Hnz)
    as (_ & Hret & _).
  eexists. split.
  - apply (Hret 20%nat 50%nat 50%nat _ ltac:(lia) Hen Heh Heh eq_refl).
  - split; reflexivity.
Defined.

Lemma resample_isotropic_no_spacing_check_witness :
  ndim Examples.volume111 = 3%nat
  /\ resample_isotropic Examples.volume111 default_new_spacing
       [Py.Fin 1; Py.Fin 0; Py.Fin 1] 1 Examples.empty_world
     = (Raise ZeroDivisionError, Examples.empty_world)
  /\ (resample_isotropic Examples.volume111 [Py.Fin 0; Py.Fin 1; Py.Fin 1]
        [Py.Fin (-1); Py.Fin 1; Py.Fin 1] 1 Examples.empty_world).1
     = rbind (ndimage_zoom Examples.volume111
                [Py.quotient (Py.Fin 0) (Py.Fin (-1));
                 Py.quotient (Py.Fin 1) (Py.Fin 1);
                 Py.quotient (Py.Fin 1) (Py.Fin 1)] 1)
         (fun r => Ok (astype_float32 r)).
Proof.
  split; [reflexivity|]. split.
  - apply (proj1 (resample_isotropic_no_spacing_check Examples.empty_world
                    Examples.volume111 (Py.Fin 1) (Py.Fin 1) (Py.Fin 1)
                    (Py.Fin 1) (Py.Fin 0) (Py.Fin 1) 1 eq_refl)).
    right. left. vm_compute. reflexivity.
  - rewrite (proj2 (resample_isotropic_no_spacing_check Examples.empty_world
                      Examples.volume111 (Py.Fin 0) (Py.Fin 1) (Py.Fin 1)
                      (Py.Fin (-1)) (Py.Fin 1) (Py.Fin 1) 1 eq_refl));
      [reflexivity|vm_compute; reflexivity..].
Defined.

(** C1 fails on the code: a call whose original and target spacings both
    have a negative component returns a volume. *)
Lemma resample_isotropic_accepts_negative_spacing :
  Exists (fun c => (c <= 0)%Q) ([(-2); 1; 1] ++ [(-1); 1; 1])%Q
  /\ exists out,
       (resample_isotropic Examples.volume111
          (map Py.Fin [(-2); 1; 1]%Q) (map Py.Fin [(-1); 1; 1]%Q) 1
          Examples.empty_world).1 = Ok out
       /\ shape out = [2; 1; 1]%nat.
Proof.
  split; [by constructor|].
  eexists. split; vm_compute; reflexivity.
Qed.

(** C6 fails on the code: the quotient 7.0 / 10.0 is rounded to a float
    below 7/10, so that 45 times it is below 31.5, and a volume of 45
    slices, at the spacing 7 resampled to the spacing 10, comes out with
    31 slices, where round(45 * 7 / 10) is 32. *)
Lemma resample_isotropic_extent_rounds_the_factor :
  shape MoreExamples.volume_45_1_1 = [45; 1; 1]%nat
  /\ Py.round (inject_Z 45 * 7 / 10) = 32%Z
  /\ exists out,
       (resample_isotropic MoreExamples.volume_45_1_1
          [Py.Fin 7; Py.Fin 1; Py.Fin 1] [Py.Fin 10; Py.Fin 1; Py.Fin 1] 1
          Examples.empty_world).1 = Ok out
       /\ shape out = [31; 1; 1]%nat.
Proof.
  split; [reflexivity|]. split; [reflexivity|].
  eexists. split; vm_compute; reflexivity.
Qed.

(** ** The pipeline on examples *)

Lemma preprocess_series_normalizes_before_resampling_witness :
  files Examples.world5 !! get_cache_path (series_id_of "series/1.2.3") "cache"
  = None
  /\ exists raw modality v3 zf,
       numeric_events
         (new_events Examples.world5
            (preprocess_series "series/1.2.3" default_new_spacing "cache" true
               Examples.world5).2)
       = [EvNormalize raw modality; EvZoom v3 zf default_order]
       /\ dtype raw = int16 /\ dtype v3 = float32.
Proof.
  assert (Hmiss : files Examples.world5
                  !! get_cache_path (series_id_of "series/1.2.3") "cache"
                  = None) by (vm_compute; reflexivity).
  split; [exact Hmiss|].
  destruct (preprocess_series_normalizes_before_resampling
              (H := Examples.externals) Examples.world5 "series/1.2.3"
              default_new_spacing "cache" true (or_intror Hmiss))
    as [[_ Hno]|(raw & meta & modality & Hload & _
                 & [[_ Hno]|(normed & v3 & zf & _ & _ & Hevs & _)])];
    [vm_compute in Hno; discriminate | vm_compute in Hno; discriminate |].
  exists raw, modality, v3, zf. split; [exact Hevs|].
  vm_compute in Hevs. injection Hevs as <- _ <- _.
  split; reflexivity.
Defined.

Lemma preprocess_series_cache_hit_witness :
  is_Some (files (Examples.world_cached Examples.volume222) !! "series/1.2.3")
  /\ (preprocess_series "series/1.2.3" default_new_spacing "cache" true
        (Examples.world_cached Examples.volume222)).1
     = Ok {| volume := Examples.volume222;
             metadata := {[ "SeriesInstanceUID" := PyStr "1.2.3" ]} |}
  /\ new_events (Examples.world_cached Examples.volume222)
       (preprocess_series "series/1.2.3" default_new_spacing "cache" true
          (Examples.world_cached Examples.volume222)).2
     = [EvMakedirs "cache"; EvNpLoad "cache/1.2.3.npy"].
Proof.
  assert (Hd : is_Some (files (Examples.world_cached Examples.volume222)
                        !! "series/1.2.3"))
    by (vm_compute; by eexists).
  split; [exact Hd|].
  destruct (preprocess_series_cache_hit (H := Examples.externals)
              (Examples.world_cached Examples.volume222) "series/1.2.3"
              default_new_spacing "cache" ["1.2.3.npy"] Examples.volume222
              Hd eq_refl eq_refl)
    as (Hr & _ & Hev & _).
  split; [exact Hr|exact Hev].
Defined.

(** C9 fails on the code: with [use_cache] true and a cache file for the
    series, but no series directory, nothing is returned from the cache. *)
Lemma preprocess_series_cache_needs_series_dir :
  files (Examples.world_cache_only Examples.volume222)
  !! get_cache_path (series_id_of "series/1.2.3") "cache"
  = Some (NpyFile Examples.volume222)
  /\ preprocess_series "series/1.2.3" default_new_spacing "cache" true
       (Examples.world_cache_only Examples.volume222)
     = (Raise (FileNotFoundError_series_dir "series/1.2.3"),
        Examples.world_cache_only Examples.volume222).
Proof. split; vm_compute; reflexivity. Qed.

(** ** The additional properties on examples *)

Lemma load_dicom_series_without_slice_file_witness :
  load_dicom_series "s" Examples.empty_world
  = (Raise (FileNotFoundError_path "s"),
     log Examples.empty_world [EvListdir "s"])
  /\ load_dicom_series "s/notes.txt" MoreExamples.world_no_slice
     = (Raise (NotADirectoryError_listdir "s/notes.txt"),
        log MoreExamples.world_no_slice [EvListdir "s/notes.txt"])
  /\ load_dicom_series "s" MoreExamples.world_no_slice
     = (Raise (FileNotFoundError_no_dicom "s"),
        log MoreExamples.world_no_slice [EvListdir "s"]).
Proof.
  split; [|split].
  - by apply (proj1 (load_dicom_series_without_slice_file
                       Examples.empty_world "s")).
  - apply (proj1 (proj2 (load_dicom_series_without_slice_file
                           MoreExamples.world_no_slice "s/notes.txt"))
             OtherFile); [vm_compute; reflexivity|done].
  - apply (proj2 (proj2 (load_dicom_series_without_slice_file
                           MoreExamples.world_no_slice "s"))
             ["notes.txt"; "scan.dcm.bak"]); [vm_compute; reflexivity|].
    repeat constructor.
Defined.

Lemma load_dicom_series_reads_only_witness :
  holds_series Examples.world5 "series/1.2.3"
    (map fst Examples.five_files ++ ["notes.txt"]) Examples.five_files
  /\ new_events Examples.world5
       (load_dicom_series "series/1.2.3" Examples.world5).2
     = EvListdir "series/1.2.3"
       :: map (fun f => EvDcmread (Py.path_join "series/1.2.3" f))
            (List.filter is_dicom_name
               (map fst Examples.five_files ++ ["notes.txt"])).
Proof.
  assert (H1 : holds_series Examples.world5 "series/1.2.3"
                 (map fst Examples.five_files ++ ["notes.txt"])
                 Examples.five_files) by holds_example.
  split; [exact H1|].
  by apply (proj2 (proj2 (load_dicom_series_reads_only
                            Examples.world5 "series/1.2.3")) _ _ H1).
Defined.

Lemma load_dicom_series_undecodable_slice_witness :
  files MoreExamples.world_bad_slice !! "s"
  = Some (Dir ["a.dcm"; "bad.dcm"; "c.dcm"])
  /\ load_dicom_series "s" MoreExamples.world_bad_slice
     = (Raise (InvalidDicomError "s/bad.dcm"),
        log MoreExamples.world_bad_slice
          [EvListdir "s"; EvDcmread "s/a.dcm"; EvDcmread "s/bad.dcm"]).
Proof.
  split; [vm_compute; reflexivity|].
  apply (load_dicom_series_undecodable_slice MoreExamples.world_bad_slice "s"
           ["a.dcm"; "bad.dcm"; "c.dcm"]
           [("a.dcm", Examples.bare_slice "A" 1 1 [7]%Z)] "bad.dcm"
           ["c.dcm"]).
  - vm_compute; reflexivity.
  - vm_compute; reflexivity.
  - repeat constructor.
  - repeat constructor.
  - vm_compute; reflexivity.
Defined.

Lemma load_dicom_series_metadata_witness :
  holds_series Examples.world5 "series/1.2.3"
    (map fst Examples.five_files ++ ["notes.txt"]) Examples.five_files
  /\ exists vol meta,
       (load_dicom_series "series/1.2.3" Examples.world5).1 = Ok (vol, meta)
       /\ dom meta
          = list_to_set ["PixelSpacing"; "SliceSpacing"; "SliceLocations";
                         "SOPInstanceUIDs"; "Modality"; "SeriesInstanceUID";
                         "PatientID"]
       /\ shape vol = [5; 2; 2]%nat.
Proof.
  assert (H1 : holds_series Examples.world5 "series/1.2.3"
                 (map fst Examples.five_files ++ ["notes.txt"])
                 Examples.five_files) by holds_example.
  assert (H2 : Examples.five_files <> []) by done.
  assert (H3 : Forall (fun e => shape (pixel_array e.2) = [2; 2]%nat)
                      Examples.five_files) by same_shape_example.
  split; [exact H1|].
  destruct (load_dicom_series_metadata _ _ _ _ _ H1 H2 H3)
    as (vol & meta & inst0 & rest & locs & uids
        & Hl & _ & Hdom & _ & _ & _ & _ & Hs & _).
  exists vol, meta. split; [exact Hl|]. split; [exact Hdom|exact Hs].
Defined.

Lemma load_dicom_series_buffer_size_witness :
  holds_series Examples.world5 "series/1.2.3"
    (map fst Examples.five_files ++ ["notes.txt"]) Examples.five_files
  /\ exists vol meta,
       (load_dicom_series "series/1.2.3" Examples.world5).1 = Ok (vol, meta)
       /\ length (data vol) = 20%nat.
Proof.
  assert (H1 : holds_series Examples.world5 "series/1.2.3"
                 (map fst Examples.five_files ++ ["notes.txt"])
                 Examples.five_files) by holds_example.
  assert (H2 : Examples.five_files <> []) by done.
  assert (H3 : Forall (fun e => shape (pixel_array e.2) = [2; 2]%nat)
                      Examples.five_files) by same_shape_example.
  assert (H4 : Forall (fun e => length (data (pixel_array e.2))
                                = size_of [2; 2]%nat)
                      Examples.five_files) by repeat constructor.
  split; [exact H1|].
  destruct (load_dicom_series_buffer_size _ _ _ _ _ H1 H2 H3 H4)
    as (vol & meta & Hl & _ & Hn).
  exists vol, meta. split; [exact Hl|exact Hn].
Defined.

Lemma resample_isotropic_target_arity_witness :
  ndim Examples.volume222 = 3%nat
  /\ resample_isotropic Examples.volume222 default_new_spacing
       [Py.Fin 1; Py.Fin 1] 1 Examples.empty_world
     = (Raise (ValueError_unpack 3 2), Examples.empty_world).
Proof.
  split; [reflexivity|].
  apply (resample_isotropic_target_arity (H := Examples.externals)
           Examples.empty_world Examples.volume222 default_new_spacing
           [Py.Fin 1; Py.Fin 1] 1);
    [by right; left|reflexivity|by vm_compute].
Defined.

Lemma resample_isotropic_same_spacing_witness :
  ndimage_zoom Examples.volume222 [Py.Fin 1; Py.Fin 1; Py.Fin 1] 1
  = Ok Examples.volume222
  /\ exists out,
       resample_isotropic Examples.volume222
         [Py.Fin 2; Py.Fin (1 # 2); Py.Fin (7 # 10)]
         [Py.Fin 2; Py.Fin (1 # 2); Py.Fin (7 # 10)] 1
         Examples.empty_world
       = (Ok out,
          log Examples.empty_world
            [EvZoom Examples.volume222 [Py.Fin 1; Py.Fin 1; Py.Fin 1] 1])
       /\ shape out = [2; 2; 2]%nat.
Proof.
  assert (Hz : ndimage_zoom Examples.volume222
                 [Py.Fin 1; Py.Fin 1; Py.Fin 1] 1
               = Ok Examples.volume222) by (vm_compute; reflexivity).
  split; [exact Hz|].
  apply (resample_isotropic_same_spacing (H := Examples.externals)
           Examples.empty_world Examples.volume222 2 2 2
           (Py.Fin 2) (Py.Fin (1 # 2)) (Py.Fin (7 # 10)) 1
           Examples.volume222 eq_refl).
  - repeat constructor.
  - repeat constructor; vm_compute; reflexivity.
  - exact Hz.
Defined.

Lemma Qred_monotone (x y : Q) : (x <= y)%Q -> (Qred x <= Qred y)%Q.
Proof. by rewrite !Qred_correct. Qed.

Lemma std_approx_nonneg (l : list Q) : (0 <= Examples.std_approx l)%Q.
Proof.
  unfold Examples.std_approx. destruct l as [|x l]; [done|].
  apply Qle_shift_div_l; [done|]. rewrite Qmult_0_l.
  change 0%Q with (inject_Z 0). rewrite <- Zle_Qle. apply Z.sqrt_nonneg.
Qed.

Lemma normalize_volume_unit_range_witness :
  (normalize_volume (Examples.array [0%nat] []) "CT" Examples.empty_world).1
  = Raise (LibraryError "zero-size array to reduction operation")
  /\ exists out,
       (normalize_volume MoreExamples.volume_hu "CT" Examples.empty_world).1
       = Ok out
       /\ Forall (fun y => (0 <= y <= 1)%Q) (data out).
Proof.
  split.
  - by apply (proj1 (normalize_volume_unit_range (H := Examples.externals)
                       Examples.empty_world (Examples.array [0%nat] [])
                       "CT")).
  - destruct (proj2 (normalize_volume_unit_range (H := Examples.externals)
                       Examples.empty_world MoreExamples.volume_hu "CT"))
      as (out & Ho & _ & _ & _ & Hu); [done|].
    exists out. split; [exact Ho|].
    apply Hu; [apply Qred_monotone|reflexivity|reflexivity].
Defined.

Lemma normalize_volume_monotone_witness :
  exists out a' b',
    (normalize_volume MoreExamples.volume_hu "MR" Examples.empty_world).1
    = Ok out
    /\ data out !! 1%nat = Some a' /\ data out !! 3%nat = Some b'
    /\ (a' <= b')%Q.
Proof.
  eexists _, _, _.
  split; [vm_compute; reflexivity|].
  split; [vm_compute; reflexivity|]. split; [vm_compute; reflexivity|].
  eapply (normalize_volume_monotone (H := Examples.externals)
            Examples.empty_world MoreExamples.volume_hu _ "MR" 1 3
            0 3000 _ _ Qred_monotone std_approx_nonneg);
    [vm_compute; reflexivity|reflexivity|reflexivity|done
    |vm_compute; reflexivity|vm_compute; reflexivity].
Defined.

Lemma normalize_cta_brain_window_witness :
  exists pre,
    normalize_cta MoreExamples.volume_hu
    = Ok {| shape := [1; 2; 2]%nat; dtype := float32;
            data := map float32_of pre |}
    /\ Forall2 (fun x y => (y == Qmin (Qmax x 0) 80 / (80 + eps))%Q
                           /\ (0 <= y < 1)%Q)
               (data MoreExamples.volume_hu) pre.
Proof.
  apply (normalize_cta_brain_window (H := Examples.externals)
           MoreExamples.volume_hu (-1000) 3000).
  - by left.
  - done.
  - by right; right; right; left.
  - done.
Defined.

Lemma normalize_volume_ignores_case_witness :
  (normalize_volume MoreExamples.volume_hu (Py.lower "Ct")
     Examples.empty_world).1
  = (normalize_volume MoreExamples.volume_hu "Ct" Examples.empty_world).1
  /\ (normalize_volume MoreExamples.volume_hu (Py.upper "Ct")
        Examples.empty_world).1
     = (normalize_volume MoreExamples.volume_hu "Ct" Examples.empty_world).1.
Proof.
  apply (normalize_volume_ignores_case (H := Examples.externals)).
  repeat constructor; vm_compute; lia.
Defined.

Lemma preprocess_series_missing_series_dir_witness :
  files (Examples.world_cache_only Examples.volume222) !! "series/1.2.3"
  = None
  /\ preprocess_series "series/1.2.3" default_new_spacing "cache" true
       (Examples.world_cache_only Examples.volume222)
     = (Raise (FileNotFoundError_series_dir "series/1.2.3"),
        Examples.world_cache_only Examples.volume222).
Proof.
  split; [vm_compute; reflexivity|].
  apply (preprocess_series_missing_series_dir (H := Examples.externals)).
  vm_compute; reflexivity.
Defined.

Lemma preprocess_series_cache_dir_is_a_file_witness :
  files MoreExamples.world_cache_is_file !! "cache" = Some OtherFile
  /\ preprocess_series "series/1.2.3" default_new_spacing "cache" false
       MoreExamples.world_cache_is_file
     = (Raise (FileExistsError_makedirs "cache"),
        log MoreExamples.world_cache_is_file [EvMakedirs "cache"]).
Proof.
  split; [vm_compute; reflexivity|].
  apply (preprocess_series_cache_dir_is_a_file (H := Examples.externals)
           MoreExamples.world_cache_is_file "series/1.2.3"
           default_new_spacing "cache" false OtherFile).
  - vm_compute. by eexists.
  - vm_compute; reflexivity.
  - done.
Defined.

Lemma preprocess_series_without_cache_witness :
  is_Some (files (Examples.world_cached Examples.volume222)
           !! "series/1.2.3")
  /\ new_events (Examples.world_cached Examples.volume222)
       (preprocess_series "series/1.2.3" default_new_spacing "cache" false
          (Examples.world_cached Examples.volume222)).2 !! 1%nat
     = Some (EvListdir "series/1.2.3")
  /\ Forall (fun e => ~ is_cache_event e)
       (new_events (Examples.world_cached Examples.volume222)
          (preprocess_series "series/1.2.3" default_new_spacing "cache" false
             (Examples.world_cached Examples.volume222)).2).
Proof.
  assert (Hd : is_Some (files (Examples.world_cached Examples.volume222)
                        !! "series/1.2.3"))
    by (vm_compute; by eexists).
  split; [exact Hd|].
  destruct (preprocess_series_without_cache (H := Examples.externals)
              (Examples.world_cached Examples.volume222) "series/1.2.3"
              default_new_spacing "cache") as (Hno & _ & _ & Hfirst).
  split; [|exact Hno].
  apply Hfirst; [exact Hd|vm_compute; reflexivity].
Defined.

(** The run of the pipeline on the five files, without a cache yet. *)
Lemma cold_run_example :
  exists p w',
    preprocess_series "series/1.2.3" default_new_spacing "cache" true
      Examples.world5 = (Ok p, w').
Proof. eexists _, _. vm_compute. reflexivity. Qed.

Lemma preprocess_series_second_run_witness :
  exists p w',
    preprocess_series "series/1.2.3" default_new_spacing "cache" true
      Examples.world5 = (Ok p, w')
    /\ preprocess_series "series/1.2.3" [Py.Fin 2; Py.Fin 2; Py.Fin 2]
         "cache" true w'
       = (Ok {| volume := volume p;
                metadata := {[ "SeriesInstanceUID" := PyStr "1.2.3" ]} |},
          log w' [EvMakedirs "cache"; EvNpLoad "cache/1.2.3.npy"]).
Proof.
  destruct cold_run_example as (p & w' & Hrun).
  exists p, w'. split; [exact Hrun|].
  exact (preprocess_series_second_run (H := Examples.externals)
           Examples.world5 w' "series/1.2.3" default_new_spacing
           [Py.Fin 2; Py.Fin 2; Py.Fin 2] "cache" p Hrun).
Defined.




Lemma preprocess_series_never_overwrites_witness :
  files (preprocess_series "series/1.2.3" default_new_spacing "out/cache" true
           Examples.world5).2 !! "series/1.2.3/notes.txt"
  = Some OtherFile
  /\ ((In "out" (makedirs_paths "out/cache")
       /\ exists names,
            files (preprocess_series "series/1.2.3" default_new_spacing
                     "out/cache" true Examples.world5).2 !! "out"
            = Some (Dir names))
      \/ (true = true
          /\ "out" = get_cache_path (series_id_of "series/1.2.3") "out/cache"
          /\ exists a,
               files (preprocess_series "series/1.2.3" default_new_spacing
                        "out/cache" true Examples.world5).2 !! "out"
               = Some (NpyFile a))).
Proof.
  destruct (preprocess_series_never_overwrites (H := Examples.externals)
              Examples.world5 "series/1.2.3" default_new_spacing "out/cache"
              true)
    as (Hkeep & _ & Hnew).
  split.
  - apply Hkeep; [vm_compute; reflexivity|discriminate].
  - apply Hnew; [vm_compute; reflexivity|vm_compute; eexists; reflexivity].
Defined.

Lemma load_cached_volume_round_trip_witness :
  load_cached_volume "1.2.3" "cache" Examples.world5
  = (Raise (FileNotFoundError_path "cache/1.2.3.npy"), Examples.world5)
  /\ exists p w',
       preprocess_series "series/1.2.3" default_new_spacing "cache" true
         Examples.world5 = (Ok p, w')
       /\ load_cached_volume "1.2.3" "cache" w'
          = (Ok (volume p), log w' [EvNpLoad "cache/1.2.3.npy"]).
Proof.
  destruct (load_cached_volume_round_trip (H := Examples.externals)
              Examples.world5 "series/1.2.3" default_new_spacing "cache")
    as (Hmiss & Hround).
  split; [apply Hmiss; vm_compute; reflexivity|].
  destruct cold_run_example as (p & w' & Hrun).
  exists p, w'. split; [exact Hrun|exact (Hround p w' Hrun)].
Defined.

Lemma precache_loop_caches_or_reports_witness :
  (precache_loop ["root/1.2.3"; "root/0.0.7"] "cache"
     MoreExamples.world_two_series).1 = Ok tt
  /\ is_npy_in (precache_loop ["root/1.2.3"; "root/0.0.7"] "cache"
                  MoreExamples.world_two_series).2 "cache/1.2.3.npy"
  /\ (is_npy_in (precache_loop ["root/1.2.3"; "root/0.0.7"] "cache"
                   MoreExamples.world_two_series).2
        (get_cache_path (series_id_of "root/0.0.7") "cache")
      \/ exists pre post e,
           ["root/1.2.3"; "root/0.0.7"] = pre ++ "root/0.0.7" :: post
           /\ (preprocess_series "root/0.0.7" default_new_spacing "cache" true
                 (precache_loop pre "cache"
                    MoreExamples.world_two_series).2).1 = Raise e).
Proof.
  destruct (precache_loop_caches_or_reports (H := Examples.externals)
              ["root/1.2.3"; "root/0.0.7"] "cache"
              MoreExamples.world_two_series) as (Hok & Hall).
  split; [exact Hok|]. split.
  - vm_compute. by eexists.
  - apply Hall. apply elem_of_cons. right. apply elem_of_cons. by left.
Defined.

Lemma list_series_dirs_sorted_directories_witness :
  list_series_dirs (H0 := MoreExamples.orchestration) "root"
    MoreExamples.world_two_series
  = (Ok ["root/0.0.7"; "root/1.2.3"], MoreExamples.world_two_series)
  /\ exists l,
       list_series_dirs (H0 := MoreExamples.orchestration) "root"
         MoreExamples.world_two_series
       = (Ok l, MoreExamples.world_two_series)
       /\ Sorted (fun a b => String.leb a b = true) l.
Proof.
  split; [vm_compute; reflexivity|].
  destruct (list_series_dirs_sorted_directories
              (H0 := MoreExamples.orchestration) "root"
              MoreExamples.world_two_series) as (l & Hl & Hs & _).
  exists l. split; [exact Hl|exact Hs].
Defined.

Lemma precache_all_outcome_witness :
  (precache_all (H0 := MoreExamples.orchestration) "root"
     (Some "root/train.csv") "cache" MoreExamples.world_two_series).1
  = Ok tt
  /\ files (precache_all (H0 := MoreExamples.orchestration) "root"
              (Some "root/train.csv") "cache"
              MoreExamples.world_two_series).2 !! "root/readme"
     = Some OtherFile
  /\ is_npy_in (precache_all (H0 := MoreExamples.orchestration) "root"
                  (Some "root/train.csv") "cache"
                  MoreExamples.world_two_series).2 "cache/1.2.3.npy".
Proof.
  destruct (precache_all_outcome (H := Examples.externals)
              (H0 := MoreExamples.orchestration) "root"
              (Some "root/train.csv") "cache" MoreExamples.world_two_series)
    as (_ & Hkeep & _).
  split; [vm_compute; reflexivity|].
  split; [apply Hkeep; [vm_compute; reflexivity|discriminate]|].
  vm_compute. by eexists.
Defined.

Lemma random_stream_example (i : nat) :
  (0 <= random_stream (Augmenters := MoreExamples.augmenters) i < 1)%Q.
Proof. cbn [random_stream MoreExamples.augmenters]. by destruct (Nat.even i). Qed.

Lemma random_flip_rearranges_witness :
  well_formed Examples.image23
  /\ random_flip (H0 := MoreExamples.augmenters) Examples.image23 [0; 1]%Z
       (1 # 2) MoreExamples.fresh
     = (Ok (Examples.array [2; 3]%nat [4; 5; 6; 1; 2; 3]%Z),
        after_draws MoreExamples.fresh 2)
  /\ Permutation (map inject_Z [4; 5; 6; 1; 2; 3]%Z)
       (data Examples.image23).
Proof.
  assert (Hrun : random_flip (H0 := MoreExamples.augmenters) Examples.image23
                   [0; 1]%Z (1 # 2) MoreExamples.fresh
                 = (Ok (Examples.array [2; 3]%nat [4; 5; 6; 1; 2; 3]%Z),
                    after_draws MoreExamples.fresh 2))
    by (vm_compute; reflexivity).
  split; [reflexivity|]. split; [exact Hrun|].
  apply (random_flip_rearranges (H0 := MoreExamples.augmenters)
           Examples.image23 _ _ _ _ _ eq_refl Hrun).
Defined.

Lemma random_flip_disabled_witness :
  random_flip (H0 := MoreExamples.augmenters) Examples.image23 [0; 7; -9]%Z 0
    MoreExamples.fresh
  = (Ok Examples.image23, after_draws MoreExamples.fresh 3).
Proof.
  apply (random_flip_disabled (H0 := MoreExamples.augmenters)
           Examples.image23 [0; 7; -9]%Z 0 MoreExamples.fresh).
  - intros i. apply random_stream_example.
  - done.
Defined.

Lemma random_flip_certain_witness :
  random_flip (H0 := MoreExamples.augmenters) Examples.image23 [-1; -1]%Z 1
    MoreExamples.fresh
  = (Ok Examples.image23, after_draws MoreExamples.fresh 2)
  /\ random_flip (H0 := MoreExamples.augmenters) Examples.image23 [2; 0]%Z 1
       MoreExamples.fresh
     = (Raise (LibraryError "AxisError"), after_draws MoreExamples.fresh 1).
Proof.
  split.
  - apply (proj1 (random_flip_certain (H0 := MoreExamples.augmenters)
                    Examples.image23 (-1) [] 1 MoreExamples.fresh
                    (fun i => proj2 (random_stream_example i))
                    ltac:(done) eq_refl) 1%nat eq_refl).
  - apply (proj2 (random_flip_certain (H0 := MoreExamples.augmenters)
                    Examples.image23 2 [0%Z] 1 MoreExamples.fresh
                    (fun i => proj2 (random_stream_example i))
                    ltac:(done) eq_refl) _ eq_refl).
Defined.

Lemma random_intensity_shift_unit_range_witness :
  exists out n,
    random_intensity_shift (H0 := MoreExamples.augmenters)
      MoreExamples.volume_hu default_shift_range default_scale_range (1 # 2)
      MoreExamples.fresh
    = (Ok out, after_draws MoreExamples.fresh n)
    /\ n = 3%nat /\ dtype out = float64 /\ Forall in_unit (data out).
Proof.
  destruct (random_intensity_shift_unit_range (H := Examples.externals)
              (H0 := MoreExamples.augmenters) MoreExamples.volume_hu
              default_shift_range default_scale_range (1 # 2)
              MoreExamples.fresh)
    as (out & n & Hrun & _ & _ & [[Hn Ho]|(Hn & Hu & _)] & _).
  - exfalso. rewrite Hn in Hrun. vm_compute in Hrun.
    injection Hrun as Hrun. subst out. discriminate.
  - exists out, n. split; [exact Hrun|]. split; [exact Hn|].
    split; [|exact Hu].
    rewrite Hn in Hrun. vm_compute in Hrun. by injection Hrun as <-.
Defined.

Lemma random_gaussian_noise_unit_range_witness :
  exists out,
    random_gaussian_noise (H0 := MoreExamples.augmenters) Examples.volume222
      default_sigma_range MoreExamples.fresh
    = (Ok out, {| py_drawn := 1; np_drawn := 8 |})
    /\ shape out = [2; 2; 2]%nat /\ dtype out = float64
    /\ Forall in_unit (data out) /\ well_formed out.
Proof.
  destruct (random_gaussian_noise_unit_range (H0 := MoreExamples.augmenters)
              Examples.volume222 0 (5 # 100) MoreExamples.fresh
              random_stream_example ltac:(done) ltac:(done))
    as (out & Hrun & Hs & Hd & Hu & Hw).
  exists out. split; [exact Hrun|]. split; [exact Hs|]. split; [exact Hd|].
  split; [exact Hu|]. apply Hw. reflexivity.
Defined.

Lemma random_rotate_angle_witness :
  exists angle,
    (- (10) <= angle <= 10)%Q
    /\ random_rotate (H0 := MoreExamples.augmenters) Examples.volume222 10
         (1, 2)%Z MoreExamples.fresh
       = (Ok Examples.volume222, after_draws MoreExamples.fresh 1).
Proof.
  destruct (random_rotate_angle (H0 := MoreExamples.augmenters)
              Examples.volume222 10 (1, 2)%Z MoreExamples.fresh
              random_stream_example ltac:(done)) as (angle & Ha & Hrun).
  exists angle. split; [exact Ha|exact Hrun].
Defined.

Lemma augment_volume_result_witness :
  exists out g',
    augment_volume (H := Examples.externals) (H0 := MoreExamples.augmenters)
      Examples.volume222 MoreExamples.fresh = (Ok out, g')
    /\ dtype out = float32
    /\ exists noisy,
         dtype noisy = float64 /\ Forall in_unit (data noisy)
         /\ (out = astype_float32 noisy
             \/ exists sigma blurred,
                  (1 # 2 <= sigma <= 3 # 2)%Q
                  /\ ndimage_gaussian_filter
                       (Augmenters := MoreExamples.augmenters) noisy sigma
                     = Ok blurred
                  /\ out = astype_float32 blurred).
Proof.
  eexists _, _. split; [vm_compute; reflexivity|].
  eapply (augment_volume_result (H := Examples.externals)
            (H0 := MoreExamples.augmenters) Examples.volume222 _
            MoreExamples.fresh _ random_stream_example).
  vm_compute; reflexivity.
Defined.
